(** * The source-plugin pipeline of the amass engine

    A shallow embedding of the plugins under [engine/plugins]: the five FQDN
    pipelines (Chaos, SecurityTrails, crt.sh, DuckDuckGo, SiteDossier) and the
    RDAP autnum handler, together with the collaborators they call (scope
    filter, configuration, rate limiter, web client, graph store and the
    [support] helpers).

    Every Go method is a computation in a state monad over a [World] that
    holds the clock, the session's done flag, the asset graph, the findings
    handed back to the event system and a chronological trace of every call
    made to a collaborator.  Properties of a pipeline run are read off that
    trace. *)

From Stdlib Require Import ZArith List String Ascii Bool Lia.
From stdpp Require Import base gmap sets list strings pretty sorting.
From Equations Require Import Equations.
Import ListNotations.

Open Scope string_scope.
Open Scope Z_scope.
Open Scope list_scope.

(** ** Go's [strings] and [fmt] functions used by the plugins

    Domain names are ASCII; the functions below act on bytes and agree with
    Go's on ASCII input. *)
Module GoStrings.

Definition is_upper (c : ascii) : bool :=
  let n := nat_of_ascii c in ((65 <=? n) && (n <=? 90))%nat.

Definition lower_ascii (c : ascii) : ascii :=
  if is_upper c then ascii_of_nat (nat_of_ascii c + 32) else c.

Fixpoint ToLower (s : string) : string :=
  match s with
  | EmptyString => EmptyString
  | String c s' => String (lower_ascii c) (ToLower s')
  end.

(** '\t', '\n', '\v', '\f', '\r' and ' '. *)
Definition is_space (c : ascii) : bool :=
  let n := nat_of_ascii c in (((9 <=? n) && (n <=? 13)) || (n =? 32))%nat.

Fixpoint trim_left (s : string) : string :=
  match s with
  | EmptyString => EmptyString
  | String c s' => if is_space c then trim_left s' else s
  end.

Fixpoint trim_right (s : string) : string :=
  match s with
  | EmptyString => EmptyString
  | String c s' =>
      match trim_right s' with
      | EmptyString => if is_space c then EmptyString else String c EmptyString
      | r => String c r
      end
  end.

Definition TrimSpace (s : string) : string := trim_right (trim_left s).

Definition EqualFold (s t : string) : bool := String.eqb (ToLower s) (ToLower t).

(** [strings.Split(s, sep)] for a one-byte separator. *)
Fixpoint Split (s : string) (sep : ascii) : list string :=
  match s with
  | EmptyString => [EmptyString]
  | String c s' =>
      if Ascii.eqb c sep then EmptyString :: Split s' sep
      else match Split s' sep with
           | h :: t => String c h :: t
           | [] => [String c EmptyString]
           end
  end.

Definition HasSuffix (s suffix : string) : bool :=
  let n := String.length s in
  let m := String.length suffix in
  (m <=? n)%nat && String.eqb (substring (n - m) m s) suffix.

(** Arguments of [fmt.Sprintf]; the plugins use the verbs [%s] and [%d]. *)
Inductive fmt_arg := ArgS (s : string) | ArgD (i : Z).

Definition show_arg (verb : ascii) (a : fmt_arg) : string :=
  match a with
  | ArgS s => if Ascii.eqb verb "s" then s else "%!" +:+ String verb ("(string=" +:+ s +:+ ")")
  | ArgD i => if Ascii.eqb verb "d" then pretty i else "%!" +:+ String verb ("(int=" +:+ pretty i +:+ ")")
  end.

Fixpoint Sprintf (format : string) (args : list fmt_arg) : string :=
  match format with
  | EmptyString => EmptyString
  | String c rest =>
      if Ascii.eqb c "%" then
        match rest with
        | String verb rest' =>
            match args with
            | a :: args' => show_arg verb a +:+ Sprintf rest' args'
            | [] => "%!" +:+ String verb "(MISSING)" +:+ Sprintf rest' []
            end
        | EmptyString => "%!(NOVERB)"
        end
      else String c (Sprintf rest args)
  end.

End GoStrings.

(** ** The open asset model and the asset graph *)

(** [oam.Asset]: the kinds of asset the plugins handle. *)
Inductive OAMAsset :=
| FQDN (Name : string)
| URL (Raw : string)
| ContactRecord (DiscoveredAt : string)
| AutnumRecord (Handle WhoisServer : string)
| SourceAsset (Name : string) (Confidence : Z)
| IPAddress (Address : string).

#[global] Instance OAMAsset_eq_dec : EqDecision OAMAsset.
Proof. solve_decision. Defined.

Definition AssetType (a : OAMAsset) : string :=
  match a with
  | FQDN _ => "FQDN"
  | URL _ => "URL"
  | ContactRecord _ => "ContactRecord"
  | AutnumRecord _ _ => "AutnumRecord"
  | SourceAsset _ _ => "Source"
  | IPAddress _ => "IPAddress"
  end.

(** Time in minutes since Go's zero time, [time.Time{}], which is
    [zero_time]. *)
Definition Time := Z.
Definition zero_time : Time := 0.
Definition Before (t u : Time) : bool := t <? u.

(** [dbt.Asset] / [dbt.Entity]: a node of the graph. *)
Record Entity := { ID : nat; Asset : OAMAsset; LastSeen : Time }.

(** [dbt.Relation]: an edge, kept by the identifiers of its end points. *)
Record Relation := { RelType : string; FromAsset : nat; ToAsset : nat; RelLastSeen : Time }.

Record Graph := { nodes : list Entity; rels : list Relation }.

(** [support.Finding] *)
Record Finding := { From : Entity; FromName : string; To : Entity; ToName : string; Rel : string }.

(** Modelled from the spec: the graph store behind [Session.DB()] is not
    among the sources.  Section 6, Graph Store: [createOrLink],
    [outgoingRelations] and [findById], here as an in-memory repository.
    What the store does on a call that succeeds is given here; whether a
    [Create] or a [Link] succeeds is left to the session (see [refuses]
    below). *)
Module DB.

Definition empty : Graph := {| nodes := []; rels := [] |}.

Definition FindByContent (g : Graph) (c : OAMAsset) : option Entity :=
  find (fun n => bool_decide (Asset n = c)) (nodes g).

Definition FindById (g : Graph) (id : nat) : option Entity :=
  find (fun n => (ID n =? id)%nat) (nodes g).

(** An identifier the graph does not use, neither for a node nor as an end
    point of an edge. *)
Definition fresh_id (g : Graph) : nat :=
  S (list_max (map ID (nodes g) ++ map FromAsset (rels g) ++ map ToAsset (rels g))).

Definition same_edge (t : string) (a b : nat) (r : Relation) : bool :=
  String.eqb (RelType r) t && (FromAsset r =? a)%nat && (ToAsset r =? b)%nat.

Definition refresh (t : string) (a b : nat) (now : Time) (r : Relation) : Relation :=
  if same_edge t a b r
  then {| RelType := RelType r; FromAsset := FromAsset r; ToAsset := ToAsset r; RelLastSeen := now |}
  else r.

(** [Link]: creates the edge, or refreshes its timestamp when it exists. *)
Definition Link (g : Graph) (now : Time) (a : Entity) (t : string) (b : Entity) : Graph :=
  if existsb (same_edge t (ID a) (ID b)) (rels g)
  then {| nodes := nodes g; rels := map (refresh t (ID a) (ID b) now) (rels g) |}
  else {| nodes := nodes g;
          rels := rels g ++ [{| RelType := t; FromAsset := ID a; ToAsset := ID b; RelLastSeen := now |}] |}.

(** [Create], when it succeeds: the node holding content [c] is found, and
    returned as it is stored, its [LastSeen] untouched, or it is created as
    seen now; with a parent it is linked under it by relation [t]. *)
Definition Create (g : Graph) (now : Time) (parent : option Entity) (t : string) (c : OAMAsset)
  : Entity * Graph :=
  let '(a, g1) :=
    match FindByContent g c with
    | Some n => (n, g)
    | None =>
        let n := {| ID := fresh_id g; Asset := c; LastSeen := now |} in
        (n, {| nodes := nodes g ++ [n]; rels := rels g |})
    end in
  match parent with
  | Some p => (a, Link g1 now p t a)
  | None => (a, g1)
  end.

Definition type_wanted (rtypes : list string) (r : Relation) : bool :=
  match rtypes with
  | [] => true
  | _ => existsb (String.eqb (RelType r)) rtypes
  end.

(** [OutgoingRelations]: the edges leaving [a] of the given types (all
    types when none is given); an error when there is none.  The store
    takes [since] and does not look at it. *)
Definition OutgoingRelations (g : Graph) (a : Entity) (since : Time) (rtypes : list string)
  : option (list Relation) :=
  match filter (fun r => (FromAsset r =? ID a)%nat && type_wanted rtypes r) (rels g) with
  | [] => None
  | rs => Some rs
  end.

End DB.

(** ** The world a pipeline runs in *)

(** [http.Request]: the URL and the one header the API plugins set. *)
Record Request := { ReqURL : string; Header : option (string * string) }.

(** Calls on [Session.DB()]. *)
Inductive DBCall :=
| CallOutgoingRelations (from : nat) (since : Time) (rtypes : list string)
| CallFindById (id : nat)
| CallCreate (parent : option nat) (t : string) (c : OAMAsset)
| CallLink (a : nat) (t : string) (b : nat).

(** One entry per call to a collaborator, in the order the calls are made. *)
Inductive Action :=
| ActConfig (plugin : string)                                (* Config().GetDataSourceConfig *)
| ActTransformations (from : string) (tos : list string)     (* Config().CheckTransformations *)
| ActScope (a : OAMAsset)                                    (* Scope().IsAssetInScope *)
| ActGetSource (src_name : string)                           (* support.GetSource *)
| ActTTL (from to plugin : string)                           (* support.TTLStartTime *)
| ActMonitored (asset src : nat) (since : Time) (fresh : bool) (* support.AssetMonitoredWithinTTL *)
| ActLookup (dname atype : string) (src : nat) (since : Time) (* support.SourceToAssetsWithinTTL *)
| ActTake (limiter : string)                                 (* rlimit.Take *)
| ActRequest (req : Request) (resp : option string)          (* http.RequestWebPage *)
| ActStore (names : list string) (src : nat)                 (* support.StoreFQDNsWithSource *)
| ActMark (asset src : nat)                                  (* support.MarkAssetMonitored *)
| ActProcess (emitted : nat)                                 (* support.Process...WithSource *)
| ActSubmit                                                  (* support.AppendToDBQueue *)
| ActDB (c : DBCall).                                        (* Session.DB() *)

Record World := {
  now : Time;              (* time.Now() *)
  Done : bool;             (* Session.Done() *)
  store_ok : bool;         (* whether support.GetSource can resolve or create the source node *)
  refuses : list Action -> bool;
                           (* whether the graph store answers the [Create] or [Link] that
                              ends these calls with an error *)
  graph : Graph;
  trace : list Action;
  findings : list Finding  (* handed back to the event system *)
}.

Definition set_graph (g : Graph) (w : World) : World :=
  {| now := now w; Done := Done w; store_ok := store_ok w; refuses := refuses w; graph := g;
     trace := trace w; findings := findings w |}.

Definition set_trace (t : list Action) (w : World) : World :=
  {| now := now w; Done := Done w; store_ok := store_ok w; refuses := refuses w;
     graph := graph w; trace := t; findings := findings w |}.

Definition set_findings (f : list Finding) (w : World) : World :=
  {| now := now w; Done := Done w; store_ok := store_ok w; refuses := refuses w;
     graph := graph w; trace := trace w; findings := f |}.

(** The state monad of the embedding. *)
Definition M (A : Type) : Type := World -> A * World.

Definition ret {A} (a : A) : M A := fun w => (a, w).

Definition bind {A B} (m : M A) (k : A -> M B) : M B :=
  fun w => let '(a, w1) := m w in k a w1.

Notation "'let*' x ':=' m 'in' k" := (bind m (fun x => k))
  (at level 10, x name, m at level 100, k at level 200, only parsing).
Notation "'let*' ' pat ':=' m 'in' k" := (bind m (fun x => match x with pat => k end))
  (at level 10, pat strict pattern, m at level 100, k at level 200, only parsing).

Definition log (a : Action) : M unit :=
  fun w => (tt, set_trace (trace w ++ [a]) w).

Definition get {A} (f : World -> A) : M A := fun w => (f w, w).

(** Go's [error]: [None] is [nil]. *)
Definition error := option string.
Definition errors_New (msg : string) : error := Some msg.

(** [config.Credentials] *)
Record Credentials := { Apikey : string }.

(** Go maps with string keys.  [for _, v := range m] visits the entries of a
    map in an order the language does not specify: a walk is given by the
    order [before] in which it takes the keys, which the environment
    chooses; whatever [before] is, the walk visits every entry once. *)
Module GoMap.

Definition range {V} (before : string -> string -> bool) (m : gmap string V) : list V :=
  (merge_sort (fun x y => Is_true (before x.1 y.1)) (map_to_list m)).*2.

End GoMap.

(** [rdap.Autnum]: the fields the handler reads. *)
Record RdapLink := { Href : string; LinkType : string }.
Record RdapEntity := { EntityHandle : string }.
Record RdapAutnum := { Links : list RdapLink; Entities : list RdapEntity }.

(** [config.Matches]: the transformations the configuration allows. *)
Definition Matches := list string.
Definition IsMatch (m : Matches) (to : string) : bool := existsb (String.eqb to) m.
Definition Len (m : Matches) : nat := length m.

(** The collaborators a session supplies: scope filter, configuration, the
    web, and the parsers, which are business logic outside the pipeline. *)
Record Env := {
  (* Scope().IsAssetInScope: canonical asset (or nil) and confidence *)
  InScope : OAMAsset -> Z -> option OAMAsset * Z;
  (* Config().GetDataSourceConfig(name).Creds, a map from account names to
     *Credentials ([None] is a nil pointer); [None] when ds is nil *)
  DataSourceCreds : string -> option (gmap string (option Credentials));
  (* the order in which [range ds.Creds] visits the keys *)
  RangeBefore : string -> string -> bool;
  (* the TTL policy, in minutes, keyed by (from, to, plugin) *)
  TTLPolicy : string -> string -> string -> option Z;
  (* Config().CheckTransformations; [None] is an error *)
  Transformations : string -> list string -> option Matches;
  (* the web: the response to a request given all that happened before;
     [None] is a non-nil error, [Some body] a response *)
  WebPage : list Action -> Request -> option string;
  (* support.ScrapeSubdomainNames *)
  ScrapeSubdomainNames : string -> list string;
  (* json.Unmarshal into struct{Subdomains []string} *)
  UnmarshalSubdomains : string -> option (list string);
  (* json.Unmarshal into struct{Certs []struct{Names string}} *)
  UnmarshalCerts : string -> option (list string);
  (* rdapPlugin.getJSONLink *)
  getJSONLink : list RdapLink -> option string;
  (* rdapPlugin.storeEntity *)
  storeEntity : RdapEntity -> Entity -> Entity -> Matches -> M (list Finding)
}.

(** [e.Session.Scope().IsAssetInScope(a, conf)] *)
Definition IsAssetInScope (env : Env) (a : OAMAsset) (conf : Z) : M (option OAMAsset * Z) :=
  let* _ := log (ActScope a) in ret (InScope env a conf).

(** [e.Session.Config().GetDataSourceConfig(name)] *)
Definition GetDataSourceConfig (env : Env) (plugin : string)
  : M (option (gmap string (option Credentials))) :=
  let* _ := log (ActConfig plugin) in ret (DataSourceCreds env plugin).

(** [e.Session.Config().CheckTransformations(from, tos...)] *)
Definition CheckTransformations (env : Env) (from : string) (tos : list string) : M (option Matches) :=
  let* _ := log (ActTransformations from tos) in ret (Transformations env from tos).

(** [http.RequestWebPage]: [(resp, err)] with [None] for [err != nil]. *)
Definition RequestWebPage (env : Env) (req : Request) : M (option string) :=
  fun w => let r := WebPage env (trace w) req in
           (r, set_trace (trace w ++ [ActRequest req r]) w).

(** [et.Event]: the subject asset and the optional pre-fetched evidence. *)
Record Event := { EvAsset : Entity; Meta : option RdapAutnum }.

(** [Session.DB()]: the repository calls, each logged.  [Create] and [Link]
    return an error, and leave the graph as it is, when the store refuses
    them. *)
Module SessionDB.

Definition OutgoingRelations (a : Entity) (since : Time) (rtypes : list string)
  : M (option (list Relation)) :=
  let* _ := log (ActDB (CallOutgoingRelations (ID a) since rtypes)) in
  get (fun w => DB.OutgoingRelations (graph w) a since rtypes).

Definition FindById (id : nat) (since : Time) : M (option Entity) :=
  let* _ := log (ActDB (CallFindById id)) in
  get (fun w => DB.FindById (graph w) id).

Definition Create (parent : option Entity) (t : string) (c : OAMAsset) : M (option Entity) :=
  let* _ := log (ActDB (CallCreate (ID <$> parent) t c)) in
  fun w =>
    if refuses w (trace w) then (None, w)
    else let '(a, g) := DB.Create (graph w) (now w) parent t c in (Some a, set_graph g w).

Definition Link (a : Entity) (t : string) (b : Entity) : M error :=
  let* _ := log (ActDB (CallLink (ID a) t (ID b))) in
  fun w =>
    if refuses w (trace w) then (errors_New "failed to link the assets", w)
    else (None, set_graph (DB.Link (graph w) (now w) a t b) w).

End SessionDB.

(** [source.Source] / [et.Source] *)
Record Source := { SourceName : string; Confidence : Z }.

(** The plugin structs ([chaos], [securityTrails], [crtsh], [duckDuckGo],
    [siteDossier], [whois]) share one shape; [rlimit] is the rate of the
    limiter built by [ratelimit.New(n, ratelimit.WithoutSlack)]. *)
Record plugin := { name : string; fmtstr : string; rlimit : Z; source : Source }.

(** [p.rlimit.Take()] *)
Definition Take (p : plugin) : M unit := log (ActTake (name p)).

(** ** Package [support] *)
Module support.

(** Modelled from the spec: [support.AppendToDBQueue] is not among the
    sources.  Section 4.4: submit enqueues a closure and blocks the caller
    until that closure has run to completion; whether the session is
    terminated is checked inside the mutation body, not by the queue. *)
Definition AppendToDBQueue {A} (mutation : M A) : M A :=
  let* _ := log ActSubmit in mutation.

(** Modelled from the spec: [support.GetSource] is not among the sources.
    Section 4.5, step 3: obtain or create the persisted source node; nil
    when the graph store cannot resolve or create it.  Sections 4.4 and 6:
    reading the node may happen outside the mutation queue, creating it
    is a write and goes through the queue. *)
Definition GetSource (psrc : Source) : M (option Entity) :=
  let* _ := log (ActGetSource (SourceName psrc)) in
  let* ok := get store_ok in
  if ok then
    let c := SourceAsset (SourceName psrc) (Confidence psrc) in
    let* found := get (fun w => DB.FindByContent (graph w) c) in
    match found with
    | Some n => ret (Some n)
    | None =>
        AppendToDBQueue (
          let* _ := log (ActDB (CallCreate None EmptyString c)) in
          fun w => let '(n, g) := DB.Create (graph w) (now w) None EmptyString c in
                   (Some n, set_graph g w))
    end
  else ret None.

(** Modelled from the spec: [support.TTLStartTime] is not among the
    sources.  Section 4.5, step 4: [since = now - ttl], the TTL being
    resolved from configuration keyed by (subject kind, evidence kind,
    source name); an error when no TTL policy exists for the triple. *)
Definition TTLStartTime (env : Env) (from to plugin : string) : M (Time * error) :=
  let* _ := log (ActTTL from to plugin) in
  fun w =>
    match TTLPolicy env from to plugin with
    | Some ttl => ((now w - ttl, None), w)
    | None => ((zero_time, errors_New "failed to obtain the TTL"), w)
    end.

Definition monitored_by (asset src : Entity) (since : Time) (r : Relation) : bool :=
  DB.same_edge "monitored_by" (ID asset) (ID src) r && negb (Before (RelLastSeen r) since).

(** Modelled from the spec: [support.AssetMonitoredWithinTTL] is not among
    the sources.  Section 4.2, [isFresh]: true iff a subject-to-source edge
    exists with timestamp at or after [since]. *)
Definition AssetMonitoredWithinTTL (asset src : Entity) (since : Time) : M bool :=
  fun w =>
    let b := existsb (monitored_by asset src since) (rels (graph w)) in
    (b, set_trace (trace w ++ [ActMonitored (ID asset) (ID src) since b]) w).

(** Modelled from the spec: [support.MarkAssetMonitored] is not among the
    sources.  Section 4.2, [markFresh]: idempotently records or refreshes
    the subject-to-source edge timestamp to now. *)
Definition MarkAssetMonitored (asset src : Entity) : M unit :=
  let* _ := log (ActMark (ID asset) (ID src)) in
  fun w => (tt, set_graph (DB.Link (graph w) (now w) asset "monitored_by" src) w).

Definition under (dname : string) (a : OAMAsset) : bool :=
  match a with
  | FQDN n => String.eqb n dname || GoStrings.HasSuffix n ("." +:+ dname)
  | _ => false
  end.

Definition sourced_by (g : Graph) (src : Entity) (since : Time) (n : Entity) : bool :=
  existsb (fun r => DB.same_edge "source" (ID n) (ID src) r && negb (Before (RelLastSeen r) since))
          (rels g).

(** Modelled from the spec: [support.SourceToAssetsWithinTTL] is not among
    the sources.  Section 4.2, [reuse]: the previously persisted results
    reachable from the subject (for names: the subject's name and the names
    under it) that are of the requested kind, linked to this source, and
    seen at or after the freshness threshold; the external source is not
    contacted. *)
Definition SourceToAssetsWithinTTL (dname atype : string) (src : Entity) (since : Time)
  : M (list Entity) :=
  let* _ := log (ActLookup dname atype (ID src) since) in
  get (fun w =>
         filter (fun n => String.eqb (AssetType (Asset n)) atype
                          && under dname (Asset n)
                          && negb (Before (LastSeen n) since)
                          && sourced_by (graph w) src since n)
                (nodes (graph w))).

Fixpoint store_names (src : Entity) (names : list string) : M (list Entity) :=
  match names with
  | [] => ret []
  | n :: rest =>
      let* a := SessionDB.Create None EmptyString (FQDN n) in
      match a with
      | Some a =>
          let* _ := SessionDB.Link a "source" src in
          let* results := store_names src rest in
          ret (a :: results)
      | None => store_names src rest
      end
  end.

(** Modelled from the spec: [support.StoreFQDNsWithSource] is not among the
    sources.  Section 4.5, step 5: submit a mutation that creates or links
    the values via the source node; section 4.4: the mutation is a no-op
    once the session is terminated. *)
Definition StoreFQDNsWithSource (names : list string) (src : Entity) (plugin handler : string)
  : M (list Entity) :=
  let* _ := log (ActStore names (ID src)) in
  AppendToDBQueue (
    let* done := get Done in
    if done then ret [] else store_names src names).

Definition asset_name (a : OAMAsset) : string :=
  match a with
  | FQDN n => n
  | URL raw => raw
  | ContactRecord d => "ContactRecord: " +:+ d
  | AutnumRecord h _ => "AutnumRecord: " +:+ h
  | SourceAsset n _ => n
  | IPAddress ip => ip
  end.

Definition emit (fs : list Finding) : M unit :=
  let* _ := log (ActProcess (length fs)) in
  fun w => (tt, set_findings (findings w ++ fs) w).

(** Modelled from the spec: [support.ProcessFQDNsWithSource] is not among
    the sources.  Section 4.5, step 6: for every persisted or reused value
    a Finding is constructed and the batch returned; section 8: its
    relation is the source's name followed by [-discovered]. *)
Definition ProcessFQDNsWithSource (e : Event) (assets : list Entity) (src : Entity) : M unit :=
  emit (map (fun a => {| From := EvAsset e; FromName := asset_name (Asset (EvAsset e));
                         To := a; ToName := asset_name (Asset a);
                         Rel := asset_name (Asset src) +:+ "-discovered" |}) assets).

(** Modelled from the spec: [support.ProcessAssetsWithSource] is not among
    the sources.  Section 4.5, step 6: the batch of Findings is returned to
    the event system. *)
Definition ProcessAssetsWithSource (e : Event) (fs : list Finding) (src : Entity)
           (plugin handler : string) : M unit :=
  emit fs.

End support.

(** ** Package [utils/net/dns] *)
Module dns.

(** What follows the last wildcard label of [s], if it has one. *)
Fixpoint after_wildcard (s : string) : option string :=
  match s with
  | EmptyString => None
  | String c s' =>
      match after_wildcard s' with
      | Some r => Some r
      | None =>
          match s' with
          | String d r => if Ascii.eqb c "*" && Ascii.eqb d "." then Some r else None
          | EmptyString => None
          end
      end
  end.

(** Modelled from the spec: [dns.RemoveAsteriskLabel] is not among the
    sources.  Section 4.3 names wildcard-label stripping as part of
    normalization: the name loses everything up to and including its last
    wildcard label. *)
Definition RemoveAsteriskLabel (s : string) : string :=
  match after_wildcard s with
  | Some r => r
  | None => s
  end.

End dns.

Definition dquote : string := String (ascii_of_nat 34) EmptyString.
Definition newline : ascii := ascii_of_nat 10.

(** The scope test every [check] starts with:
    [conf == 0 || a == nil], then [!ok || f == nil || !strings.EqualFold(...)]
    on the canonical asset.  It yields the canonical name when the subject
    passes. *)
Definition canonical_fqdn (a : option OAMAsset) : option string :=
  match a with
  | Some (FQDN f_Name) => Some f_Name
  | _ => None
  end.

(** ** The registry and the logger, as [Start] and [Stop] use them *)

(** [*slog.Logger]: the groups and the attributes it was derived with. *)
Record Logger := { Groups : list string; Attrs : list (string * string) }.

Definition WithGroup (l : Logger) (g : string) : Logger :=
  {| Groups := Groups l ++ [g]; Attrs := Attrs l |}.

Definition With (l : Logger) (key value : string) : Logger :=
  {| Groups := Groups l; Attrs := Attrs l ++ [(key, value)] |}.

(** Modelled from the spec: [et.Handler] and [et.Registry] are not among the
    sources.  Section 6: the event system is a collaborator the pipeline
    registers itself with, against an evidence kind, with a priority and a
    maximum instance count.  The fields are those the [Start] methods set;
    the plugin is kept by its name. *)
Record Handler := {
  HPlugin : string;
  HName : string;
  Priority : Z;
  MaxInstances : Z;
  Transforms : list string;
  EventType : string;
  Callback : Env -> Event -> M error
}.

(** Calls on the registry, and on the loggers derived from its logger. *)
Inductive RegistryCall :=
| CallRegisterHandler (h : Handler) (err : error)
| CallInfo (l : Logger) (msg : string).

(** Modelled from the spec: the registry is opaque (section 6), so what
    [RegisterHandler] answers is left to it and may depend on the calls
    before; [Log] is the logger behind [r.Log()]. *)
Record Registry := {
  Answer : list RegistryCall -> Handler -> error;
  Log : Logger;
  calls : list RegistryCall
}.

(** [r.RegisterHandler(h)] *)
Definition RegisterHandler (r : Registry) (h : Handler) : error * Registry :=
  let err := Answer r (calls r) h in
  (err, {| Answer := Answer r; Log := Log r; calls := calls r ++ [CallRegisterHandler h err] |}).

(** [l.Info(msg)] *)
Definition Info (l : Logger) (msg : string) (r : Registry) : Registry :=
  {| Answer := Answer r; Log := Log r; calls := calls r ++ [CallInfo l msg] |}.

(** A plugin struct with its [log] field ([plog]), which is nil until
    [Start] sets it. *)
Record instance := { this : plugin; plog : option Logger }.

(** What the constructors return. *)
Definition constructed (p : plugin) : instance := {| this := p; plog := None |}.

(** [l.Info(msg)] on the [log] field: a nil logger makes the call panic,
    which is [None]. *)
Definition log_Info (c : instance) (msg : string) (r : Registry) : option Registry :=
  match plog c with
  | Some l => Some (Info l msg r)
  | None => None
  end.

(** ** Package [api]: Chaos, SecurityTrails, crt.sh *)
Module api.

Definition NewChaos : plugin :=
  {| name := "Chaos"; fmtstr := EmptyString; rlimit := 10;
     source := {| SourceName := "Chaos"; Confidence := 80 |} |}.

Definition NewSecurityTrails : plugin :=
  {| name := "SecurityTrails"; fmtstr := EmptyString; rlimit := 2;
     source := {| SourceName := "SecurityTrails"; Confidence := 80 |} |}.

Definition NewCrtsh : plugin :=
  {| name := "crt.sh"; fmtstr := EmptyString; rlimit := 2;
     source := {| SourceName := "HackerTarget"; Confidence := 100 |} |}.

(** The loop [for _, cr := range ds.Creds] of both API checks, over the
    values in the order the walk visits them. *)
Fixpoint api_keys (creds : list (option Credentials)) : list string :=
  match creds with
  | [] => []
  | Some cr :: rest =>
      if negb (String.eqb (Apikey cr) EmptyString) then Apikey cr :: api_keys rest
      else api_keys rest
  | None :: rest => api_keys rest
  end.

(** *** chaos *)

Definition chaos_lookup (e : Event) (dname : string) (src : Entity) (since : Time)
  : M (list Entity) :=
  support.SourceToAssetsWithinTTL dname "FQDN" src since.

Definition chaos_store (c : plugin) (e : Event) (names : list string) (src : Entity)
  : M (list Entity) :=
  support.StoreFQDNsWithSource names src (name c) (name c +:+ "-Handler").

Definition chaos_process (e : Event) (assets : list Entity) (src : Entity) : M unit :=
  support.ProcessFQDNsWithSource e assets src.

(** [for _, sub := range result.Subdomains] *)
Fixpoint chaos_subdomains (env : Env) (dname : string) (subs : list string)
         (names : list string) : M (list string) :=
  match subs with
  | [] => ret names
  | sub :: rest =>
      let n := dns.RemoveAsteriskLabel (sub +:+ "." +:+ dname) in
      let* '(_, conf) := IsAssetInScope env (FQDN n) 0 in
      if 0 <? conf
      then chaos_subdomains env dname rest
             (names ++ [GoStrings.ToLower (GoStrings.TrimSpace n)])
      else chaos_subdomains env dname rest names
  end.

(** [for _, key := range keys] *)
Fixpoint chaos_keys (env : Env) (c : plugin) (dname : string) (keys : list string)
         (names : list string) : M (list string) :=
  match keys with
  | [] => ret names
  | key :: rest =>
      let* _ := Take c in
      let* resp := RequestWebPage env
                     {| ReqURL := "https://dns.projectdiscovery.io/dns/" +:+ dname +:+ "/subdomains";
                        Header := Some ("Authorization", key) |} in
      match resp with
      | None => chaos_keys env c dname rest names
      | Some Body =>
          match UnmarshalSubdomains env Body with
          | None => chaos_keys env c dname rest names
          | Some Subdomains =>
              let* names := chaos_subdomains env dname Subdomains names in
              chaos_keys env c dname rest names
          end
      end
  end.

Definition chaos_query (env : Env) (c : plugin) (e : Event) (dname : string) (src : Entity)
           (keys : list string) : M (list Entity) :=
  let* names := chaos_keys env c dname keys [] in
  chaos_store c e names src.

Definition chaos_check (env : Env) (c : plugin) (e : Event) : M error :=
  match Asset (EvAsset e) with
  | FQDN fqdn_Name =>
      let* ds := GetDataSourceConfig env (name c) in
      match ds with
      | None => ret None
      | Some Creds =>
          if (size Creds =? 0)%nat then ret None else
          let keys := api_keys (GoMap.range (RangeBefore env) Creds) in
          let* '(a, conf) := IsAssetInScope env (FQDN fqdn_Name) 0 in
          if (conf =? 0) || bool_decide (a = None) then ret None else
          match canonical_fqdn a with
          | None => ret None
          | Some f_Name =>
              if negb (GoStrings.EqualFold fqdn_Name f_Name) then ret None else
              let* src := support.GetSource (source c) in
              match src with
              | None => ret (errors_New "failed to obtain the plugin source information")
              | Some src =>
                  let* '(since, err) := support.TTLStartTime env "FQDN" "FQDN" (name c) in
                  match err with
                  | Some _ => ret err
                  | None =>
                      let* fresh := support.AssetMonitoredWithinTTL (EvAsset e) src since in
                      let* names :=
                        (if fresh then chaos_lookup e fqdn_Name src since
                         else let* names := chaos_query env c e fqdn_Name src keys in
                              let* _ := support.MarkAssetMonitored (EvAsset e) src in
                              ret names) in
                      let* _ := (if (0 <? length names)%nat
                                 then chaos_process e names src else ret tt) in
                      ret None
                  end
              end
          end
      end
  | _ => ret (errors_New "failed to extract the FQDN asset")
  end.

(** *** securityTrails *)

Definition securityTrails_lookup (e : Event) (dname : string) (src : Entity) (since : Time)
  : M (list Entity) :=
  support.SourceToAssetsWithinTTL dname "FQDN" src since.

Definition securityTrails_store (st : plugin) (e : Event) (names : list string) (src : Entity)
  : M (list Entity) :=
  support.StoreFQDNsWithSource names src (name st) (name st +:+ "-Handler").

Definition securityTrails_process (e : Event) (assets : list Entity) (src : Entity) : M unit :=
  support.ProcessFQDNsWithSource e assets src.

(** [for _, sub := range result.Subdomains] *)
Fixpoint securityTrails_subdomains (env : Env) (dname : string) (subs : list string)
         (names : list string) : M (list string) :=
  match subs with
  | [] => ret names
  | sub :: rest =>
      let nstr := GoStrings.ToLower (GoStrings.TrimSpace
                    (dns.RemoveAsteriskLabel (sub +:+ "." +:+ dname))) in
      let* '(_, conf) := IsAssetInScope env (FQDN nstr) 0 in
      if 0 <? conf
      then securityTrails_subdomains env dname rest (names ++ [nstr])
      else securityTrails_subdomains env dname rest names
  end.

(** [for _, key := range keys], left by [break] after the first response
    that is non-empty and parses. *)
Fixpoint securityTrails_keys (env : Env) (st : plugin) (dname : string) (keys : list string)
         (names : list string) : M (list string) :=
  match keys with
  | [] => ret names
  | key :: rest =>
      let* _ := Take st in
      let* resp := RequestWebPage env
                     {| ReqURL := "https://api.securitytrails.com/v1/domain/" +:+ dname +:+ "/subdomains";
                        Header := Some ("APIKEY", key) |} in
      match resp with
      | None => securityTrails_keys env st dname rest names
      | Some Body =>
          if String.eqb Body EmptyString then securityTrails_keys env st dname rest names else
          match UnmarshalSubdomains env Body with
          | None => securityTrails_keys env st dname rest names
          | Some Subdomains => securityTrails_subdomains env dname Subdomains names
          end
      end
  end.

Definition securityTrails_query (env : Env) (st : plugin) (e : Event) (dname : string)
           (src : Entity) (keys : list string) : M (list Entity) :=
  let* names := securityTrails_keys env st dname keys [] in
  securityTrails_store st e names src.

Definition securityTrails_check (env : Env) (st : plugin) (e : Event) : M error :=
  match Asset (EvAsset e) with
  | FQDN fqdn_Name =>
      let* ds := GetDataSourceConfig env (name st) in
      match ds with
      | None => ret None
      | Some Creds =>
          if (size Creds =? 0)%nat then ret None else
          let keys := api_keys (GoMap.range (RangeBefore env) Creds) in
          let* '(a, conf) := IsAssetInScope env (FQDN fqdn_Name) 0 in
          if (conf =? 0) || bool_decide (a = None) then ret None else
          match canonical_fqdn a with
          | None => ret None
          | Some f_Name =>
              if negb (GoStrings.EqualFold fqdn_Name f_Name) then ret None else
              let* src := support.GetSource (source st) in
              match src with
              | None => ret (errors_New "failed to obtain the plugin source information")
              | Some src =>
                  let* '(since, err) := support.TTLStartTime env "FQDN" "FQDN" (name st) in
                  match err with
                  | Some _ => ret err
                  | None =>
                      let* fresh := support.AssetMonitoredWithinTTL (EvAsset e) src since in
                      let* names :=
                        (if fresh then securityTrails_lookup e fqdn_Name src since
                         else let* names := securityTrails_query env st e fqdn_Name src keys in
                              let* _ := support.MarkAssetMonitored (EvAsset e) src in
                              ret names) in
                      let* _ := (if (0 <? length names)%nat
                                 then securityTrails_process e names src else ret tt) in
                      ret None
                  end
              end
          end
      end
  | _ => ret (errors_New "failed to extract the FQDN asset")
  end.

(** *** crtsh *)

Definition crtsh_lookup (e : Event) (dname : string) (src : Entity) (since : Time)
  : M (list Entity) :=
  support.SourceToAssetsWithinTTL dname "FQDN" src since.

Definition crtsh_store (c : plugin) (e : Event) (names : list string) (src : Entity)
  : M (list Entity) :=
  support.StoreFQDNsWithSource names src (name c) (name c +:+ "-Handler").

Definition crtsh_process (e : Event) (assets : list Entity) (src : Entity) : M unit :=
  support.ProcessFQDNsWithSource e assets src.

(** [for _, n := range strings.Split(cert.Names, "\n")] *)
Fixpoint crtsh_cert_names (env : Env) (ns : list string) (names : list string)
  : M (list string) :=
  match ns with
  | [] => ret names
  | n :: rest =>
      let nstr := GoStrings.ToLower (GoStrings.TrimSpace (dns.RemoveAsteriskLabel n)) in
      let* '(_, conf) := IsAssetInScope env (FQDN nstr) 0 in
      if 0 <? conf
      then crtsh_cert_names env rest (names ++ [nstr])
      else crtsh_cert_names env rest names
  end.

(** [for _, cert := range result.Certs] *)
Fixpoint crtsh_certs (env : Env) (certs : list string) (names : list string)
  : M (list string) :=
  match certs with
  | [] => ret names
  | cert_Names :: rest =>
      let* names := crtsh_cert_names env (GoStrings.Split cert_Names newline) names in
      crtsh_certs env rest names
  end.

Definition crtsh_query (env : Env) (c : plugin) (e : Event) (dname : string) (src : Entity)
  : M (list Entity) :=
  let* _ := Take c in
  let* resp := RequestWebPage env
                 {| ReqURL := "https://crt.sh/?CN=" +:+ dname +:+ "&output=json&exclude=expired";
                    Header := None |} in
  match resp with
  | None => ret []
  | Some Body =>
      match UnmarshalCerts env ("{" +:+ dquote +:+ "certs" +:+ dquote +:+ ":" +:+ Body +:+ "}") with
      | None => ret []
      | Some Certs =>
          let* names := crtsh_certs env Certs [] in
          crtsh_store c e names src
      end
  end.

Definition crtsh_check (env : Env) (c : plugin) (e : Event) : M error :=
  match Asset (EvAsset e) with
  | FQDN fqdn_Name =>
      let* '(a, conf) := IsAssetInScope env (FQDN fqdn_Name) 0 in
      if (conf =? 0) || bool_decide (a = None) then ret None else
      match canonical_fqdn a with
      | None => ret None
      | Some f_Name =>
          if negb (GoStrings.EqualFold fqdn_Name f_Name) then ret None else
          let* src := support.GetSource (source c) in
          match src with
          | None => ret (errors_New "failed to obtain the plugin source information")
          | Some src =>
              let* '(since, err) := support.TTLStartTime env "FQDN" "FQDN" (name c) in
              match err with
              | Some _ => ret err
              | None =>
                  let* fresh := support.AssetMonitoredWithinTTL (EvAsset e) src since in
                  let* names :=
                    (if fresh then crtsh_lookup e fqdn_Name src since
                     else let* names := crtsh_query env c e fqdn_Name src in
                          let* _ := support.MarkAssetMonitored (EvAsset e) src in
                          ret names) in
                  let* _ := (if (0 <? length names)%nat
                             then crtsh_process e names src else ret tt) in
                  ret None
              end
          end
      end
  | _ => ret (errors_New "failed to extract the FQDN asset")
  end.

(** *** Name, Start and Stop *)

Definition chaos_Name (c : instance) : string := name (this c).

Definition chaos_Start (c : instance) (r : Registry) : error * instance * Registry :=
  let l := With (WithGroup (Log r) "plugin") "name" (name (this c)) in
  let c := {| this := this c; plog := Some l |} in
  let '(err, r) :=
    RegisterHandler r {| HPlugin := name (this c);
                         HName := name (this c) +:+ "-Handler";
                         Priority := 5;
                         MaxInstances := 10;
                         Transforms := ["FQDN"];
                         EventType := "FQDN";
                         Callback := fun env e => chaos_check env (this c) e |} in
  match err with
  | Some _ => (err, c, r)
  | None => (None, c, Info l "Plugin started" r)
  end.

Definition chaos_Stop (c : instance) (r : Registry) : option Registry :=
  log_Info c "Plugin stopped" r.

Definition securityTrails_Name (st : instance) : string := name (this st).

Definition securityTrails_Start (st : instance) (r : Registry) : error * instance * Registry :=
  let l := With (WithGroup (Log r) "plugin") "name" (name (this st)) in
  let st := {| this := this st; plog := Some l |} in
  let '(err, r) :=
    RegisterHandler r {| HPlugin := name (this st);
                         HName := name (this st) +:+ "-Handler";
                         Priority := 6;
                         MaxInstances := 10;
                         Transforms := ["FQDN"];
                         EventType := "FQDN";
                         Callback := fun env e => securityTrails_check env (this st) e |} in
  match err with
  | Some _ => (err, st, r)
  | None => (None, st, Info l "Plugin started" r)
  end.

Definition securityTrails_Stop (st : instance) (r : Registry) : option Registry :=
  log_Info st "Plugin stopped" r.

Definition crtsh_Name (c : instance) : string := name (this c).

Definition crtsh_Start (c : instance) (r : Registry) : error * instance * Registry :=
  let l := With (WithGroup (Log r) "plugin") "name" (name (this c)) in
  let c := {| this := this c; plog := Some l |} in
  let '(err, r) :=
    RegisterHandler r {| HPlugin := name (this c);
                         HName := name (this c) +:+ "-Handler";
                         Priority := 5;
                         MaxInstances := 10;
                         Transforms := ["FQDN"];
                         EventType := "FQDN";
                         Callback := fun env e => crtsh_check env (this c) e |} in
  match err with
  | Some _ => (err, c, r)
  | None => (None, c, Info l "Plugin started" r)
  end.

Definition crtsh_Stop (c : instance) (r : Registry) : option Registry :=
  log_Info c "Plugin stopped" r.

End api.

(** [github.com/caffix/stringset]: a set of strings kept in lower case. *)
Module stringset.

Definition Set_ := gset string.

Definition New : Set_ := ∅.

Definition Insert (s : Set_) (element : string) : Set_ :=
  {[ GoStrings.ToLower element ]} ∪ s.

Definition Slice (s : Set_) : list string := elements s.

End stringset.

(** ** Package [scrape]: DuckDuckGo, SiteDossier *)
Module scrape.

Import GoStrings.

Definition NewDuckDuckGo : plugin :=
  {| name := "DuckDuckGo";
     fmtstr := "https://html.duckduckgo.com/html/?q=site:%s -site:www.%s";
     rlimit := 2;
     source := {| SourceName := "DuckDuckGo"; Confidence := 60 |} |}.

Definition NewSiteDossier : plugin :=
  {| name := "SiteDossier";
     fmtstr := "http://www.sitedossier.com/parentdomain/%s/%d";
     rlimit := 4;
     source := {| SourceName := "SiteDossier"; Confidence := 60 |} |}.

(** *** duckDuckGo *)

Definition duckDuckGo_lookup (e : Event) (dname : string) (src : Entity) (since : Time)
  : M (list Entity) :=
  support.SourceToAssetsWithinTTL dname "FQDN" src since.

Definition duckDuckGo_store (d : plugin) (e : Event) (names : list string) (src : Entity)
  : M (list Entity) :=
  support.StoreFQDNsWithSource names src (name d) (name d +:+ "-Handler").

Definition duckDuckGo_process (e : Event) (assets : list Entity) (src : Entity) : M unit :=
  support.ProcessFQDNsWithSource e assets src.

(** [for _, n := range support.ScrapeSubdomainNames(resp.Body)] *)
Fixpoint duckDuckGo_names (env : Env) (ns : list string) (subs : stringset.Set_)
  : M stringset.Set_ :=
  match ns with
  | [] => ret subs
  | n :: rest =>
      let nstr := ToLower (TrimSpace n) in
      let* '(_, conf) := IsAssetInScope env (FQDN nstr) 0 in
      if 0 <? conf
      then duckDuckGo_names env rest (stringset.Insert subs nstr)
      else duckDuckGo_names env rest subs
  end.

Definition duckDuckGo_query (env : Env) (d : plugin) (e : Event) (dname : string)
           (src : Entity) : M (list Entity) :=
  let subs := stringset.New in
  let* _ := Take d in
  let* resp := RequestWebPage env
                 {| ReqURL := Sprintf (fmtstr d) [ArgS dname; ArgS dname]; Header := None |} in
  match resp with
  | None => ret []
  | Some Body =>
      if String.eqb Body EmptyString then ret [] else
      let* subs := duckDuckGo_names env (ScrapeSubdomainNames env Body) subs in
      duckDuckGo_store d e (stringset.Slice subs) src
  end.

Definition duckDuckGo_check (env : Env) (d : plugin) (e : Event) : M error :=
  match Asset (EvAsset e) with
  | FQDN fqdn_Name =>
      let* '(a, conf) := IsAssetInScope env (FQDN fqdn_Name) 0 in
      if (conf =? 0) || bool_decide (a = None) then ret None else
      match canonical_fqdn a with
      | None => ret None
      | Some f_Name =>
          if negb (EqualFold fqdn_Name f_Name) then ret None else
          let* src := support.GetSource (source d) in
          match src with
          | None => ret (errors_New "failed to obtain the plugin source information")
          | Some src =>
              let* '(since, err) := support.TTLStartTime env "FQDN" "FQDN" (name d) in
              match err with
              | Some _ => ret err
              | None =>
                  let* fresh := support.AssetMonitoredWithinTTL (EvAsset e) src since in
                  let* names :=
                    (if fresh then duckDuckGo_lookup e fqdn_Name src since
                     else let* names := duckDuckGo_query env d e fqdn_Name src in
                          let* _ := support.MarkAssetMonitored (EvAsset e) src in
                          ret names) in
                  let* _ := (if (0 <? length names)%nat
                             then duckDuckGo_process e names src else ret tt) in
                  ret None
              end
          end
      end
  | _ => ret (errors_New "failed to extract the FQDN asset")
  end.

(** *** siteDossier *)

Definition siteDossier_lookup (e : Event) (dname : string) (src : Entity) (since : Time)
  : M (list Entity) :=
  support.SourceToAssetsWithinTTL dname "FQDN" src since.

Definition siteDossier_store (sd : plugin) (e : Event) (names : list string) (src : Entity)
  : M (list Entity) :=
  support.StoreFQDNsWithSource names src (name sd) (name sd +:+ "-Handler").

Definition siteDossier_process (e : Event) (assets : list Entity) (src : Entity) : M unit :=
  support.ProcessFQDNsWithSource e assets src.

(** [for _, n := range support.ScrapeSubdomainNames(resp.Body)] *)
Fixpoint siteDossier_names (env : Env) (ns : list string) (subs : stringset.Set_)
  : M stringset.Set_ :=
  match ns with
  | [] => ret subs
  | n :: rest =>
      let nstr := ToLower (TrimSpace n) in
      let* '(_, conf) := IsAssetInScope env (FQDN nstr) 0 in
      if 0 <? conf
      then siteDossier_names env rest (stringset.Insert subs nstr)
      else siteDossier_names env rest subs
  end.

(** [for i := 1; i < 20; i++], entered at [i]; [break] leaves it. *)
Equations? siteDossier_pages (env : Env) (sd : plugin) (dname : string) (i : Z)
           (subs : stringset.Set_) : M stringset.Set_ by wf (Z.to_nat (20 - i)) lt :=
  siteDossier_pages env sd dname i subs with Z_lt_dec i 20 => {
    | left _ =>
        let* _ := Take sd in
        let* resp := RequestWebPage env
                       {| ReqURL := Sprintf (fmtstr sd) [ArgS dname; ArgD i]; Header := None |} in
        match resp with
        | None => ret subs
        | Some Body =>
            if String.eqb Body EmptyString then ret subs else
            let* subs := siteDossier_names env (ScrapeSubdomainNames env Body) subs in
            siteDossier_pages env sd dname (i + 1) subs
        end
    | right _ => ret subs }.
Proof. lia. Qed.

Definition siteDossier_query (env : Env) (sd : plugin) (e : Event) (dname : string)
           (src : Entity) : M (list Entity) :=
  let* subs := siteDossier_pages env sd dname 1 stringset.New in
  siteDossier_store sd e (stringset.Slice subs) src.

Definition siteDossier_check (env : Env) (sd : plugin) (e : Event) : M error :=
  match Asset (EvAsset e) with
  | FQDN fqdn_Name =>
      let* '(a, conf) := IsAssetInScope env (FQDN fqdn_Name) 0 in
      if (conf =? 0) || bool_decide (a = None) then ret None else
      match canonical_fqdn a with
      | None => ret None
      | Some f_Name =>
          if negb (EqualFold fqdn_Name f_Name) then ret None else
          let* src := support.GetSource (source sd) in
          match src with
          | None => ret (errors_New "failed to obtain the plugin source information")
          | Some src =>
              let* '(since, err) := support.TTLStartTime env "FQDN" "FQDN" (name sd) in
              match err with
              | Some _ => ret err
              | None =>
                  let* fresh := support.AssetMonitoredWithinTTL (EvAsset e) src since in
                  let* names :=
                    (if fresh then siteDossier_lookup e fqdn_Name src since
                     else let* names := siteDossier_query env sd e fqdn_Name src in
                          let* _ := support.MarkAssetMonitored (EvAsset e) src in
                          ret names) in
                  let* _ := (if (0 <? length names)%nat
                             then siteDossier_process e names src else ret tt) in
                  ret None
              end
          end
      end
  | _ => ret (errors_New "failed to extract the FQDN asset")
  end.

(** *** Name, Start and Stop *)

Definition duckDuckGo_Name (d : instance) : string := name (this d).

Definition duckDuckGo_Start (d : instance) (r : Registry) : error * instance * Registry :=
  let l := With (WithGroup (Log r) "plugin") "name" (name (this d)) in
  let d := {| this := this d; plog := Some l |} in
  let '(err, r) :=
    RegisterHandler r {| HPlugin := name (this d);
                         HName := name (this d) +:+ "-Handler";
                         Priority := 7;
                         MaxInstances := 10;
                         Transforms := ["FQDN"];
                         EventType := "FQDN";
                         Callback := fun env e => duckDuckGo_check env (this d) e |} in
  match err with
  | Some _ => (err, d, r)
  | None => (None, d, Info l "Plugin started" r)
  end.

Definition duckDuckGo_Stop (d : instance) (r : Registry) : option Registry :=
  log_Info d "Plugin stopped" r.

Definition siteDossier_Name (sd : instance) : string := name (this sd).

Definition siteDossier_Start (sd : instance) (r : Registry) : error * instance * Registry :=
  let l := With (WithGroup (Log r) "plugin") "name" (name (this sd)) in
  let sd := {| this := this sd; plog := Some l |} in
  let '(err, r) :=
    RegisterHandler r {| HPlugin := name (this sd);
                         HName := name (this sd) +:+ "-Handler";
                         Priority := 7;
                         MaxInstances := 10;
                         Transforms := ["FQDN"];
                         EventType := "FQDN";
                         Callback := fun env e => siteDossier_check env (this sd) e |} in
  match err with
  | Some _ => (err, sd, r)
  | None => (None, sd, Info l "Plugin started" r)
  end.

Definition siteDossier_Stop (sd : instance) (r : Registry) : option Registry :=
  log_Info sd "Plugin stopped" r.

End scrape.

(** ** Package [rdap]: the autnum handler *)
Module rdap.

(** [autnum]; [rplugin] is the owning [rdapPlugin], of which the handler
    reads the name and the source. *)
Record autnum := { handler_name : string; rplugin : plugin; transforms : list string }.

Definition autnum_Name (r : autnum) : string := handler_name r.

(** The type assertion of [asset.Asset] to an [AutnumRecord]: [check] has
    rejected every other kind of asset before [lookup] and [store] run. *)
Definition Handle_of (a : OAMAsset) : string :=
  match a with AutnumRecord h _ => h | _ => EmptyString end.

Definition WhoisServer_of (a : OAMAsset) : string :=
  match a with AutnumRecord _ s => s | _ => EmptyString end.

Definition autnum_oneOfSources (asset src : Entity) (since : Time) : M bool :=
  let* rels := SessionDB.OutgoingRelations asset since ["source"] in
  match rels with
  | Some rels =>
      if (0 <? length rels)%nat
      then ret (existsb (fun rel => (ToAsset rel =? ID src)%nat) rels)
      else ret false
  | None => ret false
  end.

(** [for _, atype := range r.transforms] of [lookup]. *)
Fixpoint autnum_lookup_transforms (env : Env) (r : autnum) (m : Matches) (atypes : list string)
         (rtypes : list string) (sinces : gmap string Time)
  : M (list string * gmap string Time) :=
  match atypes with
  | [] => ret (rtypes, sinces)
  | atype :: rest =>
      if negb (IsMatch m atype) then autnum_lookup_transforms env r m rest rtypes sinces else
      let* '(since, err) := support.TTLStartTime env "AutnumRecord" atype (name (rplugin r)) in
      match err with
      | Some _ => autnum_lookup_transforms env r m rest rtypes sinces
      | None =>
          let sinces := <[atype := since]> sinces in
          let rtypes :=
            (if String.eqb atype "URL" then rtypes ++ ["rdap_url"]
             else if String.eqb atype "FQDN" then rtypes ++ ["whois_server"]
             else if String.eqb atype "ContactRecord"
                  then rtypes ++ ["registrant"; "admin_contact"; "abuse_contact"; "technical_contact"]
                  else rtypes)%list in
          autnum_lookup_transforms env r m rest rtypes sinces
      end
  end.

(** [for _, rel := range rels] inside the mutation of [lookup]. *)
Fixpoint autnum_lookup_rels (asset src : Entity) (sinces : gmap string Time)
         (rels : list Relation) (findings : list Finding) : M (list Finding) :=
  match rels with
  | [] => ret findings
  | rel :: rest =>
      let* a := SessionDB.FindById (ToAsset rel) zero_time in
      match a with
      | None => autnum_lookup_rels asset src sinces rest findings
      | Some a =>
          let totype := AssetType (Asset a) in
          match sinces !! totype with
          | None => autnum_lookup_rels asset src sinces rest findings
          | Some since =>
              if Before (LastSeen a) since
              then autnum_lookup_rels asset src sinces rest findings else
              let* one := autnum_oneOfSources a src since in
              if negb one then autnum_lookup_rels asset src sinces rest findings else
              match
                match Asset a with
                | FQDN v_Name => Some v_Name
                | ContactRecord v_DiscoveredAt => Some ("ContactRecord: " +:+ v_DiscoveredAt)
                | URL v_Raw => Some v_Raw
                | _ => None
                end
              with
              | None => autnum_lookup_rels asset src sinces rest findings
              | Some name =>
                  autnum_lookup_rels asset src sinces rest
                    (findings ++ [{| From := asset;
                                     FromName := "AutnumRecord: " +:+ Handle_of (Asset asset);
                                     To := a; ToName := name; Rel := RelType rel |}])
              end
          end
      end
  end.

(** The closure [lookup] hands to [support.AppendToDBQueue]. *)
Definition autnum_lookup_mutation (asset src : Entity) (rtypes : list string)
           (sinces : gmap string Time) : M (list Finding) :=
  let* done := get Done in
  if done then ret [] else
  let* rels := SessionDB.OutgoingRelations asset zero_time rtypes in
  match rels with
  | Some rels =>
      if (0 <? length rels)%nat then autnum_lookup_rels asset src sinces rels [] else ret []
  | None => ret []
  end.

Definition autnum_lookup (env : Env) (r : autnum) (e : Event) (asset src : Entity) (m : Matches)
  : M (list Finding) :=
  let* '(rtypes, sinces) := autnum_lookup_transforms env r m (transforms r) [] ∅ in
  support.AppendToDBQueue (autnum_lookup_mutation asset src rtypes sinces).

(** The closure [store] hands to [support.AppendToDBQueue]. *)
Definition autnum_store_mutation (env : Env) (resp : RdapAutnum) (asset src : Entity)
           (m : Matches) : M (list Finding) :=
  let* done := get Done in
  if done then ret [] else
  let* findings :=
    match getJSONLink env (Links resp) with
    | Some u_Raw =>
        if IsMatch m "URL" then
          let* a := SessionDB.Create (Some asset) "rdap_url" (URL u_Raw) in
          match a with
          | Some a =>
              let findings :=
                [{| From := asset; FromName := "AutnumRecord: " +:+ Handle_of (Asset asset);
                    To := a; ToName := u_Raw; Rel := "rdap_url" |}] in
              let* _ := SessionDB.Link a "source" src in   (* _, _ = Link(...) *)
              ret findings
          | None => ret []
          end
        else ret []
    | None => ret []
    end in
  let name := WhoisServer_of (Asset asset) in
  if negb (String.eqb name EmptyString) && IsMatch m "FQDN" then
    let* a := SessionDB.Create (Some asset) "whois_server" (FQDN name) in
    match a with
    | Some a =>
        let* _ := SessionDB.Link a "source" src in       (* _, _ = Link(...) *)
        let* '(_, conf) := IsAssetInScope env (FQDN name) 0 in
        if 0 <? conf
        then ret (findings ++ [{| From := asset;
                                  FromName := "AutnumRecord: " +:+ Handle_of (Asset asset);
                                  To := a; ToName := name; Rel := "whois_server" |}])%list
        else ret findings
    | None => ret findings
    end
  else ret findings.

(** [for _, entity := range resp.Entities] of [store]. *)
Fixpoint autnum_store_entities (env : Env) (entities : list RdapEntity) (asset src : Entity)
         (m : Matches) (findings : list Finding) : M (list Finding) :=
  match entities with
  | [] => ret findings
  | entity :: rest =>
      let* fs := storeEntity env entity asset src m in
      autnum_store_entities env rest asset src m (findings ++ fs)
  end.

Definition autnum_store (env : Env) (r : autnum) (e : Event) (resp : RdapAutnum)
           (asset src : Entity) (m : Matches) : M (list Finding) :=
  let* findings := support.AppendToDBQueue (autnum_store_mutation env resp asset src m) in
  if IsMatch m "ContactRecord"
  then autnum_store_entities env (Entities resp) asset src m findings
  else ret findings.

Definition autnum_process (r : autnum) (e : Event) (fs : list Finding) (src : Entity) : M unit :=
  support.ProcessAssetsWithSource e fs src (name (rplugin r)) (handler_name r).

Definition autnum_check (env : Env) (r : autnum) (e : Event) : M error :=
  match Asset (EvAsset e) with
  | AutnumRecord _ _ =>
      let* src := support.GetSource (source (rplugin r)) in
      match src with
      | None => ret (errors_New "failed to obtain the plugin source information")
      | Some src =>
          let* matches := CheckTransformations env "AutnumRecord"
                            (transforms r ++ [name (rplugin r)]) in
          match matches with
          | None => ret None
          | Some matches =>
              if (Len matches =? 0)%nat then ret None else
              let* fs :=
                match Meta e with
                | Some record => autnum_store env r e record (EvAsset e) src matches
                | None => autnum_lookup env r e (EvAsset e) src matches
                end in
              let* _ := (if (0 <? length fs)%nat then autnum_process r e fs src else ret tt) in
              ret None
          end
      end
  | _ => ret (errors_New "failed to extract the AutnumRecord asset")
  end.

End rdap.

(** ** Package [whois] *)
Module whois.

Definition NewWHOIS : plugin :=
  {| name := "WHOIS"; fmtstr := EmptyString; rlimit := 10;
     source := {| SourceName := "WHOIS"; Confidence := 100 |} |}.

(** *** Name, Start and Stop *)

(** [fqdnLookup] and [domrec], the two handlers of the plugin, as [Start]
    builds them; the plugin is kept by its name. *)
Record fqdnLookup := { fqdnLookup_name : string; fqdnLookup_plugin : string }.

Record domrec := { domrec_name : string; domrec_plugin : string; domrec_transforms : list string }.

(** The [whois] struct: the fields [fqdn] and [domrec] are nil until [Start]
    sets them. *)
Record whois := { wthis : instance; wfqdn : option fqdnLookup; wdomrec : option domrec }.

Definition whois_Name (w : whois) : string := name (this (wthis w)).

Section WhoisStart.
(** The methods [fqdnLookup.check] and [domrec.check] are defined in other
    files of the package. *)
Context (fqdnLookup_check : fqdnLookup -> Env -> Event -> M error).
Context (domrec_check : domrec -> Env -> Event -> M error).

Definition whois_Start (w : whois) (r : Registry) : error * whois * Registry :=
  let l := With (WithGroup (Log r) "plugin") "name" (whois_Name w) in
  let c := {| this := this (wthis w); plog := Some l |} in
  let f := {| fqdnLookup_name := whois_Name w +:+ "-FQDN-Handler";
              fqdnLookup_plugin := whois_Name w |} in
  let w := {| wthis := c; wfqdn := Some f; wdomrec := wdomrec w |} in
  let '(err, r) :=
    RegisterHandler r {| HPlugin := whois_Name w;
                         HName := fqdnLookup_name f;
                         Priority := 3;
                         MaxInstances := 0;
                         Transforms := ["DomainRecord"];
                         EventType := "FQDN";
                         Callback := fqdnLookup_check f |} in
  match err with
  | Some _ => (err, w, r)
  | None =>
      let d := {| domrec_name := whois_Name w +:+ "-Domain-Record-Handler";
                  domrec_plugin := whois_Name w;
                  domrec_transforms := ["FQDN"; "URL"; "ContactRecord"; "Person"; "Organization";
                                        "Location"; "EmailAddress"; "Phone"] |} in
      let w := {| wthis := c; wfqdn := Some f; wdomrec := Some d |} in
      let '(err, r) :=
        RegisterHandler r {| HPlugin := whois_Name w;
                             HName := domrec_name d;
                             Priority := 0;
                             MaxInstances := 0;
                             Transforms := domrec_transforms d;
                             EventType := "DomainRecord";
                             Callback := domrec_check d |} in
      match err with
      | Some _ => (err, w, r)
      | None => (None, w, Info l "Plugin started" r)
      end
  end.
End WhoisStart.

Definition whois_Stop (w : whois) (r : Registry) : option Registry :=
  log_Info (wthis w) "Plugin stopped" r.

End whois.

(** ** The registered FQDN handlers

    [Start] registers [check] as the callback of each plugin's handler for
    events of type FQDN. *)
Inductive pipeline := Chaos | SecurityTrails | Crtsh | DuckDuckGo | SiteDossier.

Definition plugin_of (p : pipeline) : plugin :=
  match p with
  | Chaos => api.NewChaos
  | SecurityTrails => api.NewSecurityTrails
  | Crtsh => api.NewCrtsh
  | DuckDuckGo => scrape.NewDuckDuckGo
  | SiteDossier => scrape.NewSiteDossier
  end.

Definition check (p : pipeline) (env : Env) (e : Event) : M error :=
  match p with
  | Chaos => api.chaos_check env api.NewChaos e
  | SecurityTrails => api.securityTrails_check env api.NewSecurityTrails e
  | Crtsh => api.crtsh_check env api.NewCrtsh e
  | DuckDuckGo => scrape.duckDuckGo_check env scrape.NewDuckDuckGo e
  | SiteDossier => scrape.siteDossier_check env scrape.NewSiteDossier e
  end.

(** What a run adds to the trace. *)
Definition is_take (a : Action) : bool := match a with ActTake _ => true | _ => false end.
Definition is_request (a : Action) : bool := match a with ActRequest _ _ => true | _ => false end.

(** Submissions to the mutation queue and writes to the graph. *)
Definition is_mutation (a : Action) : bool :=
  match a with
  | ActStore _ _ | ActMark _ _ | ActSubmit => true
  | ActDB (CallCreate _ _ _) | ActDB (CallLink _ _ _) => true
  | _ => false
  end.

(** The branch decision and everything that can only follow it. *)
Definition is_branch (a : Action) : bool :=
  match a with
  | ActMonitored _ _ _ _ | ActLookup _ _ _ _ | ActProcess _ => true
  | _ => false
  end.

Definition requests (t : list Action) : list Request :=
  omap (fun a => match a with ActRequest r _ => Some r | _ => None end) t.

Definition scoped (t : list Action) : list OAMAsset :=
  omap (fun a => match a with ActScope x => Some x | _ => None end) t.

Definition stored (t : list Action) : list (list string) :=
  omap (fun a => match a with ActStore ns _ => Some ns | _ => None end) t.

(** ** A session to run the pipelines in *)
Module Scenario.

Definition in_scope (a : OAMAsset) (conf : Z) : option OAMAsset * Z :=
  match a with
  | FQDN n =>
      if support.under "example.com" (FQDN (GoStrings.ToLower (GoStrings.TrimSpace n)))
      then (Some (FQDN n), 50) else (None, 0)
  | _ => (None, 0)
  end.

Definition three_names : list string :=
  ["a.example.com"; "A.example.com"; " a.example.com "].

Definition one_cert : string :=
  "a.example.com" +:+ String newline "A.example.com" +:+ String newline " a.example.com ".

Definition env (ttl : option Z) : Env :=
  {| InScope := in_scope;
     DataSourceCreds := fun _ => Some {[ "account1" := Some {| Apikey := "k1" |};
                                         "account2" := Some {| Apikey := "k2" |} ]};
     RangeBefore := String.leb;
     TTLPolicy := fun _ _ _ => ttl;
     Transformations := fun _ tos => Some tos;
     WebPage := fun _ _ => Some "body";
     ScrapeSubdomainNames := fun _ => three_names;
     UnmarshalSubdomains := fun _ => Some ["WWW"];
     UnmarshalCerts := fun _ => Some [one_cert];
     getJSONLink := fun _ => None;
     storeEntity := fun _ _ _ _ => ret [] |}.

Definition subject : Entity := {| ID := 1; Asset := FQDN "example.com"; LastSeen := 0 |}.

Definition event : Event := {| EvAsset := subject; Meta := None |}.

Definition world (t : Time) (g : Graph) : World :=
  {| now := t; Done := false; store_ok := true; refuses := fun _ => false; graph := g;
     trace := []; findings := [] |}.

Definition start : World := world 10000 {| nodes := [subject]; rels := [] |}.

(** The world after DuckDuckGo has handled the event once. *)
Definition visited : World := (check DuckDuckGo (env (Some 1440)) event start).2.

(** A subject outside the scope. *)
Definition stranger : Event :=
    {| EvAsset := {| ID := 1; Asset := FQDN "example.org"; LastSeen := 0 |}; Meta := None |}.

(** The source node of Chaos, for running its query step alone. *)
Definition chaos_source : Entity :=
    {| ID := 2; Asset := SourceAsset "Chaos" 80; LastSeen := 10000 |}.

Definition securityTrails_source : Entity :=
    {| ID := 2; Asset := SourceAsset "SecurityTrails" 80; LastSeen := 10000 |}.

(** The subject was monitored by HackerTarget a minute ago; crt.sh never ran. *)
Definition hackertarget_node : Entity :=
    {| ID := 2; Asset := SourceAsset "HackerTarget" 100; LastSeen := 9999 |}.

Definition marked_by_hackertarget : World :=
    world 10000
      {| nodes := [subject; hackertarget_node];
         rels := [{| RelType := "monitored_by"; FromAsset := 1; ToAsset := 2;
                     RelLastSeen := 9999 |}] |}.


(** The RDAP autnum handler and an event for it. *)
Definition autnum_handler : rdap.autnum :=
    {| rdap.handler_name := "RDAP-Autnum-Handler";
       rdap.rplugin := {| name := "RDAP"; fmtstr := EmptyString; rlimit := 0;
                          source := {| SourceName := "RDAP"; Confidence := 100 |} |};
       rdap.transforms := ["URL"; "FQDN"; "ContactRecord"] |}.

Definition autnum_subject : Entity :=
    {| ID := 1; Asset := AutnumRecord "AS64500" "whois.example.com"; LastSeen := 0 |}.

Definition autnum_event : Event := {| EvAsset := autnum_subject; Meta := None |}.

Definition autnum_record : RdapAutnum := {| Links := []; Entities := [] |}.

Definition autnum_start : World := world 10000 {| nodes := [autnum_subject]; rels := [] |}.

(** The session has been terminated. *)
Definition terminated : World :=
    {| now := 10000; Done := true; store_ok := true; refuses := fun _ => false;
       graph := {| nodes := [autnum_subject]; rels := [] |}; trace := []; findings := [] |}.

(** An environment with one key, whose API answers name the same sub-domain
    three times. *)
Definition repeating : Env :=
    {| InScope := in_scope;
       DataSourceCreds := fun _ => Some {[ "account1" := Some {| Apikey := "k1" |} ]};
       RangeBefore := String.leb;
       TTLPolicy := fun _ _ _ => Some 1440;
       Transformations := fun _ tos => Some tos;
       WebPage := fun _ _ => Some "body";
       ScrapeSubdomainNames := fun _ => [];
       UnmarshalSubdomains := fun _ => Some ["a"; "A"; " a"];
       UnmarshalCerts := fun _ => None;
       getJSONLink := fun _ => None;
       storeEntity := fun _ _ _ _ => ret [] |}.

(** An environment whose credentials hold no usable key. *)
Definition keyless : Env :=
    {| InScope := in_scope;
       DataSourceCreds := fun _ => Some {[ "account1" := None;
                                           "account2" := Some {| Apikey := EmptyString |} ]};
       RangeBefore := String.leb;
       TTLPolicy := fun _ _ _ => Some 1440;
       Transformations := fun _ tos => Some tos;
       WebPage := fun _ _ => Some "body";
       ScrapeSubdomainNames := fun _ => [];
       UnmarshalSubdomains := fun _ => Some ["www"];
       UnmarshalCerts := fun _ => None;
       getJSONLink := fun _ => None;
       storeEntity := fun _ _ _ _ => ret [] |}.

(** The source node of RDAP, and a graph that holds it. *)
Definition rdap_source : Entity :=
    {| ID := 2; Asset := SourceAsset "RDAP" 100; LastSeen := 10000 |}.

Definition autnum_sourced : World :=
    world 10000 {| nodes := [autnum_subject; rdap_source]; rels := [] |}.

(** The same session with a graph store that refuses every [Link]. *)
Definition link_refused : World :=
    {| now := 10000; Done := false; store_ok := true;
       refuses := fun t => match last t with
                           | Some (ActDB (CallLink _ _ _)) => true
                           | _ => false
                           end;
       graph := {| nodes := [autnum_subject; rdap_source]; rels := [] |};
       trace := []; findings := [] |}.

(** A graph in which RDAP has attributed the WHOIS server to the
    AutnumRecord, five minutes ago. *)
Definition whois_node : Entity :=
    {| ID := 3; Asset := FQDN "whois.example.com"; LastSeen := 9995 |}.

Definition autnum_linked : World :=
    world 10000
      {| nodes := [autnum_subject; rdap_source; whois_node];
         rels := [{| RelType := "whois_server"; FromAsset := 1; ToAsset := 3;
                     RelLastSeen := 9995 |};
                  {| RelType := "source"; FromAsset := 3; ToAsset := 2;
                     RelLastSeen := 9995 |}] |}.

(** An environment in which nothing matches and nothing is retrieved. *)
Definition silent : Env :=
  {| InScope := in_scope;
     DataSourceCreds := fun _ => None;
     RangeBefore := String.leb;
     TTLPolicy := fun _ _ _ => Some 1440;
     Transformations := fun _ _ => Some [];
     WebPage := fun _ _ => None;
     ScrapeSubdomainNames := fun _ => [];
     UnmarshalSubdomains := fun _ => None;
     UnmarshalCerts := fun _ => None;
     getJSONLink := fun _ => None;
     storeEntity := fun _ _ _ _ => ret [] |}.



End Scenario.

(** ** The pipeline template

    The five checks are the same pipeline around different queries.  The
    template below is that common text; [check_template] shows each check to
    be an instance of it. *)

(** The actions a run [m] from [w] adds to the trace. *)
Definition performed {A} (m : M A) (w : World) : list Action :=
  drop (length (trace w)) (trace (m w).2).

(** The credential gate of the API plugins. *)
Definition with_credentials (env : Env) (p : plugin) (k : list string -> M error) : M error :=
  let* ds := GetDataSourceConfig env (name p) in
  match ds with
  | None => ret None
  | Some Creds =>
      if (size Creds =? 0)%nat then ret None
      else k (api.api_keys (GoMap.range (RangeBefore env) Creds))
  end.

(** From the scope check to the end of [check]. *)
Definition template (env : Env) (p : plugin) (e : Event) (fqdn_Name : string)
           (query : Entity -> M (list Entity)) : M error :=
  let* '(a, conf) := IsAssetInScope env (FQDN fqdn_Name) 0 in
  if (conf =? 0) || bool_decide (a = None) then ret None else
  match canonical_fqdn a with
  | None => ret None
  | Some f_Name =>
      if negb (GoStrings.EqualFold fqdn_Name f_Name) then ret None else
      let* src := support.GetSource (source p) in
      match src with
      | None => ret (errors_New "failed to obtain the plugin source information")
      | Some src =>
          let* '(since, err) := support.TTLStartTime env "FQDN" "FQDN" (name p) in
          match err with
          | Some _ => ret err
          | None =>
              let* fresh := support.AssetMonitoredWithinTTL (EvAsset e) src since in
              let* names :=
                (if fresh then support.SourceToAssetsWithinTTL fqdn_Name "FQDN" src since
                 else let* names := query src in
                      let* _ := support.MarkAssetMonitored (EvAsset e) src in
                      ret names) in
              let* _ := (if (0 <? length names)%nat
                         then support.ProcessFQDNsWithSource e names src else ret tt) in
              ret None
          end
      end
  end.

Definition needs_credentials (p : pipeline) : bool :=
  match p with Chaos | SecurityTrails => true | _ => false end.

Definition query_of (p : pipeline) (env : Env) (e : Event) (dname : string)
           (keys : list string) (src : Entity) : M (list Entity) :=
  match p with
  | Chaos => api.chaos_query env api.NewChaos e dname src keys
  | SecurityTrails => api.securityTrails_query env api.NewSecurityTrails e dname src keys
  | Crtsh => api.crtsh_query env api.NewCrtsh e dname src
  | DuckDuckGo => scrape.duckDuckGo_query env scrape.NewDuckDuckGo e dname src
  | SiteDossier => scrape.siteDossier_query env scrape.NewSiteDossier e dname src
  end.

(** What makes a subject fail the scope check. *)
Definition out_of_scope (env : Env) (fqdn_Name : string) : Prop :=
  (InScope env (FQDN fqdn_Name) 0).2 = 0
  \/ (InScope env (FQDN fqdn_Name) 0).1 = None
  \/ forall f_Name, (InScope env (FQDN fqdn_Name) 0).1 = Some (FQDN f_Name) ->
                    GoStrings.EqualFold fqdn_Name f_Name = false.

(** ** Vocabulary of the properties *)

(** [w] with one more entry in its trace. *)
Definition logged (a : Action) (w : World) : World := set_trace (trace w ++ [a]) w.

Definition fetched (t : list Action) : list (Request * option string) :=
  omap (fun a => match a with ActRequest r resp => Some (r, resp) | _ => None end) t.

Definition takes (t : list Action) : list string :=
  omap (fun a => match a with ActTake l => Some l | _ => None end) t.

(** A retrieval the loops go on after: no error and a body that is not empty. *)
Definition good (resp : option string) : bool :=
  match resp with
  | Some Body => negb (String.eqb Body EmptyString)
  | None => false
  end.

(** The request [siteDossier.query] makes for page [i]. *)
Definition page_request (sd : plugin) (dname : string) (i : Z) : Request :=
  {| ReqURL := GoStrings.Sprintf (fmtstr sd) [GoStrings.ArgS dname; GoStrings.ArgD i];
     Header := None |}.

Definition is_scope (a : Action) : bool :=
  match a with ActScope _ => true | _ => false end.

(** The traces of the page loop entered at page [i]. *)
Inductive paged (sd : plugin) (dname : string) : Z -> list Action -> Prop :=
| paged_done i : 20 <= i -> paged sd dname i []
| paged_stop i resp :
    i < 20 -> good resp = false ->
    paged sd dname i [ActTake (name sd); ActRequest (page_request sd dname i) resp]
| paged_next i resp ts t :
    i < 20 -> good resp = true -> Forall (fun a => is_scope a = true) ts ->
    paged sd dname (i + 1) t ->
    paged sd dname i ([ActTake (name sd); ActRequest (page_request sd dname i) resp] ++ ts ++ t).

(** The calls a query step makes, those of its store step, and those of the
    mutation the store step submits. *)
Definition is_queue_action (a : Action) : bool :=
  match a with ActSubmit | ActDB _ => true | _ => false end.

Definition is_store_action (a : Action) : bool :=
  match a with ActStore _ _ => true | _ => is_queue_action a end.

Definition is_query_action (a : Action) : bool :=
  match a with
  | ActTake _ | ActRequest _ _ | ActScope _ => true
  | _ => is_store_action a
  end.

(** The calls of the gates before the source is resolved. *)
Definition is_gate (a : Action) : bool :=
  match a with ActConfig _ | ActScope _ => true | _ => false end.

Definition no_retrieval (a : Action) : Prop := is_take a = false /\ is_request a = false.

Definition no_fetch (a : Action) : Prop :=
  is_take a = false /\ is_request a = false /\ is_mutation a = false.

(** No retrieval, and nothing of the branch or after it. *)
Definition no_branch (a : Action) : Prop :=
  is_take a = false /\ is_request a = false /\ is_branch a = false.

Definition is_fresh_answer (a : Action) : bool :=
  match a with ActMonitored _ _ _ true => true | _ => false end.

Definition is_stale_answer (a : Action) : bool :=
  match a with ActMonitored _ _ _ false => true | _ => false end.

(** [AssetMonitoredWithinTTL] returned true, respectively false, in the run. *)
Definition fresh_run (t : list Action) : Prop :=
  exists a s since, ActMonitored a s since true ∈ t.

Definition stale_run (t : list Action) : Prop :=
  exists a s since, ActMonitored a s since false ∈ t.

Definition source_asset (psrc : Source) : OAMAsset :=
  SourceAsset (SourceName psrc) (Confidence psrc).

(** Nodes that are not names keep their place in the graph. *)
Definition stable_sources (g g' : Graph) : Prop :=
  forall c n, (forall x, c <> FQDN x) ->
              DB.FindByContent g c = Some n -> DB.FindByContent g' c = Some n.

(** The freshness records of [g] that are not after [t] are records of
    [g']. *)
Definition keeps_fresh (t : Time) (g g' : Graph) : Prop :=
  forall a s since, since <= t ->
                    existsb (support.monitored_by a s since) (rels g) = true ->
                    existsb (support.monitored_by a s since) (rels g') = true.

(** [w'] is [w] after calls that all satisfy [P] and leave the sources and
    the freshness records in place. *)
Record extends (P : Action -> bool) (w w' : World) : Prop := {
  ext_now : now w' = now w;
  ext_done : Done w' = Done w;
  ext_store : store_ok w' = store_ok w;
  ext_findings : findings w' = findings w;
  ext_graph : stable_sources (graph w) (graph w');
  ext_fresh : keeps_fresh (now w) (graph w) (graph w');
  ext_trace : exists t, trace w' = trace w ++ t /\ Forall (fun a => P a = true) t
}.

Definition transits (P : Action -> bool) {A} (m : M A) : Prop :=
  forall w, extends P w (m w).2.

(** Weakest preconditions of the computations. *)
Definition wp {A} (m : M A) (Q : A -> World -> Prop) (w : World) : Prop :=
  Q (m w).1 (m w).2.

(** The calls by which [GetSource] creates the node of a source that graph
    [g] does not hold: a mutation submitted to the queue. *)
Definition source_creation (psrc : Source) (g : Graph) : list Action :=
  match DB.FindByContent g (source_asset psrc) with
  | Some _ => []
  | None => [ActSubmit; ActDB (CallCreate None EmptyString (source_asset psrc))]
  end.

(** What [GetSource] leaves behind when it resolves the source to [n]. *)
Record resolved (psrc : Source) (w : World) (n : Entity) (w1 : World) : Prop := {
  res_ok : store_ok w = true;
  res_now : now w1 = now w;
  res_done : Done w1 = Done w;
  res_store : store_ok w1 = store_ok w;
  res_refuses : refuses w1 = refuses w;
  res_findings : findings w1 = findings w;
  res_trace : trace w1
              = trace w ++ ActGetSource (SourceName psrc) :: source_creation psrc (graph w);
  res_rels : rels (graph w1) = rels (graph w);
  res_nodes : (DB.FindByContent (graph w) (source_asset psrc) = Some n /\ graph w1 = graph w)
              \/ (DB.FindByContent (graph w) (source_asset psrc) = None
                  /\ nodes (graph w1) = nodes (graph w) ++ [n]
                  /\ ID n = DB.fresh_id (graph w) /\ LastSeen n = now w);
  res_asset : Asset n = source_asset psrc;
  res_found : DB.FindByContent (graph w1) (source_asset psrc) = Some n
}.

(** The answer of [AssetMonitoredWithinTTL] in graph [g]. *)
Definition fresh_in (g : Graph) (asset src : Entity) (since : Time) : bool :=
  existsb (support.monitored_by asset src since) (rels g).

(** The answer of [SourceToAssetsWithinTTL] in graph [g]. *)
Definition reusable (g : Graph) (dname atype : string) (src : Entity) (since : Time)
  : list Entity :=
  filter (fun n => String.eqb (AssetType (Asset n)) atype
                   && support.under dname (Asset n)
                   && negb (Before (LastSeen n) since)
                   && support.sourced_by g src since n)
         (nodes g).

(** The findings [ProcessFQDNsWithSource] emits. *)
Definition found (e : Event) (src : Entity) (assets : list Entity) : list Finding :=
  map (fun a => {| From := EvAsset e; FromName := support.asset_name (Asset (EvAsset e));
                   To := a; ToName := support.asset_name (Asset a);
                   Rel := support.asset_name (Asset src) +:+ "-discovered" |}) assets.

(** The subject passes the scope check. *)
Definition passes (env : Env) (fqdn : string) : Prop :=
  exists f conf, InScope env (FQDN fqdn) 0 = (Some (FQDN f), conf)
                 /\ conf <> 0 /\ GoStrings.EqualFold fqdn f = true.

(** The world after the last step of [check], and after [MarkAssetMonitored]. *)
Definition processed (e : Event) (src : Entity) (names : list Entity) (w : World) : World :=
  if (0 <? length names)%nat
  then set_findings (findings w ++ found e src names)
         (logged (ActProcess (length (found e src names))) w)
  else w.

Definition marked (e : Event) (src : Entity) (w : World) : World :=
  set_graph (DB.Link (graph w) (now w) (EvAsset e) "monitored_by" src)
    (logged (ActMark (ID (EvAsset e)) (ID src)) w).

(** [w] is [w0] after the gate calls [pre]. *)
Record after (w0 : World) (pre : list Action) (w : World) : Prop := {
  aft_now : now w = now w0;
  aft_done : Done w = Done w0;
  aft_store : store_ok w = store_ok w0;
  aft_graph : graph w = graph w0;
  aft_findings : findings w = findings w0;
  aft_trace : trace w = trace w0 ++ pre;
  aft_refuses : refuses w = refuses w0
}.

(** The credential gate lets the run through with [keys]. *)
Definition gate_open (p : pipeline) (env : Env) (keys : list string) : Prop :=
  if needs_credentials p
  then exists Creds, DataSourceCreds env (name (plugin_of p)) = Some Creds
                     /\ (size Creds =? 0)%nat = false
                     /\ keys = api.api_keys (GoMap.range (RangeBefore env) Creds)
  else keys = [].

Definition gate_actions (p : pipeline) : list Action :=
  if needs_credentials p then [ActConfig (name (plugin_of p))] else [].

(** A run that found the subject fresh made no retrieval and no mutation,
    and its findings point at nodes the graph held before. *)
Definition served_from_graph (w0 : World) (r : error) (w' : World) : Prop :=
  exists t, trace w' = trace w0 ++ t /\
    (fresh_run t ->
     Forall no_fetch t /\
     exists fs, findings w' = findings w0 ++ fs
                /\ Forall (fun f => To f ∈ nodes (graph w0)) fs).

(** The call of [process], which [check] makes only for a batch that is not
    empty. *)
Definition emitted (k : nat) : list Action :=
  match k with O => [] | S _ => [ActProcess k] end.

(** What a run that has to find the subject stale does, after the gate calls
    [pre], and leaves behind: the query runs, [MarkAssetMonitored] is called
    after it, and the subject is fresh from then on. *)
Definition marks_fresh (p : plugin) (e : Event) (fqdn : string) (w0 : World)
           (pre : list Action) (ttl : Z) (r : error) (w' : World) : Prop :=
  r = None /\ now w' = now w0 /\ store_ok w' = store_ok w0 /\
  exists n tq k,
    trace w' = trace w0 ++ pre
               ++ [ActScope (FQDN fqdn); ActGetSource (SourceName (source p))]
               ++ source_creation (source p) (graph w0)
               ++ [ActTTL "FQDN" "FQDN" (name p);
                   ActMonitored (ID (EvAsset e)) (ID n) (now w0 - ttl) false]
               ++ tq ++ [ActMark (ID (EvAsset e)) (ID n)] ++ emitted k
    /\ Forall (fun a => is_query_action a = true) tq
    /\ DB.FindByContent (graph w') (source_asset (source p)) = Some n
    /\ fresh_in (graph w') (EvAsset e) n (now w0) = true.


(** Normalization as the queries write it, and the scope test on a name. *)
Definition normalize (n : string) : string := GoStrings.ToLower (GoStrings.TrimSpace n).

Definition in_scope (env : Env) (n : string) : bool := 0 <? (InScope env (FQDN n) 0).2.

(** The name a sub-domain label of an API response stands for. *)
Definition full_name (dname sub : string) : string :=
  dns.RemoveAsteriskLabel (sub +:+ "." +:+ dname).

Definition scope_calls (ns : list string) : list Action :=
  map (fun n => ActScope (FQDN n)) ns.

(** A retrieval SecurityTrails stops at: no error, a body that is not empty
    and that parses. *)
Definition usable (env : Env) (resp : option string) : bool :=
  match resp with
  | Some Body =>
      negb (String.eqb Body EmptyString)
      && match UnmarshalSubdomains env Body with Some _ => true | None => false end
  | None => false
  end.

(** The only mutation among the calls [t] is the creation of the node of
    the source [psrc], where graph [g] does not hold it. *)
Definition only_source_creation (psrc : Source) (g : Graph) (t : list Action) : Prop :=
  forall a, a ∈ t -> is_mutation a = true -> a ∈ source_creation psrc g.

(** The graph [g'] is [g], but for the node of the source [psrc] where [g]
    does not hold it. *)
Definition at_most_source_created (psrc : Source) (g g' : Graph) : Prop :=
  rels g' = rels g
  /\ (g' = g
      \/ (DB.FindByContent g (source_asset psrc) = None
          /\ exists n, Asset n = source_asset psrc /\ nodes g' = nodes g ++ [n])).

(** What a run does when no TTL policy exists. *)
Definition aborts_at_ttl (psrc : Source) (w0 : World) (r : error) (w' : World) : Prop :=
  findings w' = findings w0
  /\ at_most_source_created psrc (graph w0) (graph w')
  /\ exists t, trace w' = trace w0 ++ t /\ Forall no_branch t
               /\ only_source_creation psrc (graph w0) t.




(** ** Vocabulary of the further properties *)

(** The request [chaos.query] makes with [key]. *)
Definition chaos_request (dname key : string) : Request :=
  {| ReqURL := "https://dns.projectdiscovery.io/dns/" +:+ dname +:+ "/subdomains";
     Header := Some ("Authorization", key) |}.

(** The names [chaos.query] appends for one response. *)
Definition chaos_response_names (env : Env) (dname : string) (resp : option string)
  : list string :=
  match resp with
  | Some Body =>
      match UnmarshalSubdomains env Body with
      | Some Subdomains =>
          map normalize (List.filter (in_scope env) (map (full_name dname) Subdomains))
      | None => []
      end
  | None => []
  end.

(** The request [securityTrails.query] makes with [key]. *)
Definition securityTrails_request (dname key : string) : Request :=
  {| ReqURL := "https://api.securitytrails.com/v1/domain/" +:+ dname +:+ "/subdomains";
     Header := Some ("APIKEY", key) |}.

(** The names [securityTrails.query] appends for one response. *)
Definition securityTrails_response_names (env : Env) (dname : string) (resp : option string)
  : list string :=
  match resp with
  | Some Body =>
      if String.eqb Body EmptyString then [] else
      match UnmarshalSubdomains env Body with
      | Some Subdomains =>
          List.filter (in_scope env) (map (fun sub => normalize (full_name dname sub)) Subdomains)
      | None => []
      end
  | None => []
  end.

(** The request [crtsh.query] makes. *)
Definition crtsh_request (dname : string) : Request :=
  {| ReqURL := "https://crt.sh/?CN=" +:+ dname +:+ "&output=json&exclude=expired";
     Header := None |}.

(** The [name_value] fields of a response, when there is one and it parses. *)
Definition crtsh_response_certs (env : Env) (resp : option string) : option (list string) :=
  match resp with
  | Some Body =>
      UnmarshalCerts env ("{" +:+ dquote +:+ "certs" +:+ dquote +:+ ":" +:+ Body +:+ "}")
  | None => None
  end.

(** The candidates of the certificates: every line of every [name_value],
    without its wildcard label, in normal form. *)
Definition crtsh_candidates (certs : list string) : list string :=
  map (fun n => normalize (dns.RemoveAsteriskLabel n))
      (concat (map (fun cert_Names => GoStrings.Split cert_Names newline) certs)).

(** The request [duckDuckGo.query] makes. *)
Definition duckDuckGo_request (d : plugin) (dname : string) : Request :=
  {| ReqURL := GoStrings.Sprintf (fmtstr d) [GoStrings.ArgS dname; GoStrings.ArgS dname];
     Header := None |}.

(** The names a scraped page contributes: those of a good response that
    are in scope, in normal form. *)
Definition page_names (env : Env) (resp : option string) : list string :=
  match resp with
  | Some Body =>
      if String.eqb Body EmptyString then []
      else List.filter (in_scope env) (map normalize (ScrapeSubdomainNames env Body))
  | None => []
  end.

(** What the string set guarantees of the calls [t] of a query step: every
    list handed to the store step is free of duplicates, and its members are
    exactly the names the pages retrieved in [t] contribute. *)
Definition deduplicated (env : Env) (t : list Action) : Prop :=
  Forall (fun names =>
            NoDup names
            /\ forall n, n ∈ names <-> exists x, x ∈ fetched t /\ n ∈ page_names env x.2)
         (stored t).

(** The ways [check] can go once the subject is known to be the FQDN [fqdn]
    and the credential gate is passed, from world [w]: the error returned and
    the calls made, in order. *)
Inductive run_shape (env : Env) (p : plugin) (e : Event) (fqdn : string)
          (query : Entity -> M (list Entity)) (w : World) : error -> list Action -> Prop :=
| run_out_of_scope :
    out_of_scope env fqdn ->
    run_shape env p e fqdn query w None [ActScope (FQDN fqdn)]
| run_no_source :
    passes env fqdn -> store_ok w = false ->
    run_shape env p e fqdn query w
      (errors_New "failed to obtain the plugin source information")
      [ActScope (FQDN fqdn); ActGetSource (SourceName (source p))]
| run_no_ttl err :
    passes env fqdn -> store_ok w = true ->
    TTLPolicy env "FQDN" "FQDN" (name p) = None -> err <> None ->
    run_shape env p e fqdn query w err
      ([ActScope (FQDN fqdn); ActGetSource (SourceName (source p))]
       ++ source_creation (source p) (graph w)
       ++ [ActTTL "FQDN" "FQDN" (name p)])
| run_fresh ttl src k :
    passes env fqdn -> store_ok w = true ->
    TTLPolicy env "FQDN" "FQDN" (name p) = Some ttl ->
    run_shape env p e fqdn query w None
      ([ActScope (FQDN fqdn); ActGetSource (SourceName (source p))]
       ++ source_creation (source p) (graph w)
       ++ [ActTTL "FQDN" "FQDN" (name p);
           ActMonitored (ID (EvAsset e)) (ID src) (now w - ttl) true;
           ActLookup fqdn "FQDN" (ID src) (now w - ttl)] ++ emitted k)
| run_stale ttl src w2 :
    passes env fqdn -> store_ok w = true ->
    TTLPolicy env "FQDN" "FQDN" (name p) = Some ttl ->
    run_shape env p e fqdn query w None
      ([ActScope (FQDN fqdn); ActGetSource (SourceName (source p))]
       ++ source_creation (source p) (graph w)
       ++ [ActTTL "FQDN" "FQDN" (name p);
           ActMonitored (ID (EvAsset e)) (ID src) (now w - ttl) false]
       ++ performed (query src) w2
       ++ [ActMark (ID (EvAsset e)) (ID src)]
       ++ emitted (length (query src w2).1)).

(** The credential gate of the API plugins is closed: there is no data
    source configuration for the plugin, or it holds no credentials. *)
Definition gate_closed (p : pipeline) (env : Env) : Prop :=
  needs_credentials p = true
  /\ (DataSourceCreds env (name (plugin_of p)) = None
      \/ DataSourceCreds env (name (plugin_of p)) = Some ∅).

(** The ways [check] can go. *)
Inductive check_shape (p : pipeline) (env : Env) (e : Event) (w : World)
  : error -> list Action -> Prop :=
| check_not_fqdn :
    (forall fqdn, Asset (EvAsset e) <> FQDN fqdn) ->
    check_shape p env e w (errors_New "failed to extract the FQDN asset") []
| check_no_credentials fqdn :
    Asset (EvAsset e) = FQDN fqdn -> gate_closed p env ->
    check_shape p env e w None [ActConfig (name (plugin_of p))]
| check_run fqdn keys r t :
    Asset (EvAsset e) = FQDN fqdn -> gate_open p env keys ->
    run_shape env (plugin_of p) e fqdn (query_of p env e fqdn keys) w r t ->
    check_shape p env e w r (gate_actions p ++ t).

(** Every request is made right after the limiter [l] has been taken, and
    the limiter is taken for nothing else. *)
Inductive rate_limited (l : string) : list Action -> Prop :=
| rate_limited_nil : rate_limited l []
| rate_limited_fetch req resp t :
    rate_limited l t -> rate_limited l (ActTake l :: ActRequest req resp :: t)
| rate_limited_other a t :
    is_take a = false -> is_request a = false -> rate_limited l t -> rate_limited l (a :: t).

(** The calls of [m], from any world, form a trace of the language [L]. *)
Definition traces (L : list Action -> Prop) {A} (m : M A) : Prop :=
  forall w, exists t, trace (m w).2 = trace w ++ t /\ L t.

(** The situations in which [check] returns an error. *)
Definition fails (p : pipeline) (env : Env) (e : Event) (w : World) : Prop :=
  (forall fqdn, Asset (EvAsset e) <> FQDN fqdn)
  \/ exists fqdn,
      Asset (EvAsset e) = FQDN fqdn /\ ~ gate_closed p env /\ passes env fqdn
      /\ (store_ok w = false \/ TTLPolicy env "FQDN" "FQDN" (name (plugin_of p)) = None).

(** The relation types [autnum.lookup] asks for on behalf of an evidence
    kind. *)
Definition relation_types (atype : string) : list string :=
  if String.eqb atype "URL" then ["rdap_url"]
  else if String.eqb atype "FQDN" then ["whois_server"]
  else if String.eqb atype "ContactRecord"
       then ["registrant"; "admin_contact"; "abuse_contact"; "technical_contact"]
       else [].

(** The evidence kinds [autnum.lookup] goes on with: those the
    configuration matches and that have a TTL policy. *)
Definition covered (env : Env) (r : rdap.autnum) (m : Matches) (atype : string) : bool :=
  IsMatch m atype
  && bool_decide (is_Some (TTLPolicy env "AutnumRecord" atype (name (rdap.rplugin r)))).

(** The graph holds an edge of type [t] from [a] to [b], whenever it was
    seen. *)
Definition linked (g : Graph) (t : string) (a b : nat) : Prop :=
  exists rel, rel ∈ rels g /\ RelType rel = t /\ FromAsset rel = a /\ ToAsset rel = b.

(** Calls that only read the graph. *)
Definition is_read (a : Action) : bool :=
  match a with
  | ActDB (CallOutgoingRelations _ _ _) | ActDB (CallFindById _) => true
  | _ => false
  end.

(** What holds of a finding [autnum.lookup] returns, in graph [g] with the
    thresholds [sinces] of the evidence kinds. *)
Record reported (g : Graph) (asset src : Entity) (sinces : string -> option Time) (f : Finding)
  : Prop := {
  rep_from : From f = asset;
  rep_from_name : FromName f = "AutnumRecord: " +:+ rdap.Handle_of (Asset asset);
  rep_node : To f ∈ nodes g;
  rep_name : match Asset (To f) with
             | FQDN Name => ToName f = Name
             | ContactRecord DiscoveredAt => ToName f = "ContactRecord: " +:+ DiscoveredAt
             | URL Raw => ToName f = Raw
             | _ => False
             end;
  rep_edge : linked g (Rel f) (ID asset) (ID (To f));
  rep_since : exists since, sinces (AssetType (Asset (To f))) = Some since
                            /\ since <= LastSeen (To f);
  rep_source : linked g "source" (ID (To f)) (ID src)
}.

(** The threshold [autnum.lookup] keeps for an evidence kind, at time [t]. *)
Definition threshold (env : Env) (r : rdap.autnum) (m : Matches) (t : Time)
           (atypes : list string) (atype : string) : option Time :=
  if bool_decide (atype ∈ atypes) && IsMatch m atype
  then (fun ttl => t - ttl) <$> TTLPolicy env "AutnumRecord" atype (name (rdap.rplugin r))
  else None.

(** The identifiers of the nodes of a graph are pairwise distinct. *)
Definition distinct_ids (g : Graph) : Prop := NoDup (map ID (nodes g)).

(** The graph holds an edge of type [t] from [a] to [b] seen at or after
    [since]. *)
Definition edge (g : Graph) (t : string) (a b : nat) (since : Time) : Prop :=
  exists rel, rel ∈ rels g /\ RelType rel = t /\ FromAsset rel = a /\ ToAsset rel = b
              /\ since <= RelLastSeen rel.

(** The finding [autnum.store] reports for the RDAP URL [u], stored in node
    [a], of the AutnumRecord [asset]. *)
Definition rdap_url_finding (asset a : Entity) (u : string) : Finding :=
  {| From := asset;
     FromName := "AutnumRecord: " +:+ rdap.Handle_of (Asset asset);
     To := a;
     ToName := u;
     Rel := "rdap_url" |}.

(** The finding [autnum.store] reports for the WHOIS server [a] of the
    AutnumRecord [asset]. *)
Definition whois_server_finding (asset a : Entity) : Finding :=
  {| From := asset;
     FromName := "AutnumRecord: " +:+ rdap.Handle_of (Asset asset);
     To := a;
     ToName := rdap.WhoisServer_of (Asset asset);
     Rel := "whois_server" |}.

(** The graph store answers every [Create] and [Link] of the session
    without an error. *)
Definition accepting (w : World) : Prop := forall t, refuses w t = false.

(** What the mutation of [autnum.store] leaves in the graph [g] for the WHOIS
    server of [asset] when the store accepts its calls at time [t]: the node
    [a] of the server, which is the node the graph [g0] held for it, as it
    was last seen, or a node seen at [t]; the edge from the AutnumRecord and
    the edge to the source, both seen at [t]. *)
Record whois_server_stored (g0 g : Graph) (asset src a : Entity) (t : Time) : Prop := {
  wss_found : DB.FindByContent g (FQDN (rdap.WhoisServer_of (Asset asset))) = Some a;
  wss_asset : Asset a = FQDN (rdap.WhoisServer_of (Asset asset));
  wss_seen : match DB.FindByContent g0 (FQDN (rdap.WhoisServer_of (Asset asset))) with
             | Some n => a = n
             | None => LastSeen a = t
             end;
  wss_edge : edge g "whois_server" (ID asset) (ID a) t;
  wss_source : edge g "source" (ID a) (ID src) t
}.

(** The worlds a mutation of the store passes through: the clock, the flags,
    the findings and the nodes stay, a node that is found by its content is
    found again, identifiers stay distinct, and the edges stay, as seen
    now. *)
Record persists (w w' : World) : Prop := {
  per_now : now w' = now w;
  per_done : Done w' = Done w;
  per_refuses : refuses w' = refuses w;
  per_findings : findings w' = findings w;
  per_nodes : forall x, x ∈ nodes (graph w) -> x ∈ nodes (graph w');
  per_found : forall c n, DB.FindByContent (graph w) c = Some n ->
                          DB.FindByContent (graph w') c = Some n;
  per_ids : distinct_ids (graph w) -> distinct_ids (graph w');
  per_edges : forall t x y since,
      edge (graph w) t x y since -> since <= now w -> edge (graph w') t x y since
}.

(** A finding of [autnum.store] that the graph [g] backs: it leads from the
    AutnumRecord to a URL by [rdap_url] or to the WHOIS server by
    [whois_server], to a node of the graph, and the graph holds that edge,
    seen at [t]. *)
Record backed (g : Graph) (asset : Entity) (t : Time) (f : Finding) : Prop := {
  bk_from : From f = asset;
  bk_from_name : FromName f = "AutnumRecord: " +:+ rdap.Handle_of (Asset asset);
  bk_kind : (Rel f = "rdap_url" /\ Asset (To f) = URL (ToName f))
            \/ (Rel f = "whois_server" /\ Asset (To f) = FQDN (ToName f)
                /\ ToName f = rdap.WhoisServer_of (Asset asset));
  bk_node : To f ∈ nodes g;
  bk_edge : edge g (Rel f) (ID asset) (ID (To f)) t
}.

(** The graph [g] attributes the node of the finding [f] to the source, by
    a [source] edge seen at [t]. *)
Definition attributed (g : Graph) (src : Entity) (t : Time) (f : Finding) : Prop :=
  edge g "source" (ID (To f)) (ID src) t.

(** The URL of page [i] of SiteDossier for [dname], and the URL of the one
    DuckDuckGo search. *)
Definition siteDossier_url (dname : string) (i : Z) : string :=
  "http://www.sitedossier.com/parentdomain/" +:+ dname +:+ "/" +:+ pretty i.

Definition duckDuckGo_url (dname : string) : string :=
  "https://html.duckduckgo.com/html/?q=site:" +:+ dname +:+ " -site:www." +:+ dname.

(** [Start] and [Stop] of the five FQDN plugins, on the structs their
    constructors return. *)
Definition Start (p : pipeline) (r : Registry) : error * instance * Registry :=
  match p with
  | Chaos => api.chaos_Start (constructed api.NewChaos) r
  | SecurityTrails => api.securityTrails_Start (constructed api.NewSecurityTrails) r
  | Crtsh => api.crtsh_Start (constructed api.NewCrtsh) r
  | DuckDuckGo => scrape.duckDuckGo_Start (constructed scrape.NewDuckDuckGo) r
  | SiteDossier => scrape.siteDossier_Start (constructed scrape.NewSiteDossier) r
  end.

Definition Stop (p : pipeline) (c : instance) (r : Registry) : option Registry :=
  match p with
  | Chaos => api.chaos_Stop c r
  | SecurityTrails => api.securityTrails_Stop c r
  | Crtsh => api.crtsh_Stop c r
  | DuckDuckGo => scrape.duckDuckGo_Stop c r
  | SiteDossier => scrape.siteDossier_Stop c r
  end.

(** The logger [Start] derives for the plugin named [n]. *)
Definition plugin_logger (r : Registry) (n : string) : Logger :=
  With (WithGroup (Log r) "plugin") "name" n.

(** * Properties *)

(** ** The checks are instances of the template *)

Lemma check_template (p : pipeline) (env : Env) (e : Event) :
  check p env e =
  match Asset (EvAsset e) with
  | FQDN fqdn_Name =>
      if needs_credentials p
      then with_credentials env (plugin_of p)
             (fun keys => template env (plugin_of p) e fqdn_Name (query_of p env e fqdn_Name keys))
      else template env (plugin_of p) e fqdn_Name (query_of p env e fqdn_Name [])
  | _ => ret (errors_New "failed to extract the FQDN asset")
  end.
Proof. destruct p; reflexivity. Qed.

Lemma performed_app {A} (m : M A) w t :
  trace (m w).2 = trace w ++ t -> performed m w = t.
Proof. intros H. unfold performed. rewrite H. apply drop_app_length. Qed.

(** ** Lists of calls *)

Lemma fetched_app t1 t2 : fetched (t1 ++ t2) = fetched t1 ++ fetched t2.
Proof. apply omap_app. Qed.

Lemma takes_app t1 t2 : takes (t1 ++ t2) = takes t1 ++ takes t2.
Proof. apply omap_app. Qed.

Lemma stored_app t1 t2 : stored (t1 ++ t2) = stored t1 ++ stored t2.
Proof. apply omap_app. Qed.

Lemma scoped_app t1 t2 : scoped (t1 ++ t2) = scoped t1 ++ scoped t2.
Proof. apply omap_app. Qed.

Lemma requests_fetched t : requests t = map fst (fetched t).
Proof.
  induction t as [|a t IH]; [reflexivity|].
  destruct a; cbn; try exact IH. f_equal. exact IH.
Qed.

Lemma no_retrieval_fetched t : Forall no_retrieval t -> fetched t = [] /\ takes t = [].
Proof.
  induction 1 as [|a t [Ht Hr] _ [IH1 IH2]]; [split; reflexivity|].
  destruct a; try discriminate; cbn; auto.
Qed.

Lemma scope_no_retrieval t : Forall (fun a => is_scope a = true) t -> Forall no_retrieval t.
Proof. intros H. eapply Forall_impl; [exact H|]. intros []; try discriminate; split; reflexivity. Qed.

Lemma scope_not_stored t : Forall (fun a => is_scope a = true) t -> stored t = [].
Proof.
  induction 1 as [|a t Ha _ IH]; [reflexivity|].
  destruct a; try discriminate. exact IH.
Qed.

Lemma store_no_retrieval t :
  Forall (fun a => is_store_action a = true) t -> Forall no_retrieval t.
Proof. intros H. eapply Forall_impl; [exact H|]. intros []; try discriminate; split; reflexivity. Qed.

Lemma store_is_query t :
  Forall (fun a => is_store_action a = true) t -> Forall (fun a => is_query_action a = true) t.
Proof. intros H. eapply Forall_impl; [exact H|]. intros []; try discriminate; reflexivity. Qed.

Lemma gate_no_fetch pre : Forall (fun a => is_gate a = true) pre -> Forall no_fetch pre.
Proof. intros H. eapply Forall_impl; [exact H|]. intros []; try discriminate; repeat split. Qed.

Lemma gate_no_answer pre :
  Forall (fun a => is_gate a = true) pre ->
  Forall (fun a => is_fresh_answer a = false) pre
  /\ Forall (fun a => is_stale_answer a = false) pre.
Proof.
  intros H. split; (eapply Forall_impl; [exact H|]); intros []; try discriminate; reflexivity.
Qed.

Lemma query_no_answer t :
  Forall (fun a => is_query_action a = true) t ->
  Forall (fun a => is_fresh_answer a = false) t
  /\ Forall (fun a => is_stale_answer a = false) t.
Proof.
  intros H. split; (eapply Forall_impl; [exact H|]); intros []; try discriminate; reflexivity.
Qed.

Lemma fresh_run_absurd t :
  fresh_run t -> Forall (fun a => is_fresh_answer a = false) t -> False.
Proof.
  intros (a & s & since & Hin) HF. rewrite Forall_forall in HF.
  specialize (HF _ Hin). discriminate.
Qed.

Lemma stale_run_absurd t :
  stale_run t -> Forall (fun a => is_stale_answer a = false) t -> False.
Proof.
  intros (a & s & since & Hin) HF. rewrite Forall_forall in HF.
  specialize (HF _ Hin). discriminate.
Qed.

Ltac list_facts :=
  repeat first [ assumption
               | reflexivity
               | apply Forall_app_2
               | apply Forall_cons_2
               | apply Forall_nil_2
               | match goal with
                 | |- Forall _ (source_creation _ _) =>
                     unfold source_creation; destruct (DB.FindByContent _ _)
                 end
               | split ].

(** Rewrites a trace into the form [trace w0 ++ ...]. *)
Ltac trace_eq := cbn; rewrite <- ?app_assoc; cbn [app]; rewrite <- ?app_assoc; reflexivity.

(** ** Worlds a computation passes through *)

Section Extends.
Context (P : Action -> bool).

Lemma extends_refl w : extends P w w.
Proof.
  split; try reflexivity.
  - intros c n _ H. exact H.
  - intros a s since _ H. exact H.
  - exists []. split; [symmetry; apply app_nil_r | constructor].
Qed.

Lemma extends_trans w1 w2 w3 : extends P w1 w2 -> extends P w2 w3 -> extends P w1 w3.
Proof.
  intros [n1 d1 s1 f1 g1 k1 (t1 & e1 & p1)] [n2 d2 s2 f2 g2 k2 (t2 & e2 & p2)].
  split; try congruence.
  - intros c n Hc H. apply g2, g1; assumption.
  - intros a s since Hle H. apply k2; [rewrite n1; exact Hle|]. apply k1; assumption.
  - exists (t1 ++ t2). split.
    + rewrite e2, e1, app_assoc. reflexivity.
    + apply Forall_app_2; assumption.
Qed.

Lemma transits_ret {A} (a : A) : transits P (ret a).
Proof. intros w. apply extends_refl. Qed.

Lemma transits_get {A} (f : World -> A) : transits P (get f).
Proof. intros w. apply extends_refl. Qed.

Lemma transits_bind {A B} (m : M A) (k : A -> M B) :
  transits P m -> (forall a, transits P (k a)) -> transits P (bind m k).
Proof.
  intros Hm Hk w. unfold bind. specialize (Hm w).
  destruct (m w) as [a w1]. eapply extends_trans; [exact Hm | apply Hk].
Qed.

Lemma transits_if {A} (b : bool) (m1 m2 : M A) :
  transits P m1 -> transits P m2 -> transits P (if b then m1 else m2).
Proof. destruct b; auto. Qed.

Lemma transits_log a : P a = true -> transits P (log a).
Proof.
  intros Ha w. split; try reflexivity.
  - intros c n _ H. exact H.
  - intros b s since _ H. exact H.
  - exists [a]. split; [reflexivity | repeat constructor; assumption].
Qed.
End Extends.

Lemma transits_weaken (P P' : Action -> bool) {A} (m : M A) :
  (forall a, P a = true -> P' a = true) -> transits P m -> transits P' m.
Proof.
  intros HP Hm w. destruct (Hm w) as [n d s f g k (t & e & p)].
  split; try assumption. exists t. split; [exact e|].
  eapply Forall_impl; [exact p | exact HP].
Qed.

(** ** The graph store *)

Lemma find_app_Some {A} (f : A -> bool) l l' x :
  find f l = Some x -> find f (l ++ l') = Some x.
Proof.
  induction l as [|y l IH]; [discriminate|]. cbn.
  destruct (f y); [trivial | exact IH].
Qed.

Lemma find_app_None {A} (f : A -> bool) l x :
  find f l = None -> f x = true -> find f (l ++ [x]) = Some x.
Proof.
  induction l as [|y l IH]; cbn; intros H Hx; [rewrite Hx; reflexivity|].
  destruct (f y); [discriminate | auto].
Qed.

Lemma find_Some_holds {A} (f : A -> bool) l x : find f l = Some x -> f x = true.
Proof. intros H. apply find_some in H. tauto. Qed.

Lemma stable_sources_Link g t a r b : stable_sources g (DB.Link g t a r b).
Proof. intros c n _ H. unfold DB.Link. destruct (existsb _ _); exact H. Qed.

Lemma stable_sources_Create g t x :
  stable_sources g (DB.Create g t None EmptyString (FQDN x)).2.
Proof.
  intros c n Hc H. unfold DB.Create.
  destruct (DB.FindByContent g (FQDN x)) as [m|]; cbn; unfold DB.FindByContent in *; cbn.
  - exact H.
  - apply find_app_Some. exact H.
Qed.

Lemma FindByContent_Link g t a r b c :
  DB.FindByContent (DB.Link g t a r b) c = DB.FindByContent g c.
Proof. unfold DB.Link, DB.FindByContent. destruct (existsb _ _); reflexivity. Qed.

Lemma source_asset_not_fqdn psrc x : source_asset psrc <> FQDN x.
Proof. discriminate. Qed.


Lemma same_edge_refresh t a b now r :
  DB.same_edge t a b (DB.refresh t a b now r) = DB.same_edge t a b r.
Proof. unfold DB.refresh. destruct (DB.same_edge t a b r) eqn:H; exact H. Qed.

(** [markFresh] makes the subject fresh for every threshold up to now. *)
Lemma fresh_in_Link g t a s since :
  since <= t -> fresh_in (DB.Link g t a "monitored_by" s) a s since = true.
Proof.
  intros Hle. unfold fresh_in, DB.Link.
  destruct (existsb (DB.same_edge "monitored_by" (ID a) (ID s)) (rels g)) eqn:Hex; cbn.
  - apply existsb_exists in Hex as (r & Hin & Hr).
    apply existsb_exists. exists (DB.refresh "monitored_by" (ID a) (ID s) t r).
    split; [apply in_map; exact Hin|].
    unfold support.monitored_by. rewrite same_edge_refresh, Hr. cbn.
    unfold DB.refresh. rewrite Hr. cbn. unfold Before.
    apply negb_true_iff, Z.ltb_ge. lia.
  - rewrite existsb_app. apply orb_true_iff. right. cbn.
    unfold support.monitored_by, DB.same_edge, Before. cbn.
    rewrite !Nat.eqb_refl. cbn. rewrite orb_false_r.
    apply negb_true_iff, Z.ltb_ge. lia.
Qed.

(** A link made at [t] leaves the freshness records up to [t] in place. *)
Lemma keeps_fresh_Link g t x r y : keeps_fresh t g (DB.Link g t x r y).
Proof.
  intros a s since Hle H. unfold DB.Link.
  apply existsb_exists in H as (rel & Hin & Hm).
  destruct (existsb (DB.same_edge r (ID x) (ID y)) (rels g)); cbn.
  - apply existsb_exists. exists (DB.refresh r (ID x) (ID y) t rel).
    split; [apply in_map; exact Hin|].
    unfold DB.refresh. destruct (DB.same_edge r (ID x) (ID y) rel); [|exact Hm].
    unfold support.monitored_by, DB.same_edge, Before in *. cbn.
    apply andb_true_iff in Hm as [-> Hm]. cbn.
    apply negb_true_iff, Z.ltb_ge. lia.
  - rewrite existsb_app. apply orb_true_iff. left.
    apply existsb_exists. exists rel. auto.
Qed.

Lemma keeps_fresh_rels t g g' : rels g' = rels g -> keeps_fresh t g g'.
Proof. intros E a s since _ H. rewrite E. exact H. Qed.

(** The identifier of a new node is used by no node and by no edge. *)
Lemma fresh_id_spec g :
  Forall (fun n => (ID n < DB.fresh_id g)%nat) (nodes g)
  /\ Forall (fun r => (FromAsset r < DB.fresh_id g)%nat /\ (ToAsset r < DB.fresh_id g)%nat)
            (rels g).
Proof.
  unfold DB.fresh_id.
  pose proof (list_max_le (map ID (nodes g) ++ map FromAsset (rels g) ++ map ToAsset (rels g))
                (list_max (map ID (nodes g) ++ map FromAsset (rels g)
                           ++ map ToAsset (rels g)))) as [H _].
  specialize (H (Nat.le_refl _)).
  apply List.Forall_app in H as [H1 H]. apply List.Forall_app in H as [H2 H3].
  rewrite List.Forall_map in H1, H2, H3. rewrite List.Forall_forall in H1, H2, H3.
  split; apply Forall_forall; intros x Hx; apply list_elem_of_In in Hx.
  - specialize (H1 x Hx). cbn in H1. lia.
  - specialize (H2 x Hx). specialize (H3 x Hx). cbn in *. lia.
Qed.

(** No freshness record points at a node that has just been created. *)
Lemma fresh_in_unlinked g g' a s since :
  ID s = DB.fresh_id g' -> rels g = rels g' -> fresh_in g a s since = false.
Proof.
  intros Hid Hr. unfold fresh_in. rewrite Hr.
  destruct (existsb _ _) eqn:E; [|reflexivity].
  apply existsb_exists in E as (r & Hin & Hm).
  destruct (fresh_id_spec g') as [_ H]. rewrite Forall_forall in H.
  destruct (H r (proj2 (list_elem_of_In _ _) Hin)) as [_ Hto].
  unfold support.monitored_by, DB.same_edge in Hm.
  apply andb_true_iff in Hm as [Hm _]. apply andb_true_iff in Hm as [_ Hm].
  apply Nat.eqb_eq in Hm. lia.
Qed.

(** A source that is found fresh was not created by this run. *)
Lemma resolved_fresh psrc w n w1 a since :
  resolved psrc w n w1 -> fresh_in (graph w1) a n since = true ->
  source_creation psrc (graph w) = []
  /\ DB.FindByContent (graph w) (source_asset psrc) = Some n /\ graph w1 = graph w.
Proof.
  intros Hres Hfresh.
  destruct (res_nodes _ _ _ _ Hres) as [[Hf Hg] | (Hf & Hn & Hid & _)].
  - unfold source_creation. rewrite Hf. auto.
  - rewrite (fresh_in_unlinked _ (graph w) a n since Hid (res_rels _ _ _ _ Hres)) in Hfresh.
    discriminate.
Qed.

(** ** The calls of the store step and of the queries *)

Lemma transits_Create x : transits is_queue_action (SessionDB.Create None EmptyString (FQDN x)).
Proof.
  intros w. unfold SessionDB.Create, bind, log. cbn.
  destruct (refuses w _).
  { split; try reflexivity; cbn; [intros c n _ H; exact H | intros a s since _ H; exact H|].
    eexists [_]. split; [reflexivity | repeat constructor]. }
  pose proof (stable_sources_Create (graph w) (now w) x) as Hs.
  assert (rels (DB.Create (graph w) (now w) None EmptyString (FQDN x)).2 = rels (graph w)) as Hr
      by (unfold DB.Create; destruct (DB.FindByContent _ _); reflexivity).
  destruct (DB.Create _ _ _ _ _) as [a g]. cbn in *.
  split; try reflexivity; cbn; [exact Hs | apply keeps_fresh_rels, Hr|].
  eexists [_]. split; [reflexivity | repeat constructor].
Qed.

Lemma transits_Link a r b : transits is_queue_action (SessionDB.Link a r b).
Proof.
  intros w. unfold SessionDB.Link, bind, log. cbn.
  destruct (refuses w _).
  { split; try reflexivity; cbn; [intros c n _ H; exact H | intros x s since _ H; exact H|].
    eexists [_]. split; [reflexivity | repeat constructor]. }
  split; try reflexivity; cbn; [apply stable_sources_Link | apply keeps_fresh_Link|].
  eexists [_]. split; [reflexivity | repeat constructor].
Qed.

Lemma transits_store_names src names : transits is_queue_action (support.store_names src names).
Proof.
  induction names as [|n rest IH]; cbn; [apply transits_ret|].
  apply transits_bind; [apply transits_Create|]. intros [a|]; [|exact IH].
  apply transits_bind; [apply transits_Link|]. intros _.
  apply transits_bind; [exact IH|]. intros ?. apply transits_ret.
Qed.

(** The mutation of the store step, after it has been submitted. *)
Lemma transits_store_mutation src names :
  transits is_queue_action
    (support.AppendToDBQueue
       (bind (get Done) (fun done => if done then ret [] else support.store_names src names))).
Proof.
  unfold support.AppendToDBQueue.
  apply transits_bind; [apply transits_log; reflexivity | intros _].
  apply transits_bind; [apply transits_get | intros d].
  apply transits_if; [apply transits_ret | apply transits_store_names].
Qed.

Lemma transits_StoreFQDNsWithSource names src p h :
  transits is_store_action (support.StoreFQDNsWithSource names src p h).
Proof.
  unfold support.StoreFQDNsWithSource.
  apply transits_bind; [apply transits_log; reflexivity | intros _].
  eapply transits_weaken; [|apply transits_store_mutation].
  intros []; try discriminate; reflexivity.
Qed.

(** The store step logs the names it is given, once. *)
Lemma StoreFQDNsWithSource_stored names src p h w :
  stored (performed (support.StoreFQDNsWithSource names src p h) w) = [names].
Proof.
  destruct (transits_store_mutation src names (logged (ActStore names (ID src)) w))
    as [_ _ _ _ _ _ (t & Ht & HF)].
  assert (trace (support.StoreFQDNsWithSource names src p h w).2
          = trace w ++ ActStore names (ID src) :: t) as E.
  { change (support.StoreFQDNsWithSource names src p h w)
      with (support.AppendToDBQueue
              (bind (get Done) (fun done => if done then ret [] else support.store_names src names))
              (logged (ActStore names (ID src)) w)).
    rewrite Ht. cbn. rewrite <- app_assoc. reflexivity. }
  rewrite (performed_app _ _ _ E). cbn. f_equal. clear Ht E.
  induction HF as [|a t Ha _ IH]; [reflexivity|].
  destruct a; try discriminate; exact IH.
Qed.

Lemma transits_store_query names src p h :
  transits is_query_action (support.StoreFQDNsWithSource names src p h).
Proof.
  eapply transits_weaken; [|apply transits_StoreFQDNsWithSource].
  intros []; try discriminate; reflexivity.
Qed.

Lemma transits_IsAssetInScope env a c : transits is_query_action (IsAssetInScope env a c).
Proof.
  unfold IsAssetInScope. apply transits_bind; [apply transits_log; reflexivity|].
  intros _. apply transits_ret.
Qed.

Lemma transits_Take p : transits is_query_action (Take p).
Proof. apply transits_log. reflexivity. Qed.

Lemma transits_RequestWebPage env req : transits is_query_action (RequestWebPage env req).
Proof.
  intros w. split; try reflexivity.
  - intros c n _ H. exact H.
  - intros a s since _ H. exact H.
  - eexists [_]. split; [reflexivity | repeat constructor].
Qed.

Create HintDb transits discriminated.
#[local] Hint Resolve transits_ret transits_get transits_IsAssetInScope transits_Take
  transits_RequestWebPage transits_store_query transits_if : transits.

Ltac transits_step :=
  first [ solve [eauto with transits]
        | apply transits_bind; [| intros ?]
        | apply transits_if
        | match goal with |- transits _ (match ?x with _ => _ end) => destruct x end ].

Lemma transits_chaos_subdomains env dname subs names :
  transits is_query_action (api.chaos_subdomains env dname subs names).
Proof.
  revert names. induction subs as [|sub rest IH]; intros names; cbn; [apply transits_ret|].
  apply transits_bind; [apply transits_IsAssetInScope|]. intros [a conf].
  apply transits_if; apply IH.
Qed.

Lemma transits_chaos_keys env c dname keys names :
  transits is_query_action (api.chaos_keys env c dname keys names).
Proof.
  revert names. induction keys as [|key rest IH]; intros names; cbn; [apply transits_ret|].
  repeat transits_step; auto using transits_chaos_subdomains.
Qed.

Lemma transits_securityTrails_subdomains env dname subs names :
  transits is_query_action (api.securityTrails_subdomains env dname subs names).
Proof.
  revert names. induction subs as [|sub rest IH]; intros names; cbn; [apply transits_ret|].
  apply transits_bind; [apply transits_IsAssetInScope|]. intros [a conf].
  apply transits_if; apply IH.
Qed.

Lemma transits_securityTrails_keys env c dname keys names :
  transits is_query_action (api.securityTrails_keys env c dname keys names).
Proof.
  revert names. induction keys as [|key rest IH]; intros names; cbn; [apply transits_ret|].
  repeat transits_step; auto using transits_securityTrails_subdomains.
Qed.

Lemma transits_crtsh_cert_names env ns names :
  transits is_query_action (api.crtsh_cert_names env ns names).
Proof.
  revert names. induction ns as [|n rest IH]; intros names; cbn; [apply transits_ret|].
  apply transits_bind; [apply transits_IsAssetInScope|]. intros [a conf].
  apply transits_if; apply IH.
Qed.

Lemma transits_crtsh_certs env certs names :
  transits is_query_action (api.crtsh_certs env certs names).
Proof.
  revert names. induction certs as [|n rest IH]; intros names; cbn; [apply transits_ret|].
  apply transits_bind; [apply transits_crtsh_cert_names | intros ?; apply IH].
Qed.

Lemma transits_duckDuckGo_names env ns subs :
  transits is_query_action (scrape.duckDuckGo_names env ns subs).
Proof.
  revert subs. induction ns as [|n rest IH]; intros subs; cbn; [apply transits_ret|].
  apply transits_bind; [apply transits_IsAssetInScope|]. intros [a conf].
  apply transits_if; apply IH.
Qed.

Lemma transits_siteDossier_names env ns subs :
  transits is_query_action (scrape.siteDossier_names env ns subs).
Proof.
  revert subs. induction ns as [|n rest IH]; intros subs; cbn; [apply transits_ret|].
  apply transits_bind; [apply transits_IsAssetInScope|]. intros [a conf].
  apply transits_if; apply IH.
Qed.

Lemma transits_siteDossier_pages env sd dname i subs :
  transits is_query_action (scrape.siteDossier_pages env sd dname i subs).
Proof.
  funelim (scrape.siteDossier_pages env sd dname i subs); [|apply transits_ret].
  apply transits_bind; [apply transits_Take | intros _].
  apply transits_bind; [apply transits_RequestWebPage | intros [Body|]]; [|apply transits_ret].
  apply transits_if; [apply transits_ret|].
  apply transits_bind; [apply transits_siteDossier_names | intros subs'].
  intros w. apply (H tt None EmptyString subs' w).
Qed.

(** Every query only takes the limiter, fetches, asks the scope filter and
    stores; it leaves the clock, the flags, the findings and the source nodes
    as they were. *)
Lemma transits_query_of p env e dname keys src :
  transits is_query_action (query_of p env e dname keys src).
Proof.
  destruct p; cbn;
    unfold api.chaos_query, api.securityTrails_query, api.crtsh_query,
      scrape.duckDuckGo_query, scrape.siteDossier_query,
      api.chaos_store, api.securityTrails_store, api.crtsh_store,
      scrape.duckDuckGo_store, scrape.siteDossier_store;
    repeat transits_step;
    auto using transits_chaos_keys, transits_securityTrails_keys, transits_crtsh_certs,
      transits_duckDuckGo_names, transits_siteDossier_pages.
Qed.

(** ** Rules for running the computations *)

Lemma wp_ret {A} (a : A) Q w : Q a w -> wp (ret a) Q w.
Proof. exact id. Qed.

Lemma wp_bind {A B} (m : M A) (k : A -> M B) Q w :
  wp m (fun a w1 => wp (k a) Q w1) w -> wp (bind m k) Q w.
Proof. unfold wp, bind. destruct (m w) as [a w1]. exact id. Qed.

Lemma wp_log a Q w : Q tt (logged a w) -> wp (log a) Q w.
Proof. exact id. Qed.

Lemma wp_transits P {A} (m : M A) Q w :
  transits P m -> (forall a w1, extends P w w1 -> Q a w1) -> wp m Q w.
Proof. intros Hm HQ. apply HQ, Hm. Qed.

Lemma wp_IsAssetInScope env a c Q w :
  Q (InScope env a c) (logged (ActScope a) w) -> wp (IsAssetInScope env a c) Q w.
Proof. exact id. Qed.

Lemma wp_GetDataSourceConfig env n Q w :
  Q (DataSourceCreds env n) (logged (ActConfig n) w) -> wp (GetDataSourceConfig env n) Q w.
Proof. exact id. Qed.

(** [GetSource], run: the node is found, or created through the queue. *)
Lemma GetSource_eq psrc w :
  support.GetSource psrc w
  = if store_ok w then
      match DB.FindByContent (graph w) (source_asset psrc) with
      | Some n => (Some n, logged (ActGetSource (SourceName psrc)) w)
      | None =>
          let n := {| ID := DB.fresh_id (graph w); Asset := source_asset psrc;
                      LastSeen := now w |} in
          (Some n,
           set_graph {| nodes := nodes (graph w) ++ [n]; rels := rels (graph w) |}
             (set_trace (trace w ++ [ActGetSource (SourceName psrc); ActSubmit;
                                     ActDB (CallCreate None EmptyString (source_asset psrc))])
                w))
      end
    else (None, logged (ActGetSource (SourceName psrc)) w).
Proof.
  unfold support.GetSource, support.AppendToDBQueue, bind, log, get, ret. cbn.
  destruct (store_ok w); [|reflexivity].
  fold (source_asset psrc).
  change (graph (set_trace (trace w ++ [ActGetSource (SourceName psrc)]) w)) with (graph w).
  destruct (DB.FindByContent (graph w) (source_asset psrc)) as [n|] eqn:Hf; [reflexivity|].
  unfold DB.Create. cbn. rewrite Hf. cbn. rewrite <- !app_assoc. reflexivity.
Qed.

Lemma wp_GetSource psrc Q w :
  (store_ok w = false -> Q None (logged (ActGetSource (SourceName psrc)) w)) ->
  (store_ok w = true -> forall n w1, resolved psrc w n w1 -> Q (Some n) w1) ->
  wp (support.GetSource psrc) Q w.
Proof.
  intros Hno Hyes. unfold wp. rewrite GetSource_eq.
  destruct (store_ok w) eqn:Hs; [|apply Hno; reflexivity].
  destruct (DB.FindByContent (graph w) (source_asset psrc)) as [n|] eqn:Hf; cbn.
  - apply Hyes; [reflexivity|]. split; cbn; try reflexivity; auto.
    + unfold source_creation. rewrite Hf. reflexivity.
    + apply find_Some_holds in Hf. apply bool_decide_eq_true_1 in Hf. exact Hf.
  - apply Hyes; [reflexivity|]. split; cbn; try reflexivity; auto.
    + unfold source_creation. rewrite Hf. reflexivity.
    + apply find_app_None; [exact Hf | apply bool_decide_eq_true_2; reflexivity].
Qed.

Lemma wp_GetSource_found psrc n Q w :
  store_ok w = true ->
  DB.FindByContent (graph w) (source_asset psrc) = Some n ->
  Q (Some n) (logged (ActGetSource (SourceName psrc)) w) ->
  wp (support.GetSource psrc) Q w.
Proof.
  intros Hs Hf HQ. unfold wp. rewrite GetSource_eq, Hs, Hf. exact HQ.
Qed.

Lemma wp_TTLStartTime env from to plugin Q w :
  (forall ttl, TTLPolicy env from to plugin = Some ttl ->
               Q (now w - ttl, None) (logged (ActTTL from to plugin) w)) ->
  (TTLPolicy env from to plugin = None ->
   Q (zero_time, errors_New "failed to obtain the TTL") (logged (ActTTL from to plugin) w)) ->
  wp (support.TTLStartTime env from to plugin) Q w.
Proof.
  intros Hyes Hno. unfold wp, support.TTLStartTime, bind, log. cbn.
  destruct (TTLPolicy env from to plugin) as [ttl|]; [apply Hyes | apply Hno]; reflexivity.
Qed.

Lemma wp_AssetMonitoredWithinTTL asset src since Q w :
  Q (fresh_in (graph w) asset src since)
    (logged (ActMonitored (ID asset) (ID src) since (fresh_in (graph w) asset src since)) w) ->
  wp (support.AssetMonitoredWithinTTL asset src since) Q w.
Proof. exact id. Qed.

Lemma wp_SourceToAssetsWithinTTL dname atype src since Q w :
  Q (reusable (graph w) dname atype src since) (logged (ActLookup dname atype (ID src) since) w) ->
  wp (support.SourceToAssetsWithinTTL dname atype src since) Q w.
Proof. exact id. Qed.

Lemma wp_MarkAssetMonitored asset src Q w :
  Q tt (set_graph (DB.Link (graph w) (now w) asset "monitored_by" src)
          (logged (ActMark (ID asset) (ID src)) w)) ->
  wp (support.MarkAssetMonitored asset src) Q w.
Proof. exact id. Qed.

Lemma wp_ProcessFQDNsWithSource e assets src Q w :
  Q tt (set_findings (findings w ++ found e src assets)
          (logged (ActProcess (length (found e src assets))) w)) ->
  wp (support.ProcessFQDNsWithSource e assets src) Q w.
Proof. exact id. Qed.

Lemma wp_if {A} (b : bool) (m1 m2 : M A) Q w :
  (b = true -> wp m1 Q w) -> (b = false -> wp m2 Q w) -> wp (if b then m1 else m2) Q w.
Proof. destruct b; auto. Qed.

Lemma passes_not_out env fqdn : passes env fqdn -> out_of_scope env fqdn -> False.
Proof.
  intros (f & conf & HS & Hc & HE) [H | [H | H]]; rewrite HS in H; cbn in H.
  - contradiction.
  - discriminate.
  - rewrite (H f eq_refl) in HE. discriminate.
Qed.


Lemma wp_conseq {A} (m : M A) (Q Q' : A -> World -> Prop) w :
  wp m Q w -> (forall a w', Q a w' -> Q' a w') -> wp m Q' w.
Proof. unfold wp. auto. Qed.

Lemma wp_Take p Q w : Q tt (logged (ActTake (name p)) w) -> wp (Take p) Q w.
Proof. exact id. Qed.

Lemma wp_RequestWebPage env req Q w :
  Q (WebPage env (trace w) req) (logged (ActRequest req (WebPage env (trace w) req)) w) ->
  wp (RequestWebPage env req) Q w.
Proof. exact id. Qed.

Lemma after_refl w : after w [] w.
Proof. split; try reflexivity. symmetry. apply app_nil_r. Qed.

Lemma after_logged w a : after w [a] (logged a w).
Proof. split; reflexivity. Qed.

Lemma gate_actions_gate p : Forall (fun a => is_gate a = true) (gate_actions p).
Proof. unfold gate_actions. destruct (needs_credentials p); repeat constructor. Qed.

(** ** The template, case by case *)

Section Template.
Context (env : Env) (p : plugin) (e : Event) (fqdn : string).
Context (query : Entity -> M (list Entity)).

Abbreviation scoped_w w := (logged (ActScope (FQDN fqdn)) w).
Abbreviation ttl_w w1 := (logged (ActTTL "FQDN" "FQDN" (name p)) w1).
Abbreviation asked_w n ttl b w1 :=
  (logged (ActMonitored (ID (EvAsset e)) (ID n) (now w1 - ttl) b) (ttl_w w1)).

(** The five ways the template can go. *)
Lemma wp_template Q w :
  (out_of_scope env fqdn -> Q None (scoped_w w)) ->
  (passes env fqdn -> store_ok w = false ->
   Q (errors_New "failed to obtain the plugin source information")
     (logged (ActGetSource (SourceName (source p))) (scoped_w w))) ->
  (passes env fqdn -> forall n w1,
      resolved (source p) (scoped_w w) n w1 ->
      TTLPolicy env "FQDN" "FQDN" (name p) = None ->
      Q (errors_New "failed to obtain the TTL") (ttl_w w1)) ->
  (passes env fqdn -> forall n w1 ttl,
      resolved (source p) (scoped_w w) n w1 ->
      TTLPolicy env "FQDN" "FQDN" (name p) = Some ttl ->
      fresh_in (graph w1) (EvAsset e) n (now w1 - ttl) = true ->
      Q None (processed e n (reusable (graph w1) fqdn "FQDN" n (now w1 - ttl))
                (logged (ActLookup fqdn "FQDN" (ID n) (now w1 - ttl))
                   (asked_w n ttl true w1)))) ->
  (passes env fqdn -> forall n w1 ttl names w3,
      resolved (source p) (scoped_w w) n w1 ->
      TTLPolicy env "FQDN" "FQDN" (name p) = Some ttl ->
      fresh_in (graph w1) (EvAsset e) n (now w1 - ttl) = false ->
      query n (asked_w n ttl false w1) = (names, w3) ->
      Q None (processed e n names (marked e n w3))) ->
  wp (template env p e fqdn query) Q w.
Proof.
  intros Hout Hnosrc Hnottl Hfresh Hstale. unfold template.
  apply wp_bind, wp_IsAssetInScope.
  destruct (InScope env (FQDN fqdn) 0) as [a conf] eqn:HS.
  destruct ((conf =? 0) || bool_decide (a = None)) eqn:Hgate.
  { apply wp_ret, Hout. unfold out_of_scope. rewrite HS. cbn.
    apply orb_true_iff in Hgate as [H|H]; [left; lia | right; left].
    apply bool_decide_eq_true_1 in H. exact H. }
  apply orb_false_iff in Hgate as [Hconf Hnil].
  destruct a as [a|]; [|cbn in Hnil; discriminate].
  destruct (canonical_fqdn (Some a)) as [f|] eqn:Hcanon.
  2: { apply wp_ret, Hout. unfold out_of_scope. rewrite HS. cbn.
       right; right. intros f' [= ->]. discriminate. }
  destruct a; try discriminate. cbn in Hcanon. injection Hcanon as ->.
  destruct (negb (GoStrings.EqualFold fqdn f)) eqn:Hfold.
  { apply wp_ret, Hout. unfold out_of_scope. rewrite HS. cbn.
    right; right. intros f' [= <-]. apply negb_true_iff. exact Hfold. }
  assert (passes env fqdn) as Hpass.
  { exists f, conf. rewrite HS. repeat split; [lia | apply negb_false_iff; exact Hfold]. }
  apply wp_bind, wp_GetSource.
  { intros Hs. apply wp_ret, Hnosrc; assumption. }
  intros Hs n w1 Hres.
  apply wp_bind, wp_TTLStartTime.
  2: { intros Hno. apply wp_ret. eapply Hnottl; eassumption. }
  intros ttl Httl.
  apply wp_bind, wp_AssetMonitoredWithinTTL. cbv beta.
  change (graph (logged (ActTTL "FQDN" "FQDN" (name p)) w1)) with (graph w1).
  destruct (fresh_in (graph w1) (EvAsset e) n (now w1 - ttl)) eqn:Hf.
  - apply wp_bind, wp_SourceToAssetsWithinTTL. cbv beta.
    apply wp_bind.
    specialize (Hfresh Hpass n w1 ttl Hres Httl Hf).
    unfold processed in Hfresh.
    change (graph (logged _ (logged _ w1))) with (graph w1).
    destruct (0 <? length _)%nat.
    + apply wp_ProcessFQDNsWithSource, wp_ret. exact Hfresh.
    + apply wp_ret, wp_ret. exact Hfresh.
  - apply wp_bind, wp_bind.
    destruct (query n (asked_w n ttl false w1)) as [names w3] eqn:Hq.
    unfold wp at 1. rewrite Hq. cbn [fst snd].
    apply wp_bind, wp_MarkAssetMonitored, wp_ret.
    apply wp_bind.
    specialize (Hstale Hpass n w1 ttl names w3 Hres Httl Hf Hq).
    unfold processed in Hstale.
    destruct (0 <? length _)%nat.
    + apply wp_ProcessFQDNsWithSource, wp_ret. exact Hstale.
    + apply wp_ret, wp_ret. exact Hstale.
Qed.
End Template.

(** The three ways a [check] can go: the asset is not an FQDN, the
    credential gate closes, or the template runs. *)
Lemma wp_check p env e (Q : error -> World -> Prop) w :
  ((forall fqdn, Asset (EvAsset e) <> FQDN fqdn) ->
   Q (errors_New "failed to extract the FQDN asset") w) ->
  (needs_credentials p = true ->
   Q None (logged (ActConfig (name (plugin_of p))) w)) ->
  (forall fqdn keys w1,
      Asset (EvAsset e) = FQDN fqdn -> gate_open p env keys ->
      after w (gate_actions p) w1 ->
      wp (template env (plugin_of p) e fqdn (query_of p env e fqdn keys)) Q w1) ->
  wp (check p env e) Q w.
Proof.
  intros Hother Hcreds Htemplate. rewrite check_template.
  destruct (Asset (EvAsset e)) as [fqdn| | | | |] eqn:HA;
    try (apply wp_ret, Hother; intros ?; discriminate).
  unfold gate_open, gate_actions in Htemplate.
  destruct (needs_credentials p) eqn:Hneeds.
  - unfold with_credentials. apply wp_bind, wp_GetDataSourceConfig. cbv beta.
    destruct (DataSourceCreds env (name (plugin_of p))) as [Creds|].
    + destruct (size Creds =? 0)%nat eqn:Hlen.
      * apply wp_ret, Hcreds. reflexivity.
      * eapply Htemplate; [reflexivity | eauto | apply after_logged].
    + apply wp_ret, Hcreds. reflexivity.
  - eapply Htemplate; [reflexivity | reflexivity | apply after_refl].
Qed.

(** With the gate open, [check] is the template run after the gate. *)
Lemma check_open p env e fqdn keys Q w :
  Asset (EvAsset e) = FQDN fqdn -> gate_open p env keys ->
  (forall w1, after w (gate_actions p) w1 ->
              wp (template env (plugin_of p) e fqdn (query_of p env e fqdn keys)) Q w1) ->
  wp (check p env e) Q w.
Proof.
  intros HA Hgate H. rewrite check_template, HA.
  unfold gate_open, gate_actions in *.
  destruct (needs_credentials p).
  - destruct Hgate as (Creds & HC & Hlen & ->).
    unfold with_credentials. apply wp_bind, wp_GetDataSourceConfig. cbv beta.
    rewrite HC, Hlen. apply H, after_logged.
  - subst keys. apply H, after_refl.
Qed.


(** ** Runs of the template *)

Lemma reusable_persisted g (dname : string) src since n psrc w0 :
  Asset src = source_asset psrc ->
  (DB.FindByContent w0 (source_asset psrc) = Some src /\ g = w0)
  \/ (DB.FindByContent w0 (source_asset psrc) = None /\ nodes g = nodes w0 ++ [src]) ->
  n ∈ reusable g dname "FQDN" src since -> n ∈ nodes w0.
Proof.
  intros Hsrc Hnodes Hin. unfold reusable in Hin.
  apply list_elem_of_filter in Hin as [Hn Hin].
  destruct Hnodes as [[_ E] | [_ E]]; rewrite E in Hin; [exact Hin|].
  apply elem_of_app in Hin as [Hin | Hin]; [exact Hin|].
  apply list_elem_of_singleton in Hin as ->.
  rewrite Hsrc in Hn. cbn in Hn. contradiction.
Qed.

Section TemplateFresh.
Context (env : Env) (p : plugin) (e : Event) (fqdn : string).
Context (query : Entity -> M (list Entity)).
Hypothesis Hquery : forall src, transits is_query_action (query src).

Lemma template_served_from_graph w0 pre w :
  after w0 pre w -> Forall (fun a => is_gate a = true) pre ->
  wp (template env p e fqdn query) (served_from_graph w0) w.
Proof.
  intros [Hn Hd Hs Hg Hf Ht Hrf] Hpre.
  pose proof (gate_no_answer _ Hpre) as [Hpre1 _].
  pose proof (gate_no_fetch _ Hpre) as Hpre2.
  apply wp_template.
  - intros _. eexists. split; [cbn; rewrite Ht, <- app_assoc; reflexivity|].
    intros Hrun. exfalso. apply (fresh_run_absurd _ Hrun). list_facts.
  - intros _ _. eexists. split; [cbn; rewrite Ht, <- !app_assoc; reflexivity|].
    intros Hrun. exfalso. apply (fresh_run_absurd _ Hrun). list_facts.
  - intros _ n w1 Hres _. eexists. split.
    + cbn. rewrite (res_trace _ _ _ _ Hres). cbn. rewrite Ht, <- !app_assoc. reflexivity.
    + intros Hrun. exfalso. apply (fresh_run_absurd _ Hrun). list_facts.
  - intros _ n w1 ttl Hres _ Hfresh.
    destruct (resolved_fresh _ _ _ _ _ _ Hres Hfresh) as (Hc & Hfound & Hg1).
    pose proof (res_trace _ _ _ _ Hres) as Htr. rewrite Hc in Htr.
    unfold processed.
    destruct (0 <? length _)%nat.
    + eexists. split.
      * cbn. rewrite Htr. cbn. rewrite Ht, <- !app_assoc. reflexivity.
      * intros _. split; [list_facts|].
        eexists. split.
        { cbn. rewrite (res_findings _ _ _ _ Hres). cbn. rewrite Hf. reflexivity. }
        unfold found. apply List.Forall_map, Forall_forall. intros x Hx. cbn.
        rewrite <- Hg. eapply reusable_persisted; [apply (res_asset _ _ _ _ Hres) | | exact Hx].
        left. split; [exact Hfound | exact Hg1].
    + eexists. split.
      * cbn. rewrite Htr. cbn. rewrite Ht, <- !app_assoc. reflexivity.
      * intros _. split; [list_facts|].
        exists []. split; [|constructor].
        cbn. rewrite (res_findings _ _ _ _ Hres). cbn. rewrite Hf, app_nil_r. reflexivity.
  - intros _ n w1 ttl names w3 Hres _ _ Hq.
    pose proof (Hquery n (logged (ActMonitored (ID (EvAsset e)) (ID n) (now w1 - ttl) false)
                            (logged (ActTTL "FQDN" "FQDN" (name p)) w1))) as Hext.
    rewrite Hq in Hext. cbn [snd] in Hext.
    destruct Hext as [_ _ _ _ _ _ (tq & Htq & HPq)].
    pose proof (query_no_answer _ HPq) as [Hq1 _].
    unfold processed. destruct (0 <? length _)%nat.
    + eexists. split.
      * cbn. rewrite Htq. cbn. rewrite (res_trace _ _ _ _ Hres). cbn.
        rewrite Ht, <- !app_assoc. reflexivity.
      * intros Hrun. exfalso. apply (fresh_run_absurd _ Hrun). list_facts.
    + eexists. split.
      * cbn. rewrite Htq. cbn. rewrite (res_trace _ _ _ _ Hres). cbn.
        rewrite Ht, <- !app_assoc. reflexivity.
      * intros Hrun. exfalso. apply (fresh_run_absurd _ Hrun). list_facts.
Qed.
End TemplateFresh.

Lemma emitted_processed e n names w :
  trace (processed e n names w) = trace w ++ emitted (length names).
Proof.
  unfold processed, emitted, found. destruct names as [|x names]; cbn.
  - symmetry. apply app_nil_r.
  - rewrite length_map. reflexivity.
Qed.

Section TemplateMark.
Context (env : Env) (p : plugin) (e : Event) (fqdn : string).
Context (query : Entity -> M (list Entity)).
Hypothesis Hquery : forall src, transits is_query_action (query src).

Lemma template_marks_fresh w0 pre w ttl :
  after w0 pre w ->
  passes env fqdn -> store_ok w = true ->
  TTLPolicy env "FQDN" "FQDN" (name p) = Some ttl ->
  (forall n, DB.FindByContent (graph w) (source_asset (source p)) = Some n ->
             fresh_in (graph w) (EvAsset e) n (now w - ttl) = false) ->
  wp (template env p e fqdn query) (marks_fresh p e fqdn w0 pre ttl) w.
Proof.
  intros [Hn Hd Hs Hg Hf Ht Hrf] Hpass Hok Httl Hstale.
  apply wp_template.
  - intros Hout. destruct (passes_not_out _ _ Hpass Hout).
  - intros _ Hno. congruence.
  - intros _ n1 w1 _ Hno. congruence.
  - intros _ n1 w1 ttl1 Hres Httl1 Hfresh.
    destruct (resolved_fresh _ _ _ _ _ _ Hres Hfresh) as (_ & Hfound & Hg1).
    assert (ttl1 = ttl) as -> by congruence.
    rewrite Hg1, (res_now _ _ _ _ Hres) in Hfresh. cbn in Hfound, Hfresh.
    rewrite (Hstale _ Hfound) in Hfresh. discriminate.
  - intros _ n w1 ttl1 names w3 Hres Httl1 _ Hq.
    assert (ttl1 = ttl) as -> by congruence.
    pose proof (Hquery n (logged (ActMonitored (ID (EvAsset e)) (ID n) (now w1 - ttl) false)
                            (logged (ActTTL "FQDN" "FQDN" (name p)) w1))) as Hext.
    rewrite Hq in Hext. cbn [snd] in Hext.
    destruct Hext as [Hn3 Hd3 Hs3 Hf3 Hg3 Hk3 (tq & Htq & HPq)]. cbn in Hn3, Hs3, Hg3.
    assert (now w3 = now w0) as Hnow
        by (rewrite Hn3, (res_now _ _ _ _ Hres); cbn; exact Hn).
    assert (DB.FindByContent (graph w3) (source_asset (source p)) = Some n) as Hfound
        by (apply Hg3; [apply source_asset_not_fqdn | apply (res_found _ _ _ _ Hres)]).
    split; [reflexivity|].
    assert (now (processed e n names (marked e n w3)) = now w3
            /\ store_ok (processed e n names (marked e n w3)) = store_ok w3
            /\ graph (processed e n names (marked e n w3))
               = DB.Link (graph w3) (now w3) (EvAsset e) "monitored_by" n) as (E1 & E2 & E3)
        by (unfold processed; destruct (0 <? length _)%nat; repeat split).
    split; [rewrite E1; exact Hnow|].
    split; [rewrite E2, Hs3, (res_store _ _ _ _ Hres); cbn; exact Hs|].
    exists n, tq, (length names).
    split; [|split; [exact HPq|split]].
    + rewrite emitted_processed. unfold marked, logged. cbn [trace set_graph set_trace].
      rewrite Htq. cbn [trace logged set_trace].
      rewrite (res_trace _ _ _ _ Hres), (res_now _ _ _ _ Hres). cbn [trace logged set_trace now graph].
      rewrite Ht, Hn, Hg, <- !app_assoc. cbn [app]. rewrite <- ?app_assoc. reflexivity.
    + rewrite E3, FindByContent_Link. exact Hfound.
    + rewrite E3. apply fresh_in_Link. lia.
Qed.


End TemplateMark.





Section TemplateNoTTL.
Context (env : Env) (p : plugin) (e : Event) (fqdn : string).
Context (query : Entity -> M (list Entity)).

Lemma creation_only psrc g pre t :
  Forall (fun a => is_gate a = true) pre ->
  Forall (fun a => is_mutation a = false) t ->
  only_source_creation psrc g (pre ++ t ++ source_creation psrc g).
Proof.
  intros Hpre Ht a Hin Hm.
  apply elem_of_app in Hin as [Hin | Hin].
  { rewrite Forall_forall in Hpre. specialize (Hpre a Hin). destruct a; discriminate. }
  apply elem_of_app in Hin as [Hin | Hin]; [|exact Hin].
  rewrite Forall_forall in Ht. rewrite (Ht a Hin) in Hm. discriminate.
Qed.

Lemma template_aborts_at_ttl w0 pre w :
  after w0 pre w -> Forall (fun a => is_gate a = true) pre ->
  TTLPolicy env "FQDN" "FQDN" (name p) = None ->
  wp (template env p e fqdn query) (aborts_at_ttl (source p) w0) w.
Proof.
  intros [Hn Hd Hs Hg Hf Ht Hrf] Hpre Hnone.
  assert (Forall no_branch pre) as Hpre2.
  { eapply Forall_impl; [exact Hpre|]. intros []; try discriminate; repeat split. }
  assert (forall ts wf,
             trace wf = trace w0 ++ pre ++ ts -> Forall no_branch ts ->
             Forall (fun a => is_mutation a = false) ts ->
             findings wf = findings w0 -> graph wf = graph w0 ->
             aborts_at_ttl (source p) w0 None wf
             /\ aborts_at_ttl (source p) w0
                  (errors_New "failed to obtain the plugin source information") wf)
    as Hgate.
  { intros ts wf E Hts Hm Hfi Hgr.
    assert (only_source_creation (source p) (graph w0) (pre ++ ts)) as Hc.
    { intros a Hin Hma. exfalso.
      apply elem_of_app in Hin as [Hin | Hin].
      - rewrite Forall_forall in Hpre. specialize (Hpre a Hin). destruct a; discriminate.
      - rewrite Forall_forall in Hm. rewrite (Hm a Hin) in Hma. discriminate. }
    split; (split; [exact Hfi|]; split; [split; [rewrite Hgr; reflexivity | left; exact Hgr]|]);
      (exists (pre ++ ts); split; [exact E|]; split; [list_facts | exact Hc]). }
  apply wp_template.
  - intros _. refine (proj1 (Hgate [ActScope (FQDN fqdn)] _ _ _ _ _ _)); cbn.
    + rewrite Ht, <- app_assoc. reflexivity.
    + repeat constructor.
    + repeat constructor.
    + exact Hf.
    + exact Hg.
  - intros _ _.
    refine (proj2 (Hgate [ActScope (FQDN fqdn); ActGetSource (SourceName (source p))]
                     _ _ _ _ _ _)); cbn.
    + rewrite Ht, <- !app_assoc. reflexivity.
    + repeat constructor.
    + repeat constructor.
    + exact Hf.
    + exact Hg.
  - intros _ n w1 Hres _.
    split; [cbn; rewrite (res_findings _ _ _ _ Hres); exact Hf|].
    split.
    { split; [cbn; rewrite (res_rels _ _ _ _ Hres); cbn; rewrite Hg; reflexivity|].
      destruct (res_nodes _ _ _ _ Hres) as [[_ E] | (Hno & E & _)]; cbn in *.
      - left. rewrite E. exact Hg.
      - right. rewrite <- Hg. split; [exact Hno|]. exists n.
        split; [apply (res_asset _ _ _ _ Hres) | exact E]. }
    exists (pre ++ [ActScope (FQDN fqdn); ActGetSource (SourceName (source p))]
                ++ source_creation (source p) (graph w0)
                ++ [ActTTL "FQDN" "FQDN" (name p)]).
    split; [|split].
    + cbn. rewrite (res_trace _ _ _ _ Hres). cbn. rewrite Ht, Hg, <- !app_assoc.
      cbn [app]. rewrite <- ?app_assoc. reflexivity.
    + list_facts.
    + intros a Hin Hm.
      rewrite !elem_of_app in Hin. destruct Hin as [Hin | [Hin | [Hin | Hin]]].
      * rewrite Forall_forall in Hpre. specialize (Hpre a Hin). destruct a; discriminate.
      * apply elem_of_cons in Hin as [-> | Hin]; [discriminate|].
        apply list_elem_of_singleton in Hin as ->. discriminate.
      * exact Hin.
      * apply list_elem_of_singleton in Hin as ->. discriminate.
  - intros _ n w1 ttl _ Httl. congruence.
  - intros _ n w1 ttl names w3 _ Httl. congruence.
Qed.

(** A run that gets to the TTL decision ends there, with the error. *)
Lemma template_ttl_error w0 pre w :
  after w0 pre w ->
  passes env fqdn -> store_ok w = true ->
  TTLPolicy env "FQDN" "FQDN" (name p) = None ->
  wp (template env p e fqdn query)
     (fun r w' =>
        r = errors_New "failed to obtain the TTL"
        /\ trace w' = trace w0 ++ pre
                      ++ [ActScope (FQDN fqdn); ActGetSource (SourceName (source p))]
                      ++ source_creation (source p) (graph w0)
                      ++ [ActTTL "FQDN" "FQDN" (name p)]) w.
Proof.
  intros [Hn Hd Hs Hg Hf Ht Hrf] Hpass Hok Hnone.
  apply wp_template.
  - intros Hout. destruct (passes_not_out _ _ Hpass Hout).
  - intros _ Hno. congruence.
  - intros _ n w1 Hres _. split; [reflexivity|].
    cbn. rewrite (res_trace _ _ _ _ Hres). cbn. rewrite Ht, Hg, <- !app_assoc.
    cbn [app]. rewrite <- ?app_assoc. reflexivity.
  - intros _ n w1 ttl _ Httl. congruence.
  - intros _ n w1 ttl names w3 _ Httl. congruence.
Qed.
End TemplateNoTTL.

(** ** The claims about [check] *)

(** C1. For every inbound event whose subject is an FQDN that is not in
    scope (the scope filter returns confidence 0 or a nil canonical asset) or
    whose canonical asset does not match the subject by case-insensitive
    identity, [check] of each of the five plugins returns a nil error and
    leaves the world as it was but for the trace, which gains only the
    credential lookup and the scope question: no retrieval, no rate-limiter
    acquisition, no mutation submitted, no finding emitted. *)
Theorem C1_out_of_scope_subject_is_a_silent_noop
        (p : pipeline) (env : Env) (e : Event) (w : World) (fqdn_Name : string) :
  Asset (EvAsset e) = FQDN fqdn_Name ->
  out_of_scope env fqdn_Name ->
  exists t, check p env e w = (None, set_trace (trace w ++ t) w)
            /\ Forall (fun a => is_gate a = true) t
            /\ Forall no_fetch t.
Proof.
  intros HA Hout.
  assert (wp (check p env e)
             (fun r w' => r = None /\ exists t, w' = set_trace (trace w ++ t) w
                                               /\ Forall (fun a => is_gate a = true) t) w)
    as (Hr & t & Hw & Ht).
  { apply wp_check.
    - intros H. destruct (H _ HA).
    - intros _. split; [reflexivity|]. eexists [_]. split; [reflexivity | repeat constructor].
    - intros fqdn keys w1 HA' _ [Hn Hd Hs Hg Hf Ht Hrf].
      assert (fqdn = fqdn_Name) as -> by congruence.
      apply wp_template.
      + intros _. split; [reflexivity|]. exists (gate_actions p ++ [ActScope (FQDN fqdn_Name)]).
        split.
        * unfold logged, set_trace. cbn.
          rewrite Hn, Hd, Hs, Hg, Hf, Ht, Hrf, <- app_assoc. reflexivity.
        * apply Forall_app_2; [apply gate_actions_gate | repeat constructor].
      + intros Hp. destruct (passes_not_out _ _ Hp Hout).
      + intros Hp. destruct (passes_not_out _ _ Hp Hout).
      + intros Hp. destruct (passes_not_out _ _ Hp Hout).
      + intros Hp. destruct (passes_not_out _ _ Hp Hout). }
  exists t. split; [|split; [exact Ht | apply gate_no_fetch, Ht]].
  destruct (check p env e w) as [r w']. cbn in *. subst. reflexivity.
Qed.

(** C3. For every invocation of [check] in which
    [AssetMonitoredWithinTTL] returns true, the run makes no external
    retrieval, takes the rate limiter not once and submits no mutation, and
    every finding it emits points at a node the graph already held when the
    run began. *)
Theorem C3_fresh_subject_is_served_from_the_graph
        (p : pipeline) (env : Env) (e : Event) (w : World) :
  fresh_run (performed (check p env e) w) ->
  Forall no_fetch (performed (check p env e) w)
  /\ exists fs, findings (check p env e w).2 = findings w ++ fs
                /\ Forall (fun f => To f ∈ nodes (graph w)) fs.
Proof.
  assert (wp (check p env e) (served_from_graph w) w) as (t & Ht & H).
  { apply wp_check.
    - intros _. exists []. split; [symmetry; apply app_nil_r|].
      intros Hrun. exfalso. apply (fresh_run_absurd _ Hrun). constructor.
    - intros _. eexists [_]. split; [reflexivity|].
      intros Hrun. exfalso. apply (fresh_run_absurd _ Hrun). repeat constructor.
    - intros fqdn keys w1 _ _ Hafter.
      eapply template_served_from_graph;
        [apply transits_query_of | exact Hafter | apply gate_actions_gate]. }
  rewrite (performed_app _ _ _ Ht). exact H.
Qed.

(** C8, as amended. For every invocation of [check] of the five FQDN
    plugins, when no TTL policy exists for (FQDN, FQDN, plugin name): the run
    makes no branch decision, no retrieval and no rate-limiter acquisition and
    emits no finding; the only mutation it can make is the creation of the
    node of its source, by [GetSource] before the TTL decision, when the graph
    does not hold that node, and the graph it leaves differs from the one it
    found by that node at most; and an invocation that gets to the TTL
    decision (the subject is an FQDN in scope, the credential gate is open and
    the source is resolved) ends there with the error of [TTLStartTime]. *)
Theorem C8_missing_ttl_policy_aborts_fqdn_pipelines
        (p : pipeline) (env : Env) (e : Event) (w : World) :
  TTLPolicy env "FQDN" "FQDN" (name (plugin_of p)) = None ->
  Forall no_branch (performed (check p env e) w)
  /\ only_source_creation (source (plugin_of p)) (graph w) (performed (check p env e) w)
  /\ at_most_source_created (source (plugin_of p)) (graph w) (graph (check p env e w).2)
  /\ findings (check p env e w).2 = findings w
  /\ forall fqdn keys,
      Asset (EvAsset e) = FQDN fqdn -> gate_open p env keys -> passes env fqdn ->
      store_ok w = true ->
      (check p env e w).1 = errors_New "failed to obtain the TTL"
      /\ performed (check p env e) w
         = gate_actions p
           ++ [ActScope (FQDN fqdn); ActGetSource (SourceName (source (plugin_of p)))]
           ++ source_creation (source (plugin_of p)) (graph w)
           ++ [ActTTL "FQDN" "FQDN" (name (plugin_of p))].
Proof.
  intros Hnone.
  assert (wp (check p env e) (aborts_at_ttl (source (plugin_of p)) w) w)
    as (Hf & Hg & t & Ht & HP & Hm).
  { assert (forall ts r, Forall no_branch ts -> Forall (fun a => is_mutation a = false) ts ->
                         aborts_at_ttl (source (plugin_of p)) w r (set_trace (trace w ++ ts) w))
      as Hgate.
    { intros ts r H1 H2. split; [reflexivity|]. split; [split; [reflexivity | left; reflexivity]|].
      exists ts. split; [reflexivity|]. split; [exact H1|].
      intros a Hin Hma. rewrite Forall_forall in H2. rewrite (H2 a Hin) in Hma. discriminate. }
    apply wp_check.
    - intros _. replace w with (set_trace (trace w ++ []) w) at 2
        by (rewrite app_nil_r; destruct w; reflexivity).
      apply Hgate; constructor.
    - intros _. apply (Hgate [_]); repeat constructor.
    - intros fqdn keys w1 _ _ Hafter.
      eapply template_aborts_at_ttl; [exact Hafter | apply gate_actions_gate | exact Hnone]. }
  rewrite (performed_app _ _ _ Ht).
  split; [exact HP|]. split; [exact Hm|]. split; [exact Hg|]. split; [exact Hf|].
  intros fqdn keys HA Hgate Hpass Hok.
  assert (wp (check p env e)
             (fun r w' =>
                r = errors_New "failed to obtain the TTL"
                /\ trace w' = trace w ++ gate_actions p
                              ++ [ActScope (FQDN fqdn);
                                  ActGetSource (SourceName (source (plugin_of p)))]
                              ++ source_creation (source (plugin_of p)) (graph w)
                              ++ [ActTTL "FQDN" "FQDN" (name (plugin_of p))]) w) as [Hr Ht'].
  { eapply (check_open _ _ _ _ _ _ _ HA Hgate). intros w1 Hafter.
    eapply template_ttl_error; [exact Hafter | exact Hpass | | exact Hnone].
    rewrite (aft_store _ _ _ Hafter). exact Hok. }
  split; [exact Hr|].
  rewrite Ht in Ht'. apply app_inv_head in Ht'. exact Ht'.
Qed.


(** ** The page loop of SiteDossier *)

Lemma siteDossier_names_scopes env ns subs w :
  exists ts, trace (scrape.siteDossier_names env ns subs w).2 = trace w ++ ts
             /\ Forall (fun a => is_scope a = true) ts.
Proof.
  revert subs w. induction ns as [|n rest IH]; intros subs w; cbn.
  - exists []. split; [symmetry; apply app_nil_r | constructor].
  - unfold bind, IsAssetInScope, log, ret. cbn.
    destruct (InScope env _ 0) as [a conf].
    destruct (0 <? conf);
      match goal with |- context [scrape.siteDossier_names env rest ?s ?w'] =>
        destruct (IH s w') as (ts & Hts & HF) end;
      (eexists (_ :: ts); split; [rewrite Hts; cbn; rewrite <- app_assoc; reflexivity|]);
      constructor; [reflexivity | exact HF | reflexivity | exact HF].
Qed.

Lemma siteDossier_pages_paged env sd dname i subs w :
  exists t, trace (scrape.siteDossier_pages env sd dname i subs w).2 = trace w ++ t
            /\ paged sd dname i t.
Proof.
  revert w.
  funelim (scrape.siteDossier_pages env sd dname i subs); intros w.
  2: { exists []. split; [symmetry; apply app_nil_r | apply paged_done; lia]. }
  unfold bind, Take, log, RequestWebPage. cbn.
  set (resp := WebPage env _ _).
  destruct resp as [Body|] eqn:Hresp.
  - destruct (String.eqb Body EmptyString) eqn:HB.
    + cbn. eexists [_; _]. split; [rewrite <- app_assoc; reflexivity|].
      apply paged_stop; [exact l | cbn; rewrite HB; reflexivity].
    + match goal with |- context [scrape.siteDossier_names env ?ns ?s ?w'] =>
        destruct (siteDossier_names_scopes env ns s w') as (ts & Hts & HF);
        destruct (scrape.siteDossier_names env ns s w') as [subs' w1] eqn:Hn end.
      cbn in Hts.
      destruct (H tt None EmptyString subs' w w1) as (t & Ht & Hp).
      exists ([ActTake (name sd); ActRequest (page_request sd dname i) (Some Body)] ++ ts ++ t).
      split.
      * rewrite Ht, Hts, <- !app_assoc. reflexivity.
      * apply paged_next; [exact l | cbn; rewrite HB; reflexivity | exact HF | exact Hp].
  - cbn. eexists [_; _]. split; [rewrite <- app_assoc; reflexivity|].
    apply paged_stop; [exact l | reflexivity].
Qed.

(** What the traces of the loop have in common. *)
Lemma paged_spec sd dname i t :
  paged sd dname i t ->
  Z.of_nat (length (fetched t)) <= Z.max 0 (20 - i)
  /\ map fst (fetched t) = map (page_request sd dname) (seqZ i (Z.of_nat (length (fetched t))))
  /\ length (takes t) = length (fetched t)
  /\ (forall j x, fetched t !! j = Some x -> good x.2 = false -> S j = length (fetched t))
  /\ (Forall (fun x => good x.2 = true) (fetched t) ->
      Z.of_nat (length (fetched t)) = Z.max 0 (20 - i)).
Proof.
  induction 1 as [i Hi | i resp Hi Hbad | i resp ts t Hi Hgood Hts Hp (IH1 & IH2 & IH3 & IH4 & IH5)].
  - cbn. repeat split; intros; try discriminate; try lia.
  - cbn. repeat split; try lia.
    + intros [|j] x; cbn; [intros _ _; reflexivity | discriminate].
    + intros HF. apply Forall_cons in HF as [HF _]. cbn in HF. congruence.
  - destruct (no_retrieval_fetched _ (scope_no_retrieval _ Hts)) as [Hf Ht].
    rewrite fetched_app, takes_app, fetched_app, takes_app, Hf, Ht. cbn.
    repeat split.
    + lia.
    + rewrite seqZ_cons by lia. cbn. f_equal.
      replace (Z.pred (Z.of_nat (S (length (fetched t)))))
        with (Z.of_nat (length (fetched t))) by lia.
      replace (Z.succ i) with (i + 1) by lia.
      exact IH2.
    + f_equal. exact IH3.
    + intros [|j] x; cbn.
      * intros [= <-] Hbad. cbn in Hbad. congruence.
      * intros Hj Hbad. f_equal. eapply IH4; eassumption.
    + intros HF. apply Forall_cons in HF as [_ HF]. specialize (IH5 HF). lia.
Qed.

(** C7. The query step of SiteDossier always returns, having requested pages
    1, 2, ... in order, each once, and at most 19 of them, with one
    rate-limiter acquisition per request; a retrieval that fails or has an
    empty body is the last one of the run, and when every retrieval succeeds
    the run stops after page 19. *)
Theorem C7_siteDossier_pagination_is_bounded
        (env : Env) (sd : plugin) (e : Event) (dname : string) (src : Entity) (w : World) :
  (length (fetched (performed (scrape.siteDossier_query env sd e dname src) w)) <= 19)%nat
  /\ requests (performed (scrape.siteDossier_query env sd e dname src) w)
     = map (page_request sd dname)
           (seqZ 1 (Z.of_nat (length (fetched
              (performed (scrape.siteDossier_query env sd e dname src) w)))))
  /\ length (takes (performed (scrape.siteDossier_query env sd e dname src) w))
     = length (fetched (performed (scrape.siteDossier_query env sd e dname src) w))
  /\ (forall j x,
         fetched (performed (scrape.siteDossier_query env sd e dname src) w) !! j = Some x ->
         good x.2 = false ->
         S j = length (fetched (performed (scrape.siteDossier_query env sd e dname src) w)))
  /\ (Forall (fun x => good x.2 = true)
             (fetched (performed (scrape.siteDossier_query env sd e dname src) w)) ->
      length (fetched (performed (scrape.siteDossier_query env sd e dname src) w)) = 19%nat).
Proof.
  assert (exists t ts, performed (scrape.siteDossier_query env sd e dname src) w = t ++ ts
                       /\ paged sd dname 1 t /\ Forall no_retrieval ts) as (t & ts & -> & Hp & Hts).
  { unfold scrape.siteDossier_query, scrape.siteDossier_store.
    destruct (siteDossier_pages_paged env sd dname 1 stringset.New w) as (t & Ht & Hp).
    unfold bind at 1.
    destruct (scrape.siteDossier_pages env sd dname 1 stringset.New w) as [subs w1] eqn:Hrun.
    cbn in Ht.
    destruct (transits_StoreFQDNsWithSource (stringset.Slice subs) src (name sd)
                (name sd +:+ "-Handler") w1) as [_ _ _ _ _ _ (ts & Hts & HF)].
    exists t, ts. split; [|split; [exact Hp | apply store_no_retrieval, HF]].
    apply performed_app. unfold bind. rewrite Hrun. rewrite Hts, Ht, app_assoc. reflexivity. }
  destruct (no_retrieval_fetched _ Hts) as [Hf Ht].
  rewrite requests_fetched, fetched_app, takes_app, Hf, Ht, !app_nil_r.
  destruct (paged_spec _ _ _ _ Hp) as (H1 & H2 & H3 & H4 & H5).
  repeat split; try assumption; try lia.
  intros HF. specialize (H5 HF). lia.
Qed.

(** ** What the queries hand to the store step *)

Lemma transits_performed P {A} (m : M A) w :
  transits P m -> trace (m w).2 = trace w ++ performed m w.
Proof.
  intros Hm. destruct (Hm w) as [_ _ _ _ _ _ (t & Ht & _)].
  rewrite (performed_app _ _ _ Ht). exact Ht.
Qed.

Lemma performed_bind {A B} (m : M A) (k : A -> M B) w t1 t2 :
  trace (m w).2 = trace w ++ t1 ->
  trace (k (m w).1 (m w).2).2 = trace (m w).2 ++ t2 ->
  performed (bind m k) w = t1 ++ t2.
Proof.
  intros H1 H2. apply performed_app. unfold bind.
  destruct (m w) as [a w1]. cbn in *. rewrite H2, H1, app_assoc. reflexivity.
Qed.

Lemma duckDuckGo_names_scopes env ns subs w :
  exists ts, trace (scrape.duckDuckGo_names env ns subs w).2 = trace w ++ ts
             /\ Forall (fun a => is_scope a = true) ts.
Proof.
  revert subs w. induction ns as [|n rest IH]; intros subs w; cbn.
  - exists []. split; [symmetry; apply app_nil_r | constructor].
  - unfold bind, IsAssetInScope, log, ret. cbn.
    destruct (InScope env _ 0) as [a conf].
    destruct (0 <? conf);
      match goal with |- context [scrape.duckDuckGo_names env rest ?s ?w'] =>
        destruct (IH s w') as (ts & Hts & HF) end;
      (eexists (_ :: ts); split; [rewrite Hts; cbn; rewrite <- app_assoc; reflexivity|]);
      constructor; [reflexivity | exact HF | reflexivity | exact HF].
Qed.

Lemma paged_not_stored sd dname i t : paged sd dname i t -> stored t = [].
Proof.
  induction 1 as [| | i resp ts t _ _ Hts _ IH]; try reflexivity.
  rewrite !stored_app, (scope_not_stored _ Hts), IH. reflexivity.
Qed.

Lemma set_trace_twice t t' w : set_trace t (set_trace t' w) = set_trace t w.
Proof. reflexivity. Qed.

(** The loops over candidate names: what they return and what they ask. *)
Lemma chaos_subdomains_run env dname subs names w :
  api.chaos_subdomains env dname subs names w
  = (names ++ map normalize (List.filter (in_scope env) (map (full_name dname) subs)),
     set_trace (trace w ++ scope_calls (map (full_name dname) subs)) w).
Proof.
  revert names w. induction subs as [|sub rest IH]; intros names w; cbn.
  - rewrite !app_nil_r. destruct w; reflexivity.
  - unfold bind, IsAssetInScope, log, ret. cbn. fold (full_name dname sub).
    unfold in_scope at 1. destruct (InScope env (FQDN (full_name dname sub)) 0) as [a conf]. cbn.
    destruct (0 <? conf); rewrite IH; cbn; rewrite <- ?app_assoc; reflexivity.
Qed.

Lemma securityTrails_subdomains_run env dname subs names w :
  api.securityTrails_subdomains env dname subs names w
  = (names ++ List.filter (in_scope env) (map (fun sub => normalize (full_name dname sub)) subs),
     set_trace (trace w ++ scope_calls (map (fun sub => normalize (full_name dname sub)) subs)) w).
Proof.
  revert names w. induction subs as [|sub rest IH]; intros names w; cbn.
  - rewrite !app_nil_r. destruct w; reflexivity.
  - unfold bind, IsAssetInScope, log, ret. cbn.
    fold (full_name dname sub). fold (normalize (full_name dname sub)).
    unfold in_scope at 1.
    destruct (InScope env (FQDN (normalize (full_name dname sub))) 0) as [a conf]. cbn.
    destruct (0 <? conf); rewrite IH; cbn; rewrite <- ?app_assoc; reflexivity.
Qed.

Lemma crtsh_cert_names_run env ns names w :
  api.crtsh_cert_names env ns names w
  = (names ++ List.filter (in_scope env)
                (map (fun n => normalize (dns.RemoveAsteriskLabel n)) ns),
     set_trace (trace w ++ scope_calls (map (fun n => normalize (dns.RemoveAsteriskLabel n)) ns)) w).
Proof.
  revert names w. induction ns as [|n rest IH]; intros names w; cbn.
  - rewrite !app_nil_r. destruct w; reflexivity.
  - unfold bind, IsAssetInScope, log, ret. cbn.
    fold (normalize (dns.RemoveAsteriskLabel n)). unfold in_scope at 1.
    destruct (InScope env (FQDN (normalize (dns.RemoveAsteriskLabel n))) 0) as [a conf]. cbn.
    destruct (0 <? conf); rewrite IH; cbn; rewrite <- ?app_assoc; reflexivity.
Qed.

Lemma duckDuckGo_names_run env ns (subs : stringset.Set_) w :
  exists subs' : stringset.Set_,
    scrape.duckDuckGo_names env ns subs w
    = (subs', set_trace (trace w ++ scope_calls (map normalize ns)) w)
    /\ subs' = list_to_set (map GoStrings.ToLower (List.filter (in_scope env) (map normalize ns)))
               ∪ subs.
Proof.
  revert subs w. induction ns as [|n rest IH]; intros subs w; cbn.
  - exists subs. split; [rewrite app_nil_r; destruct w; reflexivity|].
    cbn. symmetry. apply (left_id_L ∅ (∪)).
  - unfold bind, IsAssetInScope, log, ret. cbn. fold (normalize n).
    unfold in_scope at 1. destruct (InScope env (FQDN (normalize n)) 0) as [a conf]. cbn.
    destruct (0 <? conf).
    + destruct (IH (stringset.Insert subs (normalize n))
                  (set_trace (trace w ++ [ActScope (FQDN (normalize n))]) w)) as (s' & -> & ->).
      eexists. split; [cbn; rewrite <- app_assoc; reflexivity|].
      unfold stringset.Insert. cbn [map List.filter list_to_set foldr].
      apply set_eq. intros x. rewrite !elem_of_union. tauto.
    + destruct (IH subs (set_trace (trace w ++ [ActScope (FQDN (normalize n))]) w))
        as (s' & -> & ->).
      eexists. split; [cbn; rewrite <- app_assoc; reflexivity | reflexivity].
Qed.

Lemma stored_scope_calls ns : stored (scope_calls ns) = [].
Proof. induction ns; [reflexivity | exact IHns]. Qed.

(** SiteDossier stores the elements of its string set. *)
Lemma siteDossier_query_stored env sd e dname src w :
  stored (performed (scrape.siteDossier_query env sd e dname src) w)
  = [stringset.Slice (scrape.siteDossier_pages env sd dname 1 stringset.New w).1].
Proof.
  destruct (siteDossier_pages_paged env sd dname 1 stringset.New w) as (t & Ht & Hp).
  unfold scrape.siteDossier_query, scrape.siteDossier_store.
  erewrite performed_bind; [|exact Ht|].
  2: { apply (transits_performed _ _ _ (transits_StoreFQDNsWithSource _ _ _ _)). }
  rewrite stored_app, (paged_not_stored _ _ _ _ Hp), StoreFQDNsWithSource_stored. reflexivity.
Qed.

Lemma three_names_in_scope env :
  0 < (InScope env (FQDN "a.example.com") 0).2 ->
  List.filter (in_scope env) ["a.example.com"; "a.example.com"; "a.example.com"]
  = ["a.example.com"; "a.example.com"; "a.example.com"].
Proof.
  intros H. apply Z.ltb_lt in H. cbn [List.filter]. unfold in_scope. rewrite H. reflexivity.
Qed.

(** ** The claims about single plugins *)

(** Every plugin but crt.sh names its source as it names itself. *)
Lemma source_named_as_plugin (p : pipeline) :
  SourceName (source (plugin_of p)) = name (plugin_of p) <-> p <> Crtsh.
Proof. destruct p; cbn; split; intros H; try reflexivity; try discriminate; congruence. Qed.

(** C2. crt.sh resolves its TTL under the name "crt.sh" and keeps its
    freshness record on the source node "HackerTarget": with a subject that
    HackerTarget monitored a minute ago and crt.sh never queried, [check] of
    crt.sh finds the subject fresh and makes no retrieval. *)
Theorem C2_crtsh_freshness_is_keyed_by_another_source :
  name (plugin_of Crtsh) = "crt.sh"
  /\ SourceName (source (plugin_of Crtsh)) = "HackerTarget"
  /\ (check Crtsh (Scenario.env (Some 1440)) Scenario.event Scenario.marked_by_hackertarget).1 = None
  /\ performed (check Crtsh (Scenario.env (Some 1440)) Scenario.event)
               Scenario.marked_by_hackertarget
     = [ActScope (FQDN "example.com"); ActGetSource "HackerTarget";
        ActTTL "FQDN" "FQDN" "crt.sh"; ActMonitored 1 2 8560 true;
        ActLookup "example.com" "FQDN" 2 8560].
Proof. repeat split; vm_compute; reflexivity. Qed.

(** C4, counterexample. The API plugins pass duplicates on: in the scenario,
    [check] of crt.sh hands the one candidate three times to the store step,
    and so do [check] of Chaos and of SecurityTrails when the API names the
    sub-domain three times. *)
Lemma C4_api_plugins_store_duplicates :
  stored (performed (check Crtsh (Scenario.env (Some 1440)) Scenario.event) Scenario.start)
  = [["a.example.com"; "a.example.com"; "a.example.com"]]
  /\ stored (performed (check Chaos Scenario.repeating Scenario.event) Scenario.start)
     = [["a.example.com"; "a.example.com"; "a.example.com"]]
  /\ stored (performed (check SecurityTrails Scenario.repeating Scenario.event) Scenario.start)
     = [["a.example.com"; "a.example.com"; "a.example.com"]]
  /\ ~ NoDup ["a.example.com"; "a.example.com"; "a.example.com"].
Proof.
  split; [vm_compute; reflexivity|]. split; [vm_compute; reflexivity|].
  split; [vm_compute; reflexivity|].
  intros H. apply NoDup_cons in H as [H _]. apply H. left.
Qed.

(** C5. Chaos asks the scope filter about the name as the API returned it and
    normalizes only what it stores: for the sub-domain label "WWW" of
    example.com the scope filter sees "WWW.example.com", which is not its
    normal form, and the store step receives "www.example.com". *)
Theorem C5_chaos_scopes_the_raw_name :
  scoped (performed (api.chaos_query (Scenario.env (Some 1440)) api.NewChaos Scenario.event
                       "example.com" Scenario.chaos_source ["k1"]) Scenario.start)
  = [FQDN "WWW.example.com"]
  /\ normalize "WWW.example.com" <> "WWW.example.com"
  /\ stored (performed (api.chaos_query (Scenario.env (Some 1440)) api.NewChaos Scenario.event
                          "example.com" Scenario.chaos_source ["k1"]) Scenario.start)
     = [["www.example.com"]]
  /\ scoped (performed (api.securityTrails_query (Scenario.env (Some 1440)) api.NewSecurityTrails
                          Scenario.event "example.com" Scenario.securityTrails_source ["k1"])
                       Scenario.start)
     = [FQDN "www.example.com"].
Proof. repeat split; vm_compute; try reflexivity; discriminate. Qed.

(** C6. Chaos goes on to the next credential after a retrieval that
    succeeded and parsed: with two keys it makes two retrievals, where
    SecurityTrails on the same input makes one. *)
Theorem C6_chaos_tries_every_credential :
  fetched (performed (api.chaos_query (Scenario.env (Some 1440)) api.NewChaos Scenario.event
                        "example.com" Scenario.chaos_source ["k1"; "k2"]) Scenario.start)
  = [({| ReqURL := "https://dns.projectdiscovery.io/dns/example.com/subdomains";
         Header := Some ("Authorization", "k1") |}, Some "body");
     ({| ReqURL := "https://dns.projectdiscovery.io/dns/example.com/subdomains";
         Header := Some ("Authorization", "k2") |}, Some "body")]
  /\ UnmarshalSubdomains (Scenario.env (Some 1440)) "body" = Some ["WWW"]
  /\ fetched (performed (api.securityTrails_query (Scenario.env (Some 1440))
                           api.NewSecurityTrails Scenario.event "example.com"
                           Scenario.securityTrails_source ["k1"; "k2"]) Scenario.start)
     = [({| ReqURL := "https://api.securitytrails.com/v1/domain/example.com/subdomains";
            Header := Some ("APIKEY", "k1") |}, Some "body")].
Proof. repeat split; vm_compute; reflexivity. Qed.

(** C8, counterexample. With no TTL policy at all, [check] of the RDAP autnum
    handler asks for the TTL of each evidence kind, goes on, submits its
    lookup to the mutation queue and returns a nil error.  And [check] of
    DuckDuckGo, which does abort with the error, has by then created the node
    of its source through the mutation queue. *)
Lemma C8_not_every_pipeline_aborts_before_mutation :
  TTLPolicy (Scenario.env None) "AutnumRecord" "FQDN" "RDAP" = None
  /\ rdap.autnum_check (Scenario.env None) Scenario.autnum_handler Scenario.autnum_event
       Scenario.autnum_start
     = (None,
        set_trace [ActGetSource "RDAP"; ActSubmit;
                   ActDB (CallCreate None EmptyString (SourceAsset "RDAP" 100));
                   ActTransformations "AutnumRecord" ["URL"; "FQDN"; "ContactRecord"; "RDAP"];
                   ActTTL "AutnumRecord" "URL" "RDAP"; ActTTL "AutnumRecord" "FQDN" "RDAP";
                   ActTTL "AutnumRecord" "ContactRecord" "RDAP";
                   ActSubmit; ActDB (CallOutgoingRelations 1 0 [])]
          (set_graph {| nodes := [Scenario.autnum_subject;
                                  {| ID := 2; Asset := SourceAsset "RDAP" 100; LastSeen := 10000 |}];
                        rels := [] |} Scenario.autnum_start))
  /\ TTLPolicy (Scenario.env None) "FQDN" "FQDN" "DuckDuckGo" = None
  /\ check DuckDuckGo (Scenario.env None) Scenario.event Scenario.start
     = (errors_New "failed to obtain the TTL",
        set_trace [ActScope (FQDN "example.com"); ActGetSource "DuckDuckGo"; ActSubmit;
                   ActDB (CallCreate None EmptyString (SourceAsset "DuckDuckGo" 60));
                   ActTTL "FQDN" "FQDN" "DuckDuckGo"]
          (set_graph {| nodes := [Scenario.subject;
                                  {| ID := 2; Asset := SourceAsset "DuckDuckGo" 60;
                                     LastSeen := 10000 |}];
                        rels := [] |} Scenario.start)).
Proof. repeat split; vm_compute; reflexivity. Qed.

(** C9. Once the session is terminated, the closures that [autnum.lookup] and
    [autnum.store] hand to [AppendToDBQueue] return at their first statement:
    they make no call on the graph store, leave the world as it is and yield
    no finding.  The queue itself runs whatever it is handed. *)
Theorem C9_terminated_session_makes_mutations_noops
        (env : Env) (resp : RdapAutnum) (asset src : Entity) (m : Matches)
        (rtypes : list string) (sinces : gmap string Time) (w : World) :
  Done w = true ->
  rdap.autnum_lookup_mutation asset src rtypes sinces w = ([], w)
  /\ rdap.autnum_store_mutation env resp asset src m w = ([], w)
  /\ support.AppendToDBQueue (rdap.autnum_lookup_mutation asset src rtypes sinces) w
     = ([], logged ActSubmit w)
  /\ support.AppendToDBQueue (rdap.autnum_store_mutation env resp asset src m) w
     = ([], logged ActSubmit w).
Proof.
  intros Hdone.
  unfold rdap.autnum_lookup_mutation, rdap.autnum_store_mutation, support.AppendToDBQueue,
    bind, get, log, ret.
  cbn. rewrite Hdone. repeat split.
Qed.

(** ** The claims at work in the scenario *)

Ltac in_list := repeat first [apply list_elem_of_here | apply list_elem_of_further].

Lemma C1_witness :
  Asset (EvAsset Scenario.stranger) = FQDN "example.org"
  /\ out_of_scope (Scenario.env (Some 1440)) "example.org"
  /\ exists t, check Chaos (Scenario.env (Some 1440)) Scenario.stranger Scenario.start
               = (None, set_trace (trace Scenario.start ++ t) Scenario.start)
               /\ Forall (fun a => is_gate a = true) t
               /\ Forall no_fetch t.
Proof.
  split; [reflexivity|]. split; [left; reflexivity|].
  apply (C1_out_of_scope_subject_is_a_silent_noop Chaos (Scenario.env (Some 1440))
           Scenario.stranger Scenario.start "example.org"); [reflexivity | left; reflexivity].
Defined.

Lemma C3_witness :
  fresh_run (performed (check DuckDuckGo (Scenario.env (Some 1440)) Scenario.event)
                       Scenario.visited)
  /\ Forall no_fetch (performed (check DuckDuckGo (Scenario.env (Some 1440)) Scenario.event)
                                Scenario.visited)
  /\ exists fs,
      findings (check DuckDuckGo (Scenario.env (Some 1440)) Scenario.event Scenario.visited).2
      = findings Scenario.visited ++ fs
      /\ Forall (fun f => To f ∈ nodes (graph Scenario.visited)) fs.
Proof.
  assert (fresh_run (performed (check DuckDuckGo (Scenario.env (Some 1440)) Scenario.event)
                               Scenario.visited)) as H.
  { exists 1%nat, 2%nat, 8560. vm_compute. in_list. }
  split; [exact H|].
  apply (C3_fresh_subject_is_served_from_the_graph DuckDuckGo (Scenario.env (Some 1440))
           Scenario.event Scenario.visited H).
Defined.

Lemma C8_witness :
  TTLPolicy (Scenario.env None) "FQDN" "FQDN" (name (plugin_of Chaos)) = None
  /\ Forall no_branch (performed (check Chaos (Scenario.env None) Scenario.event) Scenario.start)
  /\ at_most_source_created (source (plugin_of Chaos)) (graph Scenario.start)
       (graph (check Chaos (Scenario.env None) Scenario.event Scenario.start).2)
  /\ findings (check Chaos (Scenario.env None) Scenario.event Scenario.start).2 = []
  /\ (check Chaos (Scenario.env None) Scenario.event Scenario.start).1
     = errors_New "failed to obtain the TTL"
  /\ performed (check Chaos (Scenario.env None) Scenario.event) Scenario.start
     = [ActConfig "Chaos"; ActScope (FQDN "example.com"); ActGetSource "Chaos"; ActSubmit;
        ActDB (CallCreate None EmptyString (SourceAsset "Chaos" 80)); ActTTL "FQDN" "FQDN" "Chaos"].
Proof.
  split; [reflexivity|].
  destruct (C8_missing_ttl_policy_aborts_fqdn_pipelines Chaos (Scenario.env None)
              Scenario.event Scenario.start eq_refl) as (Hb & _ & Hg & Hf & Herr).
  split; [exact Hb|]. split; [exact Hg|]. split; [exact Hf|].
  apply (Herr "example.com" ["k1"; "k2"]).
  - reflexivity.
  - eexists. split; [reflexivity|]. split; reflexivity.
  - exists "example.com", 50. split; [reflexivity|]. split; [lia | reflexivity].
  - reflexivity.
Defined.

Lemma C9_witness :
  Done Scenario.terminated = true
  /\ rdap.autnum_lookup_mutation Scenario.autnum_subject Scenario.chaos_source
       ["whois_server"] ∅ Scenario.terminated = ([], Scenario.terminated)
  /\ rdap.autnum_store_mutation (Scenario.env (Some 1440)) Scenario.autnum_record
       Scenario.autnum_subject Scenario.chaos_source ["FQDN"] Scenario.terminated
     = ([], Scenario.terminated)
  /\ support.AppendToDBQueue
       (rdap.autnum_lookup_mutation Scenario.autnum_subject Scenario.chaos_source
          ["whois_server"] ∅) Scenario.terminated
     = ([], logged ActSubmit Scenario.terminated)
  /\ support.AppendToDBQueue
       (rdap.autnum_store_mutation (Scenario.env (Some 1440)) Scenario.autnum_record
          Scenario.autnum_subject Scenario.chaos_source ["FQDN"]) Scenario.terminated
     = ([], logged ActSubmit Scenario.terminated).
Proof.
  split; [reflexivity|].
  apply (C9_terminated_session_makes_mutations_noops (Scenario.env (Some 1440))
           Scenario.autnum_record Scenario.autnum_subject Scenario.chaos_source ["FQDN"]
           ["whois_server"] ∅ Scenario.terminated). reflexivity.
Defined.


(** ** The credential loops of the API plugins *)

Lemma fetched_scope_calls ns : fetched (scope_calls ns) = [].
Proof. induction ns; [reflexivity | exact IHns]. Qed.

(** Chaos makes one retrieval per key, whatever the retrievals return. *)
Lemma chaos_keys_fetches env c dname keys names w :
  exists t, trace (api.chaos_keys env c dname keys names w).2 = trace w ++ t
            /\ map (fun x => Header x.1) (fetched t)
               = map (fun key => Some ("Authorization", key)) keys.
Proof.
  revert names w. induction keys as [|key rest IH]; intros names w.
  - exists []. split; [symmetry; apply app_nil_r | reflexivity].
  - cbn [api.chaos_keys]. unfold bind at 1 2, Take, log, RequestWebPage.
    cbn -[api.chaos_keys api.chaos_subdomains String.append].
    destruct (WebPage env _ _) as [Body|] eqn:Hresp;
      [destruct (UnmarshalSubdomains env Body) as [Subdomains|]|].
    + unfold bind. rewrite chaos_subdomains_run.
      match goal with |- context [api.chaos_keys env c dname rest ?n ?w'] =>
        destruct (IH n w') as (t & Ht & Hh) end.
      eexists (_ :: _ :: scope_calls _ ++ t). split.
      * rewrite Ht. cbn [trace set_trace]. rewrite <- !app_assoc. reflexivity.
      * cbn. rewrite fetched_app, fetched_scope_calls. cbn. f_equal. exact Hh.
    + match goal with |- context [api.chaos_keys env c dname rest ?n ?w'] =>
        destruct (IH n w') as (t & Ht & Hh) end.
      eexists (_ :: _ :: t). split.
      * rewrite Ht. cbn [trace set_trace]. rewrite <- !app_assoc. reflexivity.
      * cbn. f_equal. exact Hh.
    + match goal with |- context [api.chaos_keys env c dname rest ?n ?w'] =>
        destruct (IH n w') as (t & Ht & Hh) end.
      eexists (_ :: _ :: t). split.
      * rewrite Ht. cbn [trace set_trace]. rewrite <- !app_assoc. reflexivity.
      * cbn. f_equal. exact Hh.
Qed.

(** SecurityTrails makes no retrieval after one that is usable. *)
Lemma securityTrails_first_success_wins env st dname keys names w :
  exists t, trace (api.securityTrails_keys env st dname keys names w).2 = trace w ++ t
            /\ (length (fetched t) <= length keys)%nat
            /\ forall j x, fetched t !! j = Some x -> usable env x.2 = true ->
                           S j = length (fetched t).
Proof.
  revert names w. induction keys as [|key rest IH]; intros names w.
  - exists []. split; [symmetry; apply app_nil_r|]. split; [cbn; lia|]. intros j x; discriminate.
  - cbn [api.securityTrails_keys]. unfold bind at 1 2, Take, log, RequestWebPage.
    cbn -[api.securityTrails_keys api.securityTrails_subdomains String.append].
    destruct (WebPage env _ _) as [Body|] eqn:Hresp;
      [destruct (String.eqb Body EmptyString) eqn:HB;
       [|destruct (UnmarshalSubdomains env Body) as [Subdomains|] eqn:HU]|].
    4: { match goal with |- context [api.securityTrails_keys env st dname rest ?n ?w'] =>
           destruct (IH n w') as (t & Ht & Hl & Hj) end.
         eexists (_ :: _ :: t). split; [|split].
         - rewrite Ht. cbn [trace set_trace]. rewrite <- !app_assoc. reflexivity.
         - cbn. fold (fetched t). lia.
         - intros [|j] x; cbn; [intros [= <-]; cbn; discriminate|].
           intros Hx Hu. f_equal. exact (Hj j x Hx Hu). }
    + match goal with |- context [api.securityTrails_keys env st dname rest ?n ?w'] =>
        destruct (IH n w') as (t & Ht & Hl & Hj) end.
      eexists (_ :: _ :: t). split; [|split].
      * rewrite Ht. cbn [trace set_trace]. rewrite <- !app_assoc. reflexivity.
      * cbn. fold (fetched t). lia.
      * intros [|j] x; cbn; [intros [= <-]; cbn; rewrite HB; discriminate|].
        intros Hx Hu. f_equal. exact (Hj j x Hx Hu).
    + rewrite securityTrails_subdomains_run.
      eexists (_ :: _ :: scope_calls _). split; [|split].
      * cbn [snd trace set_trace]. rewrite <- !app_assoc. reflexivity.
      * cbn. rewrite fetched_scope_calls. cbn. lia.
      * cbn. rewrite fetched_scope_calls. intros [|j] x; cbn; [reflexivity | discriminate].
    + match goal with |- context [api.securityTrails_keys env st dname rest ?n ?w'] =>
        destruct (IH n w') as (t & Ht & Hl & Hj) end.
      eexists (_ :: _ :: t). split; [|split].
      * rewrite Ht. cbn [trace set_trace]. rewrite <- !app_assoc. reflexivity.
      * cbn. fold (fetched t). lia.
      * intros [|j] x; cbn; [intros [= <-]; cbn; rewrite HB, HU; discriminate|].
        intros Hx Hu. f_equal. exact (Hj j x Hx Hu).
Qed.

(** ** The RDAP autnum lookup without a TTL policy *)

(** An evidence kind whose TTL policy is missing adds no relation type and
    no threshold: the loop skips it. *)
Lemma autnum_lookup_skips_missing_ttl env r m atypes rtypes sinces w :
  (forall atype, atype ∈ atypes ->
                 TTLPolicy env "AutnumRecord" atype (name (rdap.rplugin r)) = None) ->
  (rdap.autnum_lookup_transforms env r m atypes rtypes sinces w).1 = (rtypes, sinces).
Proof.
  revert w. induction atypes as [|atype rest IH]; intros w Hnone; [reflexivity|].
  cbn [rdap.autnum_lookup_transforms].
  assert (forall a, a ∈ rest ->
                    TTLPolicy env "AutnumRecord" a (name (rdap.rplugin r)) = None) as Hrest
      by (intros a Ha; apply Hnone; right; exact Ha).
  destruct (negb (IsMatch m atype)); [apply IH; exact Hrest|].
  unfold bind, support.TTLStartTime, log. cbn.
  rewrite (Hnone atype) by left. cbn. apply IH. exact Hrest.
Qed.

(** In the scenario the three candidates crt.sh stores end as one node. *)
Lemma crtsh_persists_one_node :
  nodes (graph (check Crtsh (Scenario.env (Some 1440)) Scenario.event Scenario.start).2)
  = [Scenario.subject;
     {| ID := 2; Asset := SourceAsset "HackerTarget" 100; LastSeen := 10000 |};
     {| ID := 3; Asset := FQDN "a.example.com"; LastSeen := 10000 |}].
Proof. vm_compute. reflexivity. Qed.

(** * Further properties *)

(** ** The requests of the queries and the names they keep *)

Lemma store_step_calls names src p h w :
  trace (support.StoreFQDNsWithSource names src p h w).2
  = trace w ++ performed (support.StoreFQDNsWithSource names src p h) w
  /\ stored (performed (support.StoreFQDNsWithSource names src p h) w) = [names]
  /\ fetched (performed (support.StoreFQDNsWithSource names src p h) w) = []
  /\ takes (performed (support.StoreFQDNsWithSource names src p h) w) = [].
Proof.
  pose proof (transits_StoreFQDNsWithSource names src p h) as Hs.
  split; [apply (transits_performed _ _ _ Hs)|].
  split; [apply StoreFQDNsWithSource_stored|].
  destruct (Hs w) as [_ _ _ _ _ _ (t & Ht & HF)].
  rewrite (performed_app _ _ _ Ht).
  apply no_retrieval_fetched, store_no_retrieval, HF.
Qed.

Lemma requests_app t1 t2 : requests (t1 ++ t2) = requests t1 ++ requests t2.
Proof. apply omap_app. Qed.

Lemma requests_scope_calls ns : requests (scope_calls ns) = [].
Proof. induction ns; [reflexivity | exact IHns]. Qed.

Lemma takes_scope_calls ns : takes (scope_calls ns) = [].
Proof. induction ns; [reflexivity | exact IHns]. Qed.

Lemma chaos_keys_run env c dname keys names w :
  exists t,
    api.chaos_keys env c dname keys names w
    = (names ++ concat (map (fun x => chaos_response_names env dname x.2) (fetched t)),
       set_trace (trace w ++ t) w)
    /\ requests t = map (chaos_request dname) keys
    /\ takes t = map (fun _ => name c) keys
    /\ stored t = [].
Proof.
  revert names w. induction keys as [|key rest IH]; intros names w.
  - exists []. cbn. rewrite !app_nil_r. destruct w; auto.
  - cbn [api.chaos_keys]. unfold bind at 1 2, Take, log, RequestWebPage.
    cbn -[api.chaos_keys api.chaos_subdomains String.append].
    fold (chaos_request dname key).
    set (resp := WebPage env _ _).
    destruct resp as [Body|] eqn:Hresp;
      [destruct (UnmarshalSubdomains env Body) as [Subdomains|] eqn:HU|].
    + unfold bind. rewrite chaos_subdomains_run.
      match goal with |- context [api.chaos_keys env c dname rest ?n ?w'] =>
        destruct (IH n w') as (t & -> & Hr & Hk & Hs) end.
      exists (ActTake (name c) :: ActRequest (chaos_request dname key) (Some Body)
                :: scope_calls (map (full_name dname) Subdomains) ++ t).
      split; [|split; [|split]].
      * cbn [trace set_trace]. rewrite !set_trace_twice, <- !app_assoc. cbn.
        rewrite fetched_app, fetched_scope_calls. cbn. rewrite HU. reflexivity.
      * cbn. rewrite requests_app, requests_scope_calls. cbn. f_equal. exact Hr.
      * cbn. rewrite takes_app, takes_scope_calls. cbn. f_equal. exact Hk.
      * cbn. rewrite stored_app, stored_scope_calls. exact Hs.
    + match goal with |- context [api.chaos_keys env c dname rest ?n ?w'] =>
        destruct (IH n w') as (t & -> & Hr & Hk & Hs) end.
      exists (ActTake (name c) :: ActRequest (chaos_request dname key) (Some Body) :: t).
      split; [|split; [|split]].
      * cbn [trace set_trace]. rewrite !set_trace_twice, <- !app_assoc. cbn. rewrite HU. reflexivity.
      * cbn. f_equal. exact Hr.
      * cbn. f_equal. exact Hk.
      * exact Hs.
    + match goal with |- context [api.chaos_keys env c dname rest ?n ?w'] =>
        destruct (IH n w') as (t & -> & Hr & Hk & Hs) end.
      exists (ActTake (name c) :: ActRequest (chaos_request dname key) None :: t).
      split; [|split; [|split]].
      * cbn [trace set_trace]. rewrite !set_trace_twice, <- !app_assoc. reflexivity.
      * cbn. f_equal. exact Hr.
      * cbn. f_equal. exact Hk.
      * exact Hs.
Qed.

Lemma performed_then_store (m : M (list string)) src p h w names t :
  m w = (names, set_trace (trace w ++ t) w) ->
  exists ts,
    performed (bind m (fun names => support.StoreFQDNsWithSource names src p h)) w = t ++ ts
    /\ stored ts = [names] /\ fetched ts = [] /\ takes ts = [].
Proof.
  intros Hm.
  destruct (store_step_calls names src p h (set_trace (trace w ++ t) w)) as (Ht & Hs & Hf & Hk).
  eexists. split; [|split; [exact Hs | split; [exact Hf | exact Hk]]].
  apply performed_app. unfold bind. rewrite Hm, Ht. cbn. rewrite app_assoc. reflexivity.
Qed.

(** X1. [chaos.query] makes one rate-limited request per API key, in the
    order of the keys and whatever the responses are, and hands the store
    step, in one call, the names of every response that parsed. *)
Theorem X1_chaos_query_asks_once_per_key
        (env : Env) (c : plugin) (e : Event) (dname : string) (src : Entity)
        (keys : list string) (w : World) :
  requests (performed (api.chaos_query env c e dname src keys) w)
  = map (chaos_request dname) keys
  /\ takes (performed (api.chaos_query env c e dname src keys) w)
     = map (fun _ => name c) keys
  /\ stored (performed (api.chaos_query env c e dname src keys) w)
     = [concat (map (fun x => chaos_response_names env dname x.2)
                    (fetched (performed (api.chaos_query env c e dname src keys) w)))].
Proof.
  destruct (chaos_keys_run env c dname keys [] w) as (t & Hrun & Hr & Hk & Hs).
  unfold api.chaos_query, api.chaos_store.
  destruct (performed_then_store _ src (name c) (name c +:+ "-Handler") _ _ _ Hrun)
    as (ts & -> & Hs' & Hf' & Hk').
  rewrite requests_fetched, fetched_app, takes_app, stored_app, Hf', Hk', Hs', Hs, !app_nil_r.
  rewrite <- requests_fetched. auto.
Qed.

Lemma securityTrails_keys_run env st dname keys names w :
  exists t,
    api.securityTrails_keys env st dname keys names w
    = (names ++ concat (map (fun x => securityTrails_response_names env dname x.2) (fetched t)),
       set_trace (trace w ++ t) w)
    /\ requests t = map (securityTrails_request dname) (take (length (fetched t)) keys)
    /\ takes t = map (fun _ => name st) (fetched t)
    /\ stored t = []
    /\ (forall j x, fetched t !! j = Some x -> usable env x.2 = true -> S j = length (fetched t))
    /\ (Forall (fun x => usable env x.2 = false) (fetched t) ->
        length (fetched t) = length keys).
Proof.
  revert names w. induction keys as [|key rest IH]; intros names w.
  - exists []. cbn. rewrite !app_nil_r. destruct w. repeat split; auto. intros j x; discriminate.
  - cbn [api.securityTrails_keys]. unfold bind at 1 2, Take, log, RequestWebPage.
    cbn -[api.securityTrails_keys api.securityTrails_subdomains String.append].
    fold (securityTrails_request dname key).
    set (resp := WebPage env _ _).
    assert (forall Body, usable env (Some Body) = false ->
              securityTrails_response_names env dname (Some Body) = []) as Hbad.
    { intros Body Hu. unfold usable in Hu. cbn.
      destruct (String.eqb Body EmptyString); [reflexivity|].
      destruct (UnmarshalSubdomains env Body); [discriminate | reflexivity]. }
    assert (forall r, usable env r = false ->
              exists t,
                api.securityTrails_keys env st dname rest names
                  (set_trace ((trace w ++ [ActTake (name st)])
                              ++ [ActRequest (securityTrails_request dname key) r])
                     (set_trace (trace w ++ [ActTake (name st)]) w))
                = (names ++ concat (map (fun x => securityTrails_response_names env dname x.2)
                                        (fetched t)),
                   set_trace (trace w ++ t) w)
                /\ requests t = map (securityTrails_request dname)
                                    (take (length (fetched t)) (key :: rest))
                /\ takes t = map (fun _ => name st) (fetched t)
                /\ stored t = []
                /\ (forall j x, fetched t !! j = Some x -> usable env x.2 = true ->
                                S j = length (fetched t))
                /\ (Forall (fun x => usable env x.2 = false) (fetched t) ->
                    length (fetched t) = length (key :: rest))) as Hskip.
    { intros r Hu.
      match goal with |- context [api.securityTrails_keys env st dname rest ?n ?w'] =>
        destruct (IH n w') as (t & -> & Hr & Hk & Hs & Hj & Hall) end.
      exists (ActTake (name st) :: ActRequest (securityTrails_request dname key) r :: t).
      split; [|split; [|split; [|split; [|split]]]].
      - cbn [trace set_trace]. rewrite !set_trace_twice, <- !app_assoc. cbn.
        assert (securityTrails_response_names env dname r = []) as ->.
        { destruct r as [Body|]; [apply Hbad; exact Hu | reflexivity]. }
        reflexivity.
      - cbn. f_equal. exact Hr.
      - cbn. f_equal. exact Hk.
      - exact Hs.
      - intros [|j] x; cbn; [intros [= <-]; cbn; congruence|].
        intros Hx Hux. f_equal. exact (Hj j x Hx Hux).
      - cbn. intros HF. apply Forall_cons in HF as [_ HF]. f_equal. exact (Hall HF). }
    destruct resp as [Body|] eqn:Hresp;
      [destruct (String.eqb Body EmptyString) eqn:HB;
       [|destruct (UnmarshalSubdomains env Body) as [Subdomains|] eqn:HU]|].
    + apply Hskip. cbn. rewrite HB. reflexivity.
    + rewrite securityTrails_subdomains_run.
      exists (ActTake (name st) :: ActRequest (securityTrails_request dname key) (Some Body)
                :: scope_calls (map (fun sub => normalize (full_name dname sub)) Subdomains)).
      split; [|split; [|split; [|split; [|split]]]].
      * cbn [trace set_trace]. rewrite !set_trace_twice, <- !app_assoc. cbn.
        rewrite fetched_scope_calls. cbn. rewrite HB, HU, app_nil_r. reflexivity.
      * cbn. rewrite fetched_scope_calls, requests_scope_calls. reflexivity.
      * cbn. rewrite fetched_scope_calls, takes_scope_calls. reflexivity.
      * cbn. apply stored_scope_calls.
      * cbn. rewrite fetched_scope_calls. intros [|j] x; cbn; [reflexivity | discriminate].
      * cbn. rewrite fetched_scope_calls. intros HF. apply Forall_cons in HF as [HF _].
        cbn in HF. rewrite HB, HU in HF. discriminate.
    + apply Hskip. cbn. rewrite HB, HU. reflexivity.
    + apply Hskip. reflexivity.
Qed.

(** X2. [securityTrails.query] tries the API keys in order, one rate-limited
    request each, and stops after the first response that is not empty and
    parses; only that response contributes names to the one store call. *)
Theorem X2_securityTrails_query_stops_at_first_usable_key
        (env : Env) (st : plugin) (e : Event) (dname : string) (src : Entity)
        (keys : list string) (w : World) :
  let t := performed (api.securityTrails_query env st e dname src keys) w in
  requests t = map (securityTrails_request dname) (take (length (fetched t)) keys)
  /\ takes t = map (fun _ => name st) (fetched t)
  /\ (forall j x, fetched t !! j = Some x -> usable env x.2 = true -> S j = length (fetched t))
  /\ (Forall (fun x => usable env x.2 = false) (fetched t) -> length (fetched t) = length keys)
  /\ stored t = [from_option (fun x => securityTrails_response_names env dname x.2) []
                             (last (fetched t))].
Proof.
  destruct (securityTrails_keys_run env st dname keys [] w)
    as (t & Hrun & Hr & Hk & Hs & Hj & Hall).
  unfold api.securityTrails_query, api.securityTrails_store.
  destruct (performed_then_store _ src (name st) (name st +:+ "-Handler") _ _ _ Hrun)
    as (ts & -> & Hs' & Hf' & Hk').
  cbv zeta.
  rewrite requests_fetched, fetched_app, takes_app, stored_app, Hf', Hk', Hs', Hs, !app_nil_r.
  rewrite <- requests_fetched. repeat split; try assumption.
  cbn. f_equal. clear -Hj.
  induction (fetched t) as [|x l IH] using rev_ind; [reflexivity|].
  rewrite map_app, concat_app, last_snoc. cbn. rewrite app_nil_r.
  assert (concat (map (fun x => securityTrails_response_names env dname x.2) l) = []) as ->;
    [|reflexivity].
  clear IH. induction l as [|y l IH]; [reflexivity|]. cbn.
  rewrite IH.
  - rewrite app_nil_r. destruct (usable env y.2) eqn:Hu.
    + specialize (Hj 0%nat y eq_refl Hu). rewrite length_app in Hj. cbn in Hj. lia.
    + destruct y as [req [Body|]]; [|reflexivity]. cbn in *.
      destruct (String.eqb Body EmptyString); [reflexivity|].
      destruct (UnmarshalSubdomains env Body); [discriminate | reflexivity].
  - intros j x' Hx Hu. specialize (Hj (S j) x' Hx Hu). cbn in Hj. lia.
Qed.

Lemma lower_ascii_idem c : GoStrings.lower_ascii (GoStrings.lower_ascii c) = GoStrings.lower_ascii c.
Proof. destruct c as [[] [] [] [] [] [] [] []]; reflexivity. Qed.

Lemma ToLower_idem s : GoStrings.ToLower (GoStrings.ToLower s) = GoStrings.ToLower s.
Proof. induction s as [|c s IH]; cbn; [reflexivity|]. rewrite lower_ascii_idem, IH. reflexivity. Qed.

Lemma ToLower_normalize s : GoStrings.ToLower (normalize s) = normalize s.
Proof. apply ToLower_idem. Qed.

Lemma scoped_scope_calls ns : scoped (scope_calls ns) = map FQDN ns.
Proof. induction ns; [reflexivity | cbn; f_equal; assumption]. Qed.

Lemma crtsh_certs_run env certs names w :
  api.crtsh_certs env certs names w
  = (names ++ List.filter (in_scope env) (crtsh_candidates certs),
     set_trace (trace w ++ scope_calls (crtsh_candidates certs)) w).
Proof.
  revert names w. induction certs as [|cert rest IH]; intros names w.
  - cbn. rewrite !app_nil_r. destruct w; reflexivity.
  - cbn [api.crtsh_certs]. unfold bind. rewrite crtsh_cert_names_run, IH.
    cbn [trace set_trace]. rewrite set_trace_twice.
    unfold crtsh_candidates, scope_calls. cbn [map concat].
    rewrite !map_app, List.filter_app, <- !app_assoc. reflexivity.
Qed.

(** X3. [crtsh.query] makes one rate-limited request.  When the retrieval
    fails or the body does not parse it returns an empty list without asking
    the scope filter and without a store call; otherwise it asks the scope
    filter about every line of every certificate, in normal form, and stores
    those in scope, in order. *)
Theorem X3_crtsh_query_stores_the_names_in_scope
        (env : Env) (c : plugin) (e : Event) (dname : string) (src : Entity) (w : World) :
  exists resp,
    fetched (performed (api.crtsh_query env c e dname src) w) = [(crtsh_request dname, resp)]
    /\ takes (performed (api.crtsh_query env c e dname src) w) = [name c]
    /\ match crtsh_response_certs env resp with
       | None =>
           api.crtsh_query env c e dname src w
           = ([], set_trace (trace w ++ [ActTake (name c); ActRequest (crtsh_request dname) resp]) w)
       | Some Certs =>
           scoped (performed (api.crtsh_query env c e dname src) w)
           = map FQDN (crtsh_candidates Certs)
           /\ stored (performed (api.crtsh_query env c e dname src) w)
              = [List.filter (in_scope env) (crtsh_candidates Certs)]
       end.
Proof.
  set (resp := WebPage env (trace w ++ [ActTake (name c)]) (crtsh_request dname)).
  set (w2 := set_trace (trace w ++ [ActTake (name c); ActRequest (crtsh_request dname) resp]) w).
  assert (api.crtsh_query env c e dname src w
          = match crtsh_response_certs env resp with
            | None => ([], w2)
            | Some Certs =>
                bind (api.crtsh_certs env Certs [])
                     (fun names => support.StoreFQDNsWithSource names src (name c)
                                     (name c +:+ "-Handler")) w2
            end) as Hq.
  { unfold api.crtsh_query, api.crtsh_store, bind at 1 2, Take, log, RequestWebPage.
    cbn -[support.StoreFQDNsWithSource api.crtsh_certs String.append].
    fold (crtsh_request dname). fold resp.
    rewrite set_trace_twice, <- app_assoc. fold w2.
    destruct resp as [Body|]; cbn [crtsh_response_certs]; [|reflexivity].
    destruct (UnmarshalCerts env _); reflexivity. }
  exists resp. unfold performed. rewrite Hq. clear Hq.
  destruct (crtsh_response_certs env resp) as [Certs|].
  2: { cbn. rewrite drop_app_length. auto. }
  unfold bind. rewrite crtsh_certs_run.
  match goal with |- context [support.StoreFQDNsWithSource ?ns ?s ?p ?h ?w'] =>
    destruct (store_step_calls ns s p h w') as (_ & Hs & Hf & Hk);
    destruct (transits_StoreFQDNsWithSource ns s p h w') as [_ _ _ _ _ _ (ts & Ht & HF)];
    rewrite (performed_app _ _ _ Ht) in *; rewrite Ht end.
  assert (scoped ts = []) as Hsc.
  { clear -HF. induction HF as [|a l Ha _ IH]; [reflexivity|]. destruct a; try discriminate; exact IH. }
  cbn [trace set_trace w2 app]. rewrite <- !app_assoc, drop_app_length. cbn.
  rewrite !fetched_app, !takes_app, !scoped_app, !stored_app.
  rewrite fetched_scope_calls, takes_scope_calls, scoped_scope_calls, stored_scope_calls.
  rewrite Hf, Hk, Hs, Hsc, !app_nil_r. cbn. auto.
Qed.

Lemma lower_filter_normalize (P : string -> bool) ns :
  map GoStrings.ToLower (List.filter P (map normalize ns)) = List.filter P (map normalize ns).
Proof.
  induction ns as [|n ns IH]; [reflexivity|]. cbn.
  destruct (P (normalize n)); [cbn; rewrite ToLower_normalize, IH|]; auto.
Qed.

Lemma siteDossier_names_run env ns (subs : stringset.Set_) w :
  exists subs' : stringset.Set_,
    scrape.siteDossier_names env ns subs w
    = (subs', set_trace (trace w ++ scope_calls (map normalize ns)) w)
    /\ subs' = list_to_set (List.filter (in_scope env) (map normalize ns)) ∪ subs.
Proof.
  revert subs w. induction ns as [|n rest IH]; intros subs w; cbn.
  - exists subs. split; [rewrite app_nil_r; destruct w; reflexivity|].
    cbn. symmetry. apply (left_id_L ∅ (∪)).
  - unfold bind, IsAssetInScope, log, ret. cbn. fold (normalize n).
    unfold in_scope at 1. destruct (InScope env (FQDN (normalize n)) 0) as [a conf]. cbn.
    destruct (0 <? conf).
    + destruct (IH (stringset.Insert subs (normalize n))
                  (set_trace (trace w ++ [ActScope (FQDN (normalize n))]) w)) as (s' & -> & ->).
      eexists. split; [cbn; rewrite <- app_assoc; reflexivity|].
      unfold stringset.Insert. rewrite ToLower_normalize. cbn [list_to_set foldr].
      apply set_eq. intros x. rewrite !elem_of_union. tauto.
    + destruct (IH subs (set_trace (trace w ++ [ActScope (FQDN (normalize n))]) w))
        as (s' & -> & ->).
      eexists. split; [cbn; rewrite <- app_assoc; reflexivity | reflexivity].
Qed.

Lemma duckDuckGo_names_set env ns (subs : stringset.Set_) w :
  exists subs' : stringset.Set_,
    scrape.duckDuckGo_names env ns subs w
    = (subs', set_trace (trace w ++ scope_calls (map normalize ns)) w)
    /\ subs' = list_to_set (List.filter (in_scope env) (map normalize ns)) ∪ subs.
Proof.
  destruct (duckDuckGo_names_run env ns subs w) as (subs' & Hrun & Hs).
  exists subs'. split; [exact Hrun|]. rewrite Hs, lower_filter_normalize. reflexivity.
Qed.

Lemma page_names_good env resp : good resp = false -> page_names env resp = [].
Proof.
  destruct resp as [Body|]; [|reflexivity]. cbn.
  destruct (String.eqb Body EmptyString); [reflexivity | discriminate].
Qed.

Lemma duckDuckGo_query_run
        (env : Env) (d : plugin) (e : Event) (dname : string) (src : Entity) (w : World) :
  exists resp,
    fetched (performed (scrape.duckDuckGo_query env d e dname src) w)
    = [(duckDuckGo_request d dname, resp)]
    /\ takes (performed (scrape.duckDuckGo_query env d e dname src) w) = [name d]
    /\ if good resp
       then exists names,
           stored (performed (scrape.duckDuckGo_query env d e dname src) w) = [names]
           /\ NoDup names
           /\ forall n, n ∈ names <-> n ∈ page_names env resp
       else scrape.duckDuckGo_query env d e dname src w
            = ([], set_trace (trace w ++ [ActTake (name d);
                                          ActRequest (duckDuckGo_request d dname) resp]) w).
Proof.
  set (resp := WebPage env (trace w ++ [ActTake (name d)]) (duckDuckGo_request d dname)).
  set (w2 := set_trace (trace w ++ [ActTake (name d);
                                    ActRequest (duckDuckGo_request d dname) resp]) w).
  assert (scrape.duckDuckGo_query env d e dname src w
          = match resp with
            | Some Body =>
                if String.eqb Body EmptyString then ([], w2) else
                bind (scrape.duckDuckGo_names env (ScrapeSubdomainNames env Body) stringset.New)
                     (fun subs => support.StoreFQDNsWithSource (stringset.Slice subs) src (name d)
                                    (name d +:+ "-Handler")) w2
            | None => ([], w2)
            end) as Hq.
  { unfold scrape.duckDuckGo_query, scrape.duckDuckGo_store, bind at 1 2, Take, log,
      RequestWebPage.
    cbn -[support.StoreFQDNsWithSource scrape.duckDuckGo_names GoStrings.Sprintf].
    fold (duckDuckGo_request d dname). fold resp.
    rewrite set_trace_twice, <- app_assoc. fold w2.
    destruct resp as [Body|]; [|reflexivity].
    destruct (String.eqb Body EmptyString); reflexivity. }
  exists resp. unfold performed. rewrite Hq. clear Hq.
  destruct resp as [Body|] eqn:Hresp; cbn [good].
  2: { cbn. rewrite drop_app_length. auto. }
  destruct (String.eqb Body EmptyString) eqn:HB; cbn [negb].
  { cbn. rewrite drop_app_length. auto. }
  unfold bind.
  destruct (duckDuckGo_names_set env (ScrapeSubdomainNames env Body) stringset.New w2)
    as (subs & -> & Hsubs).
  match goal with |- context [support.StoreFQDNsWithSource ?ns ?s ?p ?h ?w'] =>
    destruct (store_step_calls ns s p h w') as (Ht & Hs & Hf & Hk); rewrite Ht; clear Ht;
    revert Hs Hf Hk; generalize (performed (support.StoreFQDNsWithSource ns s p h) w');
    intros ts Hs Hf Hk end.
  cbn [trace set_trace w2 app]. rewrite <- !app_assoc, drop_app_length. cbn.
  rewrite !fetched_app, !takes_app, !stored_app.
  rewrite fetched_scope_calls, takes_scope_calls, stored_scope_calls, Hf, Hk, Hs.
  split; [reflexivity|]. split; [reflexivity|].
  exists (stringset.Slice subs). split; [reflexivity|]. split; [apply NoDup_elements|].
  intros n. unfold stringset.Slice. rewrite elem_of_elements, Hsubs. cbn. rewrite HB.
  unfold stringset.New. rewrite (right_id_L ∅ (∪)). apply elem_of_list_to_set.
Qed.


(** X4. [duckDuckGo.query] makes one rate-limited request.  A retrieval that
    fails or has an empty body ends it with an empty list and no store call;
    otherwise the store step receives, each once, the scraped names that are
    in scope, in normal form. *)
Theorem X4_duckDuckGo_query_stores_each_name_once
        (env : Env) (d : plugin) (e : Event) (dname : string) (src : Entity) (w : World) :
  exists resp,
    fetched (performed (scrape.duckDuckGo_query env d e dname src) w)
    = [(duckDuckGo_request d dname, resp)]
    /\ takes (performed (scrape.duckDuckGo_query env d e dname src) w) = [name d]
    /\ if good resp
       then exists names,
           stored (performed (scrape.duckDuckGo_query env d e dname src) w) = [names]
           /\ NoDup names
           /\ forall n, n ∈ names <-> n ∈ page_names env resp
       else scrape.duckDuckGo_query env d e dname src w
            = ([], set_trace (trace w ++ [ActTake (name d);
                                          ActRequest (duckDuckGo_request d dname) resp]) w).
Proof. apply duckDuckGo_query_run. Qed.

Lemma siteDossier_pages_run env sd dname i (subs : stringset.Set_) w :
  exists t,
    trace (scrape.siteDossier_pages env sd dname i subs w).2 = trace w ++ t
    /\ paged sd dname i t
    /\ forall n, n ∈ (scrape.siteDossier_pages env sd dname i subs w).1
                 <-> n ∈ subs \/ exists x, x ∈ fetched t /\ n ∈ page_names env x.2.
Proof.
  revert w.
  funelim (scrape.siteDossier_pages env sd dname i subs); intros w.
  2: { exists []. split; [symmetry; apply app_nil_r|]. split; [apply paged_done; lia|].
       intros nm. cbn. split; [auto|]. intros [Hn | (x & Hx & _)]; [exact Hn|]. inversion Hx. }
  unfold bind, Take, log, RequestWebPage. cbn.
  set (resp := WebPage env _ _).
  assert (good resp = false ->
          exists t,
            trace (set_trace ((trace w ++ [ActTake (name sd)])
                              ++ [ActRequest (page_request sd dname i) resp])
                     (set_trace (trace w ++ [ActTake (name sd)]) w)) = trace w ++ t
            /\ paged sd dname i t
            /\ forall nm, nm ∈ subs
                          <-> nm ∈ subs \/ exists x, x ∈ fetched t /\ nm ∈ page_names env x.2)
    as Hstop.
  { intros Hbad.
    exists [ActTake (name sd); ActRequest (page_request sd dname i) resp].
    split; [cbn; rewrite <- app_assoc; reflexivity|].
    split; [apply paged_stop; [exact l | exact Hbad]|].
    intros nm. split; [auto|]. intros [Hn | (x & Hx & Hxn)]; [exact Hn|].
    cbn in Hx. apply list_elem_of_singleton in Hx as ->. cbn in Hxn.
    rewrite (page_names_good _ _ Hbad) in Hxn. inversion Hxn. }
  destruct resp as [Body|] eqn:Hresp.
  - destruct (String.eqb Body EmptyString) eqn:HB.
    + cbn. apply Hstop. cbn. rewrite HB. reflexivity.
    + clear Hstop.
      match goal with |- context [scrape.siteDossier_names env ?ns ?s ?w'] =>
        destruct (siteDossier_names_run env ns s w') as (subs' & Hrun & Hsubs) end.
      rewrite Hrun.
      match goal with |- context [scrape.siteDossier_pages env sd dname (i + 1) subs' ?w'] =>
        destruct (H tt None EmptyString subs' w w') as (t & Ht & Hp & Hin) end.
      exists ([ActTake (name sd); ActRequest (page_request sd dname i) (Some Body)]
              ++ scope_calls (map normalize (ScrapeSubdomainNames env Body)) ++ t).
      split; [rewrite Ht; cbn; rewrite <- !app_assoc; reflexivity|].
      split.
      * apply paged_next; [exact l | cbn; rewrite HB; reflexivity | | exact Hp].
        clear. induction (map normalize _); constructor; auto.
      * intros nm. rewrite Hin, Hsubs.
        rewrite !fetched_app, fetched_scope_calls.
        change (fetched [ActTake (name sd); ActRequest (page_request sd dname i) (Some Body)])
          with [(page_request sd dname i, Some Body)].
        cbn [app].
        rewrite elem_of_union, elem_of_list_to_set. split.
        { intros [[Hn1 | Hn1] | (x & Hx & Hxn)]; auto.
          - right. exists (page_request sd dname i, Some Body). split; [left|].
            cbn. rewrite HB. exact Hn1.
          - right. exists x. split; [right; exact Hx | exact Hxn]. }
        { intros [Hn1 | (x & Hx & Hxn)]; auto.
          apply elem_of_cons in Hx as [-> | Hx].
          - left. left. cbn in Hxn. rewrite HB in Hxn. exact Hxn.
          - right. exists x. auto. }
  - cbn. apply Hstop. reflexivity.
Qed.

Lemma siteDossier_query_run
        (env : Env) (sd : plugin) (e : Event) (dname : string) (src : Entity) (w : World) :
  exists names,
    stored (performed (scrape.siteDossier_query env sd e dname src) w) = [names]
    /\ NoDup names
    /\ forall n, n ∈ names
                 <-> exists x, x ∈ fetched (performed (scrape.siteDossier_query env sd e dname src) w)
                               /\ n ∈ page_names env x.2.
Proof.
  destruct (siteDossier_pages_run env sd dname 1 stringset.New w) as (t & Ht & Hp & Hin).
  exists (stringset.Slice (scrape.siteDossier_pages env sd dname 1 stringset.New w).1).
  unfold scrape.siteDossier_query, scrape.siteDossier_store.
  destruct (store_step_calls
              (stringset.Slice (scrape.siteDossier_pages env sd dname 1 stringset.New w).1)
              src (name sd) (name sd +:+ "-Handler")
              (scrape.siteDossier_pages env sd dname 1 stringset.New w).2)
    as (Hts & Hs & Hf & Hk).
  erewrite performed_bind; [|exact Ht | exact Hts].
  rewrite stored_app, fetched_app, (paged_not_stored _ _ _ _ Hp), Hs, Hf, app_nil_r.
  split; [reflexivity|]. split; [apply NoDup_elements|].
  intros n. unfold stringset.Slice. rewrite elem_of_elements, Hin.
  unfold stringset.New. split; [intros [Hn | Hn]; [|exact Hn] | auto].
  apply elem_of_empty in Hn. destruct Hn.
Qed.

(** X5. [siteDossier.query] always makes one store call, and the list it
    passes holds, each once, exactly the names in scope scraped from the pages
    it retrieved: a page that fails ends the loop without discarding the names
    of the pages before it. *)
Theorem X5_siteDossier_query_keeps_the_names_of_every_page
        (env : Env) (sd : plugin) (e : Event) (dname : string) (src : Entity) (w : World) :
  exists names,
    stored (performed (scrape.siteDossier_query env sd e dname src) w) = [names]
    /\ NoDup names
    /\ forall n, n ∈ names
                 <-> exists x, x ∈ fetched (performed (scrape.siteDossier_query env sd e dname src) w)
                               /\ n ∈ page_names env x.2.
Proof. apply siteDossier_query_run. Qed.

(** ** Duplicates among the candidates *)

Lemma one_element (l : list string) a : NoDup l -> (forall n, n ∈ l <-> n = a) -> l = [a].
Proof.
  intros Hnd H. destruct l as [|x l].
  - assert (a ∈ @nil string) as Hin by (apply H; reflexivity). inversion Hin.
  - assert (x = a) as -> by (apply H; left).
    destruct l as [|y l]; [reflexivity|].
    assert (y = a) as -> by (apply H; right; left).
    apply NoDup_cons in Hnd as [Hnd _]. destruct Hnd. left.
Qed.

(** When every retrieval returns the same good page, the page loop of
    SiteDossier ends with the names of that page added to its set. *)
Lemma siteDossier_pages_same_page env sd dname i (subs : stringset.Set_) :
  forall body w,
    (forall t req, WebPage env t req = Some body) ->
    (body =? EmptyString)%string = false ->
    (scrape.siteDossier_pages env sd dname i subs w).1
    = if decide (i < 20) then list_to_set (page_names env (Some body)) ∪ subs else subs.
Proof.
  funelim (scrape.siteDossier_pages env sd dname i subs); intros body w Hweb Hbody.
  2: { destruct (decide (i < 20)); [lia | reflexivity]. }
  destruct (decide (i < 20)) as [_|]; [|lia].
  unfold bind, Take, log, RequestWebPage. cbn. rewrite Hweb, Hbody.
  match goal with |- context [scrape.siteDossier_names env ?ns ?s ?w'] =>
    destruct (siteDossier_names_run env ns s w') as (subs' & Hrun & Hsubs) end.
  rewrite Hrun.
  match goal with |- context [scrape.siteDossier_pages env sd dname (i + 1) subs' ?w'] =>
    rewrite (H tt None EmptyString subs' w body w' Hweb Hbody) end.
  cbn [page_names] in *. rewrite Hbody.
  destruct (decide (i + 1 < 20)); rewrite Hsubs; [|reflexivity].
  apply set_eq. intros x. rewrite !elem_of_union. tauto.
Qed.

(** C4, as amended. The plugins that collect candidates in a string set
    (DuckDuckGo, SiteDossier) suppress duplicate candidates before the store
    step: every list they hand to the store step is free of duplicates and
    holds exactly the names scraped from the pages of the run, in normal form,
    that are in scope.  When every retrieval yields "a.example.com",
    "A.example.com" and " a.example.com ", all in scope, each of the two
    passes exactly one candidate, "a.example.com", to the store step.  crt.sh
    appends every in-scope normalized candidate to a slice: the same three
    raw values reach its store step as three equal candidates. *)
Theorem C4_duplicates_are_suppressed_by_the_string_set
        (env : Env) (e : Event) (dname : string) (src : Entity) (w : World) :
  deduplicated env
    (performed (scrape.duckDuckGo_query env scrape.NewDuckDuckGo e dname src) w)
  /\ deduplicated env
       (performed (scrape.siteDossier_query env scrape.NewSiteDossier e dname src) w)
  /\ forall body,
      (forall t req, WebPage env t req = Some body) ->
      body <> EmptyString ->
      ScrapeSubdomainNames env body = Scenario.three_names ->
      0 < (InScope env (FQDN "a.example.com") 0).2 ->
      stored (performed (scrape.duckDuckGo_query env scrape.NewDuckDuckGo e dname src) w)
      = [["a.example.com"]]
      /\ stored (performed (scrape.siteDossier_query env scrape.NewSiteDossier e dname src) w)
         = [["a.example.com"]]
      /\ ((forall s, UnmarshalCerts env s = Some [Scenario.one_cert]) ->
          stored (performed (api.crtsh_query env api.NewCrtsh e dname src) w)
          = [["a.example.com"; "a.example.com"; "a.example.com"]]).
Proof.
  split; [|split].
  { destruct (duckDuckGo_query_run env scrape.NewDuckDuckGo e dname src w)
      as (resp & Hf & _ & Hrun).
    unfold deduplicated. rewrite Hf. destruct (good resp) eqn:Hgood.
    - destruct Hrun as (names & -> & Hnd & Hin).
      apply Forall_cons_2; [|constructor]. split; [exact Hnd|].
      intros n. rewrite Hin. split.
      + intros Hn. eexists. split; [apply list_elem_of_here | exact Hn].
      + intros (x & Hx & Hn). apply list_elem_of_singleton in Hx as ->. exact Hn.
    - unfold performed. rewrite Hrun. cbn. rewrite drop_app_length. constructor. }
  { destruct (siteDossier_query_run env scrape.NewSiteDossier e dname src w)
      as (names & Hs & Hnd & Hin).
    unfold deduplicated. rewrite Hs. apply Forall_cons_2; [|constructor].
    split; assumption. }
  intros body Hweb Hbody Hscrape Hscope.
  assert (page_names env (Some body) = ["a.example.com"; "a.example.com"; "a.example.com"])
    as Hpage.
  { cbn [page_names]. apply String.eqb_neq in Hbody. rewrite Hbody, Hscrape.
    apply (three_names_in_scope _ Hscope). }
  split; [|split].
  - destruct (duckDuckGo_query_run env scrape.NewDuckDuckGo e dname src w)
      as (resp & Hf & _ & Hrun).
    assert (resp = Some body) as ->.
    { unfold performed, scrape.duckDuckGo_query, bind, Take, log, RequestWebPage in Hf.
      cbn -[scrape.duckDuckGo_store scrape.duckDuckGo_names GoStrings.Sprintf] in Hf.
      rewrite Hweb in Hf. apply String.eqb_neq in Hbody. rewrite Hbody in Hf.
      match type of Hf with context [scrape.duckDuckGo_names env ?ns ?s ?w'] =>
        destruct (duckDuckGo_names_run env ns s w') as (subs & Hn & _); rewrite Hn in Hf end.
      unfold scrape.duckDuckGo_store in Hf.
      rewrite (transits_performed _ _ _ (transits_StoreFQDNsWithSource _ _ _ _)) in Hf.
      cbn [trace set_trace] in Hf. rewrite <- !app_assoc, drop_app_length in Hf.
      cbn in Hf. congruence. }
    assert (good (Some body) = true) as Hgood
        by (cbn; apply String.eqb_neq in Hbody; rewrite Hbody; reflexivity).
    rewrite Hgood in Hrun. destruct Hrun as (names & -> & Hnd & Hin).
    f_equal. apply one_element; [exact Hnd|].
    intros n. rewrite Hin, Hpage. rewrite !elem_of_cons.
    split; [intros [? | [? | [? | Hn]]]; auto; inversion Hn | auto].
  - rewrite siteDossier_query_stored.
    rewrite (siteDossier_pages_same_page env _ dname 1 _ body w Hweb
               (proj2 (String.eqb_neq _ _) Hbody)).
    destruct (decide (1 < 20)) as [_|]; [|lia].
    rewrite Hpage. vm_compute. reflexivity.
  - intros Hcerts.
    unfold performed, api.crtsh_query, api.crtsh_store, bind, Take, log, RequestWebPage.
    cbn -[support.StoreFQDNsWithSource api.crtsh_certs String.append].
    rewrite Hweb, Hcerts. cbn [api.crtsh_certs]. unfold bind, ret.
    rewrite crtsh_cert_names_run.
    rewrite (transits_performed _ _ _ (transits_StoreFQDNsWithSource _ _ _ _)).
    cbn [trace set_trace]. rewrite <- !app_assoc, drop_app_length, !stored_app.
    rewrite stored_scope_calls, StoreFQDNsWithSource_stored. cbn [stored omap app list_omap].
    do 2 f_equal.
    change (map (fun n => normalize (dns.RemoveAsteriskLabel n))
                (GoStrings.Split Scenario.one_cert newline))
      with ["a.example.com"; "a.example.com"; "a.example.com"].
    apply (three_names_in_scope _ Hscope).
Qed.

Lemma C4_witness :
  ((forall t req, WebPage (Scenario.env (Some 1440)) t req = Some "body")
   /\ ScrapeSubdomainNames (Scenario.env (Some 1440)) "body" = Scenario.three_names
   /\ 0 < (InScope (Scenario.env (Some 1440)) (FQDN "a.example.com") 0).2)
  /\ stored (performed (scrape.duckDuckGo_query (Scenario.env (Some 1440))
                          scrape.NewDuckDuckGo Scenario.event "example.com"
                          Scenario.chaos_source) Scenario.start)
     = [["a.example.com"]]
  /\ stored (performed (scrape.siteDossier_query (Scenario.env (Some 1440))
                          scrape.NewSiteDossier Scenario.event "example.com"
                          Scenario.chaos_source) Scenario.start)
     = [["a.example.com"]]
  /\ stored (performed (api.crtsh_query (Scenario.env (Some 1440)) api.NewCrtsh Scenario.event
                          "example.com" Scenario.chaos_source) Scenario.start)
     = [["a.example.com"; "a.example.com"; "a.example.com"]].
Proof.
  split; [split; [reflexivity | split; [reflexivity | vm_compute; reflexivity]]|].
  destruct (proj2 (proj2 (C4_duplicates_are_suppressed_by_the_string_set
                            (Scenario.env (Some 1440)) Scenario.event "example.com"
                            Scenario.chaos_source Scenario.start)) "body")
    as (Hd & Hs & Hc).
  - intros t req. reflexivity.
  - discriminate.
  - reflexivity.
  - vm_compute. reflexivity.
  - split; [exact Hd|]. split; [exact Hs|]. apply Hc. intros s. reflexivity.
Defined.

(** ** The shape of a run of [check] *)

Section TemplateShape.
Context (env : Env) (p : plugin) (e : Event) (fqdn : string).
Context (query : Entity -> M (list Entity)).
Hypothesis Hquery : forall src w, trace (query src w).2 = trace w ++ performed (query src) w.

Lemma template_run_shape w0 pre w :
  after w0 pre w ->
  wp (template env p e fqdn query)
     (fun r w' => exists t, trace w' = trace w0 ++ pre ++ t
                            /\ run_shape env p e fqdn query w0 r t) w.
Proof.
  intros [Hn Hd Hs Hg Hf Ht Hrf].
  apply wp_template.
  - intros Hout. eexists. split; [cbn; rewrite Ht, <- app_assoc; reflexivity|].
    apply run_out_of_scope, Hout.
  - intros Hp Hno. eexists. split; [cbn; rewrite Ht, <- !app_assoc; reflexivity|].
    apply run_no_source; [exact Hp | rewrite <- Hs; exact Hno].
  - intros Hp n w1 Hres Hnone. eexists. split.
    + cbn. rewrite (res_trace _ _ _ _ Hres). cbn. rewrite Ht, Hg, <- !app_assoc. reflexivity.
    + apply run_no_ttl; [exact Hp | | exact Hnone | discriminate].
      rewrite <- Hs. exact (res_ok _ _ _ _ Hres).
  - intros Hp n w1 ttl Hres Httl _.
    rewrite emitted_processed. cbn. rewrite (res_trace _ _ _ _ Hres). cbn.
    rewrite (res_now _ _ _ _ Hres). cbn. rewrite Hn, Ht, Hg.
    eexists. split; [rewrite <- !app_assoc; cbn; rewrite <- ?app_assoc; reflexivity|].
    apply (run_fresh env p e fqdn query w0 ttl n); [exact Hp | | exact Httl].
    rewrite <- Hs. exact (res_ok _ _ _ _ Hres).
  - intros Hp n w1 ttl names w3 Hres Httl _ Hq.
    rewrite emitted_processed.
    remember (logged (ActMonitored (ID (EvAsset e)) (ID n) (now w1 - ttl) false)
                (logged (ActTTL "FQDN" "FQDN" (name p)) w1)) as w2 eqn:Hw2.
    assert (trace w2 = trace w0 ++ pre
                       ++ [ActScope (FQDN fqdn); ActGetSource (SourceName (source p))]
                       ++ source_creation (source p) (graph w0)
                       ++ [ActTTL "FQDN" "FQDN" (name p);
                           ActMonitored (ID (EvAsset e)) (ID n) (now w0 - ttl) false]) as Ht2.
    { rewrite Hw2. cbn. rewrite (res_trace _ _ _ _ Hres), (res_now _ _ _ _ Hres). cbn.
      rewrite Hn, Ht, Hg, <- !app_assoc. cbn. rewrite <- ?app_assoc. reflexivity. }
    pose proof (Hquery n w2) as Hext. rewrite Hq in Hext. cbn [snd] in Hext.
    assert (names = (query n w2).1) as -> by (rewrite Hq; reflexivity).
    eexists. split.
    + unfold marked, logged. cbn [trace set_graph set_trace].
      rewrite Hext, Ht2, <- !app_assoc. reflexivity.
    + apply (run_stale env p e fqdn query w0 ttl n w2); [exact Hp | | exact Httl].
      rewrite <- Hs. exact (res_ok _ _ _ _ Hres).
Qed.
End TemplateShape.

Lemma check_run_shape p env e w :
  exists t, trace (check p env e w).2 = trace w ++ t
            /\ check_shape p env e w (check p env e w).1 t.
Proof.
  change (wp (check p env e)
             (fun r w' => exists t, trace w' = trace w ++ t /\ check_shape p env e w r t) w).
  assert (forall fqdn keys w1,
             Asset (EvAsset e) = FQDN fqdn -> gate_open p env keys ->
             after w (gate_actions p) w1 ->
             wp (template env (plugin_of p) e fqdn (query_of p env e fqdn keys))
                (fun r w' => exists t, trace w' = trace w ++ t /\ check_shape p env e w r t) w1)
    as Hrun.
  { intros fqdn keys w1 HA Hgate Hafter.
    eapply wp_conseq.
    - apply template_run_shape; [|exact Hafter].
      intros src w'. apply (transits_performed _ _ _ (transits_query_of _ _ _ _ _ _)).
    - intros r w' (t & Ht & Hshape). exists (gate_actions p ++ t).
      split; [exact Ht|]. eapply check_run; eassumption. }
  rewrite check_template.
  destruct (Asset (EvAsset e)) as [fqdn| | | | |] eqn:HA;
    try (apply wp_ret; exists []; split; [symmetry; apply app_nil_r|];
         apply check_not_fqdn; intros ?; rewrite HA; discriminate).
  destruct (needs_credentials p) eqn:Hneeds.
  - unfold with_credentials. apply wp_bind, wp_GetDataSourceConfig. cbv beta.
    destruct (DataSourceCreds env (name (plugin_of p))) as [Creds|] eqn:HC.
    + destruct (size Creds =? 0)%nat eqn:Hlen.
      * apply wp_ret. eexists [_]. split; [reflexivity|].
        apply (check_no_credentials _ _ _ _ fqdn); [exact HA|]. split; [exact Hneeds|].
        right. rewrite HC. apply Nat.eqb_eq, map_size_empty_inv in Hlen. rewrite Hlen.
        reflexivity.
      * apply Hrun; [reflexivity | | ].
        { unfold gate_open. rewrite Hneeds. eauto. }
        { unfold gate_actions. rewrite Hneeds. apply after_logged. }
    + apply wp_ret. eexists [_]. split; [reflexivity|].
      apply (check_no_credentials _ _ _ _ fqdn); [exact HA|]. split; [exact Hneeds|].
      left. exact HC.
  - apply (Hrun fqdn []); [reflexivity | | ].
    + unfold gate_open. rewrite Hneeds. reflexivity.
    + unfold gate_actions. rewrite Hneeds. apply after_refl.
Qed.

(** X6. Every run of [check] goes one of seven ways, with its calls in a
    fixed order: it rejects a subject that is not an FQDN without any call;
    the API plugins stop after the configuration lookup when there are no
    credentials; otherwise the scope question, the source, the TTL and the
    freshness decision follow one another, then either the lookup or the query
    followed by [MarkAssetMonitored], and last [process], which is called only
    with a batch that is not empty. *)
Theorem X6_check_runs_in_pipeline_order (p : pipeline) (env : Env) (e : Event) (w : World) :
  trace (check p env e w).2 = trace w ++ performed (check p env e) w
  /\ check_shape p env e w (check p env e w).1 (performed (check p env e) w).
Proof.
  destruct (check_run_shape p env e w) as (t & Ht & Hshape).
  rewrite (performed_app _ _ _ Ht). auto.
Qed.

Section Traces.
Context (L : list Action -> Prop).
Hypothesis L_nil : L [].
Hypothesis L_app : forall t1 t2, L t1 -> L t2 -> L (t1 ++ t2).

Lemma traces_ret {A} (a : A) : traces L (ret a).
Proof. intros w. exists []. split; [symmetry; apply app_nil_r | exact L_nil]. Qed.

Lemma traces_bind {A B} (m : M A) (k : A -> M B) :
  traces L m -> (forall a, traces L (k a)) -> traces L (bind m k).
Proof.
  intros Hm Hk w. unfold bind. destruct (Hm w) as (t1 & Ht1 & HL1).
  destruct (m w) as [a w1]. destruct (Hk a w1) as (t2 & Ht2 & HL2). cbn in *.
  exists (t1 ++ t2). split; [rewrite Ht2, Ht1, app_assoc; reflexivity | auto].
Qed.

Lemma traces_if {A} (b : bool) (m1 m2 : M A) :
  traces L m1 -> traces L m2 -> traces L (if b then m1 else m2).
Proof. destruct b; auto. Qed.

Lemma traces_log a : L [a] -> traces L (log a).
Proof. intros Ha w. exists [a]. auto. Qed.

Lemma traces_IsAssetInScope env a c :
  L [ActScope a] -> traces L (IsAssetInScope env a c).
Proof. intros Ha. apply traces_bind; [apply traces_log, Ha | intros _; apply traces_ret]. Qed.

(** A request together with the acquisition of the limiter before it. *)
Lemma traces_fetch {A} env p req (k : option string -> M A) :
  (forall resp, L [ActTake (name p); ActRequest req resp]) ->
  (forall resp, traces L (k resp)) ->
  traces L (bind (Take p) (fun _ => bind (RequestWebPage env req) k)).
Proof.
  intros Hf Hk w. unfold bind, Take, log, RequestWebPage. cbn.
  match goal with |- context [k ?r ?w'] => destruct (Hk r w') as (t & Ht & HL);
    exists ([ActTake (name p); ActRequest req r] ++ t) end.
  split; [rewrite Ht; cbn; rewrite <- !app_assoc; reflexivity | auto].
Qed.

Lemma traces_transits P {A} (m : M A) :
  (forall t, Forall (fun a => P a = true) t -> L t) -> transits P m -> traces L m.
Proof. intros HP Hm w. destruct (Hm w) as [_ _ _ _ _ _ (t & Ht & HF)]. eauto. Qed.
End Traces.

Lemma rate_limited_app l t1 t2 :
  rate_limited l t1 -> rate_limited l t2 -> rate_limited l (t1 ++ t2).
Proof. induction 1; intros H2; cbn; [exact H2 | |]; constructor; auto. Qed.

Lemma rate_limited_no_retrieval l t : Forall no_retrieval t -> rate_limited l t.
Proof. induction 1 as [|a t [Ha1 Ha2] _ IH]; constructor; assumption. Qed.

Lemma rate_limited_fetched l t :
  rate_limited l t -> takes t = map (fun _ => l) (fetched t).
Proof.
  induction 1 as [|req resp t _ IH|a t Ha1 Ha2 _ IH]; cbn; [reflexivity | f_equal; exact IH|].
  destruct a; try discriminate; exact IH.
Qed.

Section RateLimited.
Context (env : Env) (l : string).

Abbreviation RL := (rate_limited l).

Lemma RL_app t1 t2 : RL t1 -> RL t2 -> RL (t1 ++ t2).
Proof. apply rate_limited_app. Qed.

Lemma RL_scope a : RL [ActScope a].
Proof. repeat constructor. Qed.

Lemma RL_fetch req resp : RL [ActTake l; ActRequest req resp].
Proof. repeat constructor. Qed.

Lemma RL_store names src p h : traces RL (support.StoreFQDNsWithSource names src p h).
Proof.
  eapply traces_transits; [|apply transits_StoreFQDNsWithSource].
  intros t Ht. apply rate_limited_no_retrieval, store_no_retrieval, Ht.
Qed.

Ltac rl_step :=
  first [ apply traces_ret; constructor
        | apply traces_IsAssetInScope; [constructor | apply RL_app | apply RL_scope]
        | apply RL_store
        | apply traces_if
        | apply traces_bind; [apply RL_app | | intros ?]
        | match goal with |- traces _ (match ?x with _ => _ end) => destruct x end ].

Lemma RL_chaos_subdomains dname subs names :
  traces RL (api.chaos_subdomains env dname subs names).
Proof.
  revert names. induction subs as [|sub rest IH]; intros names; cbn; repeat rl_step; apply IH.
Qed.

Lemma RL_chaos_keys c dname keys names :
  name c = l -> traces RL (api.chaos_keys env c dname keys names).
Proof.
  intros Hl. revert names. induction keys as [|key rest IH]; intros names; cbn [api.chaos_keys].
  - rl_step.
  - apply traces_fetch; [apply RL_app | intros; rewrite Hl; apply RL_fetch|].
    intros [Body|]; [|apply IH].
    destruct (UnmarshalSubdomains env Body); [|apply IH].
    apply traces_bind; [apply RL_app | apply RL_chaos_subdomains | intros; apply IH].
Qed.

Lemma RL_securityTrails_subdomains dname subs names :
  traces RL (api.securityTrails_subdomains env dname subs names).
Proof.
  revert names. induction subs as [|sub rest IH]; intros names; cbn; repeat rl_step; apply IH.
Qed.

Lemma RL_securityTrails_keys st dname keys names :
  name st = l -> traces RL (api.securityTrails_keys env st dname keys names).
Proof.
  intros Hl. revert names.
  induction keys as [|key rest IH]; intros names; cbn [api.securityTrails_keys].
  - rl_step.
  - apply traces_fetch; [apply RL_app | intros; rewrite Hl; apply RL_fetch|].
    intros [Body|]; [|apply IH].
    destruct (String.eqb Body EmptyString); [apply IH|].
    destruct (UnmarshalSubdomains env Body); [|apply IH].
    apply RL_securityTrails_subdomains.
Qed.

Lemma RL_crtsh_cert_names ns names : traces RL (api.crtsh_cert_names env ns names).
Proof.
  revert names. induction ns as [|n rest IH]; intros names; cbn; repeat rl_step; apply IH.
Qed.

Lemma RL_crtsh_certs certs names : traces RL (api.crtsh_certs env certs names).
Proof.
  revert names. induction certs as [|n rest IH]; intros names; cbn; [rl_step|].
  apply traces_bind; [apply RL_app | apply RL_crtsh_cert_names | intros; apply IH].
Qed.

Lemma RL_duckDuckGo_names ns subs : traces RL (scrape.duckDuckGo_names env ns subs).
Proof.
  revert subs. induction ns as [|n rest IH]; intros subs; cbn; repeat rl_step; apply IH.
Qed.

Lemma RL_siteDossier_names ns subs : traces RL (scrape.siteDossier_names env ns subs).
Proof.
  revert subs. induction ns as [|n rest IH]; intros subs; cbn; repeat rl_step; apply IH.
Qed.

End RateLimited.

Lemma RL_siteDossier_pages env sd dname i subs :
  traces (rate_limited (name sd)) (scrape.siteDossier_pages env sd dname i subs).
Proof.
  funelim (scrape.siteDossier_pages env sd dname i subs); [|apply traces_ret; constructor].
  apply traces_fetch; [apply rate_limited_app | intros; apply RL_fetch|].
  intros [Body|]; [|apply traces_ret; constructor].
  destruct (String.eqb Body EmptyString); [apply traces_ret; constructor|].
  apply traces_bind; [apply rate_limited_app | apply RL_siteDossier_names|].
  intros subs' w. apply (H tt None EmptyString subs' w).
Qed.

Lemma rate_limited_query_of p env e dname keys src :
  traces (rate_limited (name (plugin_of p))) (query_of p env e dname keys src).
Proof.
  destruct p; cbn [query_of plugin_of];
    unfold api.chaos_query, api.securityTrails_query, api.crtsh_query,
      scrape.duckDuckGo_query, scrape.siteDossier_query,
      api.chaos_store, api.securityTrails_store, api.crtsh_store,
      scrape.duckDuckGo_store, scrape.siteDossier_store.
  - apply traces_bind; [apply rate_limited_app
                        | apply RL_chaos_keys; reflexivity | intros; apply RL_store].
  - apply traces_bind; [apply rate_limited_app
                        | apply RL_securityTrails_keys; reflexivity | intros; apply RL_store].
  - apply traces_fetch; [apply rate_limited_app | intros; apply RL_fetch|].
    intros [Body|]; [|apply traces_ret; constructor].
    destruct (UnmarshalCerts _ _); [|apply traces_ret; constructor].
    apply traces_bind; [apply rate_limited_app
                        | apply RL_crtsh_certs | intros; apply RL_store].
  - apply traces_fetch; [apply rate_limited_app | intros; apply RL_fetch|].
    intros [Body|]; [|apply traces_ret; constructor].
    destruct (String.eqb Body EmptyString); [apply traces_ret; constructor|].
    apply traces_bind; [apply rate_limited_app
                        | apply RL_duckDuckGo_names | intros; apply RL_store].
  - apply traces_bind; [apply rate_limited_app
                        | apply RL_siteDossier_pages | intros; apply RL_store].
Qed.

Lemma gate_open_not_closed p env keys : gate_open p env keys -> ~ gate_closed p env.
Proof.
  unfold gate_open, gate_closed. intros Hopen [Hneeds Hclosed]. rewrite Hneeds in Hopen.
  destruct Hopen as (Creds & HC & Hlen & _).
  destruct Hclosed as [H | H]; rewrite H in HC; [discriminate|].
  injection HC as <-. discriminate.
Qed.

(** X7. [check] returns an error in three situations only: the subject is
    not an FQDN; or it is an FQDN in scope, the credential gate is
    passed, and the source node cannot be resolved or no TTL policy exists.
    Whatever the retrievals return, they never make [check] fail. *)
Theorem X7_check_fails_only_before_the_query (p : pipeline) (env : Env) (e : Event) (w : World) :
  (check p env e w).1 <> None <-> fails p env e w.
Proof.
  destruct (check_run_shape p env e w) as (t & _ & Hshape).
  split.
  - intros Herr. destruct Hshape as [Hno | fqdn HA Hclosed | fqdn keys r t HA Hgate Hrun].
    + left. exact Hno.
    + destruct Herr. reflexivity.
    + right. exists fqdn. pose proof (gate_open_not_closed _ _ _ Hgate) as Hnc.
      destruct Hrun; try (destruct Herr; reflexivity); auto 10.
  - intros [Hno | (fqdn & HA & Hnc & Hp & Hwhy)].
    + destruct Hshape as [Hno' | fqdn' HA' Hclosed | fqdn' keys r t HA' Hgate Hrun];
        [discriminate | destruct (Hno _ HA') | destruct (Hno _ HA')].
    + destruct Hshape as [Hno' | fqdn' HA' Hclosed | fqdn' keys r t HA' Hgate Hrun];
        [discriminate | contradiction |].
      assert (fqdn' = fqdn) as -> by congruence.
      destruct Hrun as [Hout | | | ttl src k _ Hok Httl | ttl src w2 _ Hok Httl];
        try discriminate; try assumption.
      * destruct (passes_not_out _ _ Hp Hout).
      * destruct Hwhy; congruence.
      * destruct Hwhy; congruence.
Qed.

Lemma emitted_no_retrieval k : Forall no_retrieval (emitted k).
Proof. destruct k; repeat constructor. Qed.

Lemma source_creation_no_retrieval psrc g : Forall no_retrieval (source_creation psrc g).
Proof. unfold source_creation. destruct (DB.FindByContent _ _); repeat constructor. Qed.

(** X8. In every run of [check], of each of the five plugins, every request
    is made immediately after the plugin's rate limiter has been taken, and
    the limiter is taken for nothing but a request. *)
Theorem X8_check_takes_the_limiter_before_each_request
        (p : pipeline) (env : Env) (e : Event) (w : World) :
  rate_limited (name (plugin_of p)) (performed (check p env e) w)
  /\ takes (performed (check p env e) w)
     = map (fun _ => name (plugin_of p)) (fetched (performed (check p env e) w)).
Proof.
  assert (rate_limited (name (plugin_of p)) (performed (check p env e) w)) as H;
    [|split; [exact H | apply rate_limited_fetched, H]].
  destruct (check_run_shape p env e w) as (t & Ht & Hshape).
  rewrite (performed_app _ _ _ Ht). clear Ht.
  destruct Hshape as [Hno | fqdn HA Hclosed | fqdn keys r t HA Hgate Hrun].
  - constructor.
  - repeat constructor.
  - apply rate_limited_app.
    { unfold gate_actions. destruct (needs_credentials p); repeat constructor. }
    destruct Hrun as [| | | ttl src k | ttl src w2]; try (repeat constructor; fail).
    + apply (rate_limited_app _ [_; _]); [repeat constructor|].
      apply rate_limited_app; [apply rate_limited_no_retrieval, source_creation_no_retrieval|].
      repeat constructor.
    + apply (rate_limited_app _ [_; _]); [repeat constructor|].
      apply rate_limited_app; [apply rate_limited_no_retrieval, source_creation_no_retrieval|].
      apply (rate_limited_app _ [_; _; _]); [repeat constructor|].
      apply rate_limited_no_retrieval, emitted_no_retrieval.
    + apply (rate_limited_app _ [_; _]); [repeat constructor|].
      apply rate_limited_app; [apply rate_limited_no_retrieval, source_creation_no_retrieval|].
      apply (rate_limited_app _ [_; _]); [repeat constructor|].
      apply rate_limited_app.
      * destruct (rate_limited_query_of p env e fqdn keys src w2) as (tq & Htq & HL).
        rewrite (performed_app _ _ _ Htq). exact HL.
      * apply (rate_limited_app _ [_]); [repeat constructor|].
        apply rate_limited_no_retrieval, emitted_no_retrieval.
Qed.

(** ** Credentials without a usable key *)

Lemma stale_run_shape env p e fqdn query w r t :
  run_shape env p e fqdn query w r t -> stale_run t ->
  exists ttl src w2,
    r = None /\ TTLPolicy env "FQDN" "FQDN" (name p) = Some ttl /\
    t = [ActScope (FQDN fqdn); ActGetSource (SourceName (source p))]
        ++ source_creation (source p) (graph w)
        ++ [ActTTL "FQDN" "FQDN" (name p);
            ActMonitored (ID (EvAsset e)) (ID src) (now w - ttl) false]
        ++ performed (query src) w2
        ++ [ActMark (ID (EvAsset e)) (ID src)]
        ++ emitted (length (query src w2).1).
Proof.
  intros Hrun (a & s & since & Hin).
  assert (forall x, x ∈ source_creation (source p) (graph w) -> x <> ActMonitored a s since false)
    as Hsc.
  { intros x Hx. unfold source_creation in Hx. destruct (DB.FindByContent _ _); [inversion Hx|].
    repeat (apply elem_of_cons in Hx as [-> | Hx]; [discriminate|]). inversion Hx. }
  destruct Hrun as [| | | ttl src k | ttl src w2]; [| | | |eauto 10].
  all: repeat (apply elem_of_cons in Hin as [Hin | Hin]; [discriminate|]).
  all: try (inversion Hin; fail).
  all: apply elem_of_app in Hin as [Hin | Hin]; [destruct (Hsc _ Hin); reflexivity|].
  all: repeat (apply elem_of_cons in Hin as [Hin | Hin]; [discriminate|]).
  all: try (inversion Hin; fail).
  destruct k; cbn in Hin; [inversion Hin|].
  apply list_elem_of_singleton in Hin. discriminate.
Qed.

Lemma stored_emitted k : stored (emitted k) = [].
Proof. destruct k; reflexivity. Qed.

(** The store step with nothing to store. *)
Lemma StoreFQDNsWithSource_nil src pl h w :
  support.StoreFQDNsWithSource [] src pl h w
  = ([], set_trace (trace w ++ [ActStore [] (ID src); ActSubmit]) w).
Proof.
  unfold support.StoreFQDNsWithSource, support.AppendToDBQueue, bind, log, get, ret. cbn.
  rewrite <- app_assoc. destruct (Done w); destruct w; reflexivity.
Qed.

(** A walk over a map visits the values of the map. *)
Lemma range_elem_of {V} before (m : gmap string V) v :
  v ∈ GoMap.range before m <-> exists k, m !! k = Some v.
Proof.
  unfold GoMap.range. rewrite list_elem_of_fmap. split.
  - intros ([k v'] & -> & Hin). rewrite merge_sort_Permutation in Hin.
    apply elem_of_map_to_list in Hin. exists k. exact Hin.
  - intros (k & Hk). exists (k, v). split; [reflexivity|].
    rewrite merge_sort_Permutation. apply elem_of_map_to_list. exact Hk.
Qed.

Lemma api_keys_nil creds :
  (forall cr, Some cr ∈ creds -> Apikey cr = EmptyString) -> api.api_keys creds = [].
Proof.
  induction creds as [|[cr|] rest IH]; intros H; cbn; [reflexivity | |].
  - rewrite (H cr) by left. cbn. apply IH. intros cr' Hin. apply H. right. exact Hin.
  - apply IH. intros cr' Hin. apply H. right. exact Hin.
Qed.

(** X10. When the configuration of an API plugin holds credentials but none
    with a usable key (every entry is nil or has an empty key), [check]
    passes the credential gate and asks the scope filter about the subject;
    it makes no request and never takes the rate limiter; and when it has to
    find the subject stale it calls the store step with an empty list, marks
    the subject as monitored, emits nothing and returns nil. *)
Theorem X10_api_check_without_usable_key_asks_nothing
        (p : pipeline) (env : Env) (e : Event) (w : World)
        (Creds : gmap string (option Credentials)) (fqdn : string) :
  needs_credentials p = true ->
  DataSourceCreds env (name (plugin_of p)) = Some Creds ->
  Creds <> ∅ ->
  (forall account cr, Creds !! account = Some (Some cr) -> Apikey cr = EmptyString) ->
  Asset (EvAsset e) = FQDN fqdn ->
  (exists t, performed (check p env e) w
             = [ActConfig (name (plugin_of p)); ActScope (FQDN fqdn)] ++ t)
  /\ Forall no_retrieval (performed (check p env e) w)
  /\ forall ttl,
      passes env fqdn -> store_ok w = true ->
      TTLPolicy env "FQDN" "FQDN" (name (plugin_of p)) = Some ttl ->
      (forall n, DB.FindByContent (graph w) (source_asset (source (plugin_of p))) = Some n ->
                 fresh_in (graph w) (EvAsset e) n (now w - ttl) = false) ->
      (check p env e w).1 = None
      /\ exists n,
          performed (check p env e) w
          = [ActConfig (name (plugin_of p)); ActScope (FQDN fqdn);
             ActGetSource (SourceName (source (plugin_of p)))]
            ++ source_creation (source (plugin_of p)) (graph w)
            ++ [ActTTL "FQDN" "FQDN" (name (plugin_of p));
                ActMonitored (ID (EvAsset e)) (ID n) (now w - ttl) false;
                ActStore [] (ID n); ActSubmit; ActMark (ID (EvAsset e)) (ID n)].
Proof.
  intros Hneeds HC Hne Hunusable HA.
  assert (api.api_keys (GoMap.range (RangeBefore env) Creds) = []) as Hkeys.
  { apply api_keys_nil. intros cr Hin. apply range_elem_of in Hin as (k & Hk).
    exact (Hunusable k cr Hk). }
  assert (gate_open p env []) as Hopen.
  { unfold gate_open. rewrite Hneeds. exists Creds. split; [exact HC|]. split; [|auto].
    apply Nat.eqb_neq. intros Hsize. apply map_size_empty_inv in Hsize. contradiction. }
  assert (gate_actions p = [ActConfig (name (plugin_of p))]) as Hga
      by (unfold gate_actions; rewrite Hneeds; reflexivity).
  destruct (check_run_shape p env e w) as (t & Ht & Hshape).
  rewrite (performed_app _ _ _ Ht).
  destruct Hshape as [Hno | fqdn' HA' Hclosed | fqdn' keys r t HA' Hgate Hrun].
  { destruct (Hno _ HA). }
  { destruct (gate_open_not_closed _ _ _ Hopen Hclosed). }
  assert (fqdn' = fqdn) as -> by congruence.
  assert (keys = []) as ->.
  { unfold gate_open in Hgate. rewrite Hneeds in Hgate.
    destruct Hgate as (Creds' & HC' & _ & ->). congruence. }
  assert (forall src w2,
             query_of p env e fqdn [] src w2
             = ([], set_trace (trace w2 ++ [ActStore [] (ID src); ActSubmit]) w2)) as Hq.
  { intros src w2.
    assert (exists pl h, query_of p env e fqdn [] src
                         = support.StoreFQDNsWithSource [] src pl h) as (pl & h & ->)
        by (exists (name (plugin_of p)), (name (plugin_of p) +:+ "-Handler");
            destruct p; try discriminate; reflexivity).
    apply StoreFQDNsWithSource_nil. }
  assert (forall src w2, performed (query_of p env e fqdn [] src) w2
                         = [ActStore [] (ID src); ActSubmit]) as Hqp.
  { intros src w2. unfold performed. rewrite Hq. cbn. apply drop_app_length. }
  rewrite Hga. split; [|split].
  - destruct Hrun; eexists; cbn; reflexivity.
  - apply (Forall_app_2 _ [_]); [repeat constructor|].
    destruct Hrun as [| | | ttl src k | ttl src w2]; try (repeat constructor; fail).
    + apply (Forall_app_2 _ [_; _]); [repeat constructor|].
      apply Forall_app_2; [apply source_creation_no_retrieval | repeat constructor].
    + apply (Forall_app_2 _ [_; _]); [repeat constructor|].
      apply Forall_app_2; [apply source_creation_no_retrieval|].
      apply (Forall_app_2 _ [_; _; _]); [repeat constructor | apply emitted_no_retrieval].
    + apply (Forall_app_2 _ [_; _]); [repeat constructor|].
      apply Forall_app_2; [apply source_creation_no_retrieval|].
      apply (Forall_app_2 _ [_; _]); [repeat constructor|].
      rewrite Hqp. repeat constructor. apply emitted_no_retrieval.
  - intros ttl Hpass Hok Httl Hstale.
    assert (wp (check p env e) (marks_fresh (plugin_of p) e fqdn w (gate_actions p) ttl) w)
      as (_ & _ & _ & n & tq & k & Ht' & _).
    { eapply (check_open _ _ _ _ _ _ _ HA Hopen). intros w1 Hafter.
      eapply template_marks_fresh.
      - apply transits_query_of.
      - exact Hafter.
      - exact Hpass.
      - rewrite (aft_store _ _ _ Hafter). exact Hok.
      - exact Httl.
      - rewrite (aft_graph _ _ _ Hafter), (aft_now _ _ _ Hafter). exact Hstale. }
    rewrite Ht in Ht'. apply app_inv_head in Ht'. rewrite Hga in Ht'.
    injection Ht' as Ht'.
    assert (stale_run t) as Hst.
    { exists (ID (EvAsset e)), (ID n), (now w - ttl). rewrite Ht'.
      do 2 apply list_elem_of_further. rewrite elem_of_app.
      right. apply list_elem_of_further, list_elem_of_here. }
    destruct (stale_run_shape _ _ _ _ _ _ _ _ Hrun Hst) as (ttl' & src & w2 & -> & Httl' & ->).
    assert (ttl' = ttl) as -> by congruence.
    split; [reflexivity|].
    exists src. rewrite Hqp, Hq. cbn. rewrite <- ?app_assoc. reflexivity.
Qed.

Lemma X10_witness :
  (needs_credentials Chaos = true
   /\ DataSourceCreds Scenario.keyless (name (plugin_of Chaos))
      = Some {[ "account1" := None; "account2" := Some {| Apikey := EmptyString |} ]}
   /\ TTLPolicy Scenario.keyless "FQDN" "FQDN" (name (plugin_of Chaos)) = Some 1440
   /\ DB.FindByContent (graph Scenario.start) (source_asset (source (plugin_of Chaos))) = None)
  /\ Forall no_retrieval (performed (check Chaos Scenario.keyless Scenario.event) Scenario.start)
  /\ (check Chaos Scenario.keyless Scenario.event Scenario.start).1 = None
  /\ exists n,
      performed (check Chaos Scenario.keyless Scenario.event) Scenario.start
      = [ActConfig "Chaos"; ActScope (FQDN "example.com"); ActGetSource "Chaos"]
        ++ [ActSubmit; ActDB (CallCreate None EmptyString (SourceAsset "Chaos" 80))]
        ++ [ActTTL "FQDN" "FQDN" "Chaos"; ActMonitored 1 (ID n) 8560 false;
            ActStore [] (ID n); ActSubmit; ActMark 1 (ID n)].
Proof.
  split; [repeat split|].
  destruct (X10_api_check_without_usable_key_asks_nothing Chaos Scenario.keyless Scenario.event
              Scenario.start
              {[ "account1" := None; "account2" := Some {| Apikey := EmptyString |} ]}
              "example.com")
    as (_ & Hn & Hrun).
  - reflexivity.
  - reflexivity.
  - intros H. apply (f_equal (fun m => m !! "account1")) in H. vm_compute in H. discriminate.
  - intros account cr H.
    destruct (decide (account = "account1")) as [-> | H1].
    { vm_compute in H. discriminate. }
    destruct (decide (account = "account2")) as [-> | H2].
    { vm_compute in H. injection H as <-. reflexivity. }
    rewrite lookup_insert_ne, lookup_singleton_ne in H by congruence. discriminate.
  - reflexivity.
  - split; [exact Hn|].
    apply (Hrun 1440).
    + exists "example.com", 50. split; [reflexivity|]. split; [lia | reflexivity].
    + reflexivity.
    + reflexivity.
    + intros n Hfound. discriminate Hfound.
Defined.

(** ** What the RDAP autnum lookup asks for and reports *)

Lemma OutgoingRelations_spec g a since rtypes rel :
  rel ∈ default [] (DB.OutgoingRelations g a since rtypes)
  <-> rel ∈ rels g /\ FromAsset rel = ID a /\ DB.type_wanted rtypes rel = true.
Proof.
  unfold DB.OutgoingRelations.
  match goal with |- context [filter ?P (rels g)] =>
    set (l := filter P (rels g));
    assert (rel ∈ l <-> P rel /\ rel ∈ rels g) as Hl by exact (list_elem_of_filter P (rels g) rel) end.
  assert (rel ∈ default [] (match l with [] => None | r0 :: l0 => Some (r0 :: l0) end)
          <-> rel ∈ l) as -> by (destruct l; reflexivity).
  rewrite Hl. unfold Is_true.
  destruct (FromAsset rel =? ID a)%nat eqn:H1; cbn.
  2: { apply Nat.eqb_neq in H1. split; [intros [[] _] | intros (_ & ? & _); contradiction]. }
  apply Nat.eqb_eq in H1.
  destruct (DB.type_wanted rtypes rel); cbn; [tauto|].
  split; [intros [[] _] | intros (_ & _ & ?); discriminate].
Qed.

Lemma type_wanted_one t rel : DB.type_wanted [t] rel = true <-> RelType rel = t.
Proof. cbn. rewrite orb_false_r. apply String.eqb_eq. Qed.

Lemma oneOfSources_run asset src since w :
  rdap.autnum_oneOfSources asset src since w
  = ((rdap.autnum_oneOfSources asset src since w).1,
     logged (ActDB (CallOutgoingRelations (ID asset) since ["source"])) w)
  /\ ((rdap.autnum_oneOfSources asset src since w).1 = true
      <-> linked (graph w) "source" (ID asset) (ID src)).
Proof.
  unfold rdap.autnum_oneOfSources, bind, SessionDB.OutgoingRelations, log, get.
  cbn -[Nat.ltb DB.OutgoingRelations].
  pose proof (fun rel => OutgoingRelations_spec (graph w) asset since ["source"] rel) as Hspec.
  destruct (DB.OutgoingRelations (graph w) asset since ["source"]) as [rs|];
    cbn -[Nat.ltb DB.type_wanted] in *.
  - destruct (0 <? length rs)%nat eqn:Hlen; cbn.
    + split; [reflexivity|]. rewrite existsb_exists. unfold linked. split.
      * intros (rel & Hin & Hto). apply Nat.eqb_eq in Hto.
        apply list_elem_of_In, Hspec in Hin as (Hin & Hfrom & Ht).
        apply type_wanted_one in Ht. eauto 10.
      * intros (rel & Hin & Ht & Hfrom & Hto). exists rel.
        split; [|apply Nat.eqb_eq; exact Hto].
        apply list_elem_of_In, Hspec. rewrite type_wanted_one. auto.
    + split; [reflexivity|]. split; [discriminate|].
      intros (rel & Hin & Ht & Hfrom & Hto).
      assert (rel ∈ rs) as Hrel by (apply Hspec; rewrite type_wanted_one; auto).
      destruct rs; [inversion Hrel | discriminate].
  - split; [reflexivity|]. split; [discriminate|].
    intros (rel & Hin & Ht & Hfrom & Hto).
    assert (rel ∈ []) as Hrel by (apply Hspec; rewrite type_wanted_one; auto).
    inversion Hrel.
Qed.

(** X11. [autnum.oneOfSources] answers true exactly when the graph holds a
    [source] edge from the asset to the source node, whenever that edge was
    seen: it passes the threshold to the store, which does not look at it.
    It makes one read of the graph and changes nothing. *)
Theorem X11_autnum_oneOfSources_finds_the_source_edge
        (asset src : Entity) (since : Time) (w : World) :
  ((rdap.autnum_oneOfSources asset src since w).1 = true
   <-> exists rel, rel ∈ rels (graph w) /\ RelType rel = "source"
                   /\ FromAsset rel = ID asset /\ ToAsset rel = ID src)
  /\ (rdap.autnum_oneOfSources asset src since w).2
     = logged (ActDB (CallOutgoingRelations (ID asset) since ["source"])) w.
Proof.
  destruct (oneOfSources_run asset src since w) as [Hrun Hiff].
  split; [exact Hiff | rewrite Hrun; reflexivity].
Qed.

Lemma threshold_cons env r m t a rest x :
  threshold env r m t (a :: rest) x
  = if bool_decide (x = a) && IsMatch m a
    then (fun ttl => t - ttl) <$> TTLPolicy env "AutnumRecord" a (name (rdap.rplugin r))
    else threshold env r m t rest x.
Proof.
  unfold threshold. destruct (decide (x = a)) as [-> | Hx].
  - rewrite (bool_decide_eq_true_2 (a = a)) by reflexivity.
    rewrite (bool_decide_eq_true_2 (a ∈ a :: rest)) by left. cbn.
    destruct (IsMatch m a); [reflexivity|]. rewrite andb_false_r. reflexivity.
  - rewrite (bool_decide_eq_false_2 (x = a)) by exact Hx. cbn.
    destruct (bool_decide (x ∈ a :: rest)) eqn:H1, (bool_decide (x ∈ rest)) eqn:H2;
      try reflexivity.
    + apply bool_decide_eq_true_1, elem_of_cons in H1 as [? | H1]; [contradiction|].
      apply bool_decide_eq_false_1 in H2. contradiction.
    + apply bool_decide_eq_true_1 in H2. apply bool_decide_eq_false_1 in H1.
      destruct H1. right. exact H2.
Qed.

Lemma relation_types_app rtypes a :
  (if String.eqb a "URL" then rtypes ++ ["rdap_url"]
   else if String.eqb a "FQDN" then rtypes ++ ["whois_server"]
   else if String.eqb a "ContactRecord"
        then rtypes ++ ["registrant"; "admin_contact"; "abuse_contact"; "technical_contact"]
        else rtypes)
  = rtypes ++ relation_types a.
Proof.
  unfold relation_types.
  destruct (String.eqb a "URL"); [reflexivity|].
  destruct (String.eqb a "FQDN"); [reflexivity|].
  destruct (String.eqb a "ContactRecord"); [reflexivity|].
  symmetry. apply app_nil_r.
Qed.

Lemma autnum_lookup_transforms_run env r m atypes rtypes sinces w :
  exists sinces',
    rdap.autnum_lookup_transforms env r m atypes rtypes sinces w
    = ((rtypes ++ concat (map relation_types (List.filter (covered env r m) atypes)), sinces'),
       set_trace (trace w ++ map (fun atype => ActTTL "AutnumRecord" atype (name (rdap.rplugin r)))
                                 (List.filter (IsMatch m) atypes)) w)
    /\ forall atype, sinces' !! atype
                     = match threshold env r m (now w) atypes atype with
                       | Some since => Some since
                       | None => sinces !! atype
                       end.
Proof.
  revert rtypes sinces w. induction atypes as [|a rest IH]; intros rtypes sinces w.
  - exists sinces. cbn. rewrite !app_nil_r. split; [destruct w; reflexivity | reflexivity].
  - cbn [rdap.autnum_lookup_transforms List.filter].
    destruct (IsMatch m a) eqn:Hm; cbn [negb].
    2: { assert (covered env r m a = false) as -> by (unfold covered; rewrite Hm; reflexivity).
         destruct (IH rtypes sinces w) as (s' & -> & Hs'). exists s'. split; [reflexivity|].
         intros x. rewrite Hs', threshold_cons, Hm, andb_false_r. reflexivity. }
    unfold bind, support.TTLStartTime, log. cbn -[rdap.autnum_lookup_transforms].
    destruct (TTLPolicy env "AutnumRecord" a (name (rdap.rplugin r))) as [ttl|] eqn:Httl;
      cbn -[rdap.autnum_lookup_transforms].
    + assert (covered env r m a = true) as ->
          by (unfold covered; rewrite Hm, Httl; reflexivity).
      rewrite relation_types_app.
      match goal with |- context [rdap.autnum_lookup_transforms env r m rest ?rt ?s ?w'] =>
        destruct (IH rt s w') as (s' & -> & Hs') end.
      exists s'. split.
      * cbn [trace set_trace map concat]. rewrite set_trace_twice, <- !app_assoc. reflexivity.
      * intros x. rewrite Hs', threshold_cons, Hm, Httl. cbn [now set_trace].
        rewrite andb_true_r. case_bool_decide as Hx; cbn.
        { subst x. destruct (threshold env r m (now w) rest a) as [since|] eqn:Hrest.
          - unfold threshold in Hrest. destruct (_ && _); [|discriminate].
            rewrite Httl in Hrest. symmetry. exact Hrest.
          - apply lookup_insert_eq. }
        destruct (threshold env r m (now w) rest x); [reflexivity|].
        apply lookup_insert_ne. congruence.
    + assert (covered env r m a = false) as ->
          by (unfold covered; rewrite Hm, Httl; reflexivity).
      match goal with |- context [rdap.autnum_lookup_transforms env r m rest ?rt ?s ?w'] =>
        destruct (IH rt s w') as (s' & -> & Hs') end.
      exists s'. split.
      * cbn [trace set_trace map]. rewrite set_trace_twice, <- !app_assoc. reflexivity.
      * intros x. rewrite Hs', threshold_cons, Hm, Httl. cbn [now set_trace].
        rewrite andb_true_r. case_bool_decide as Hx; cbn; [|reflexivity].
        subst x. destruct (threshold env r m (now w) rest a) as [since|] eqn:Hrest; [|reflexivity].
        unfold threshold in Hrest. destruct (_ && _); [|discriminate].
        rewrite Httl in Hrest. discriminate.
Qed.

Lemma FindById_Some g id a : DB.FindById g id = Some a -> a ∈ nodes g /\ ID a = id.
Proof.
  unfold DB.FindById. intros H. apply find_some in H as [Hin Hid].
  split; [apply list_elem_of_In, Hin | apply Nat.eqb_eq, Hid].
Qed.

Lemma reported_weaken g asset src (sinces : gmap string Time) rs rel fs :
  Forall (fun f => reported g asset src (fun atype => sinces !! atype) f
                   /\ exists r0, r0 ∈ rs /\ Rel f = RelType r0
                                                              /\ ToAsset r0 = ID (To f)) fs ->
  Forall (fun f => reported g asset src (fun atype => sinces !! atype) f
                   /\ exists r0, r0 ∈ rel :: rs /\ Rel f = RelType r0
                                                              /\ ToAsset r0 = ID (To f)) fs.
Proof.
  intros H. eapply Forall_impl; [exact H|]. intros f [Hrep (r0 & Hin & Hr)].
  split; [exact Hrep|]. exists r0. split; [right; exact Hin | exact Hr].
Qed.

Lemma autnum_lookup_rels_run asset src sinces rs fs w :
  Forall (fun rel => linked (graph w) (RelType rel) (ID asset) (ToAsset rel)) rs ->
  exists t new,
    rdap.autnum_lookup_rels asset src sinces rs fs w = (fs ++ new, set_trace (trace w ++ t) w)
    /\ Forall (fun a => is_read a = true) t
    /\ Forall (fun f => reported (graph w) asset src (fun atype => sinces !! atype) f
                        /\ exists rel, rel ∈ rs /\ Rel f = RelType rel
                                       /\ ToAsset rel = ID (To f)) new.
Proof.
  revert fs w. induction rs as [|rel rest IH]; intros fs w Hrs.
  - exists [], []. cbn. rewrite !app_nil_r. destruct w. repeat split; constructor.
  - apply Forall_cons in Hrs as [Hrel Hrest].
    cbn [rdap.autnum_lookup_rels]. unfold bind at 1, SessionDB.FindById, bind, log, get.
    cbn -[rdap.autnum_lookup_rels rdap.autnum_oneOfSources String.append].
    set (w1 := set_trace (trace w ++ [ActDB (CallFindById (ToAsset rel))]) w).
    assert (forall fs' new' (w2 : World) r1,
               trace w2 = trace w ++ r1 -> Forall (fun a => is_read a = true) r1 ->
               graph w2 = graph w -> (forall t2, set_trace t2 w2 = set_trace t2 w) ->
               Forall (fun f => reported (graph w) asset src (fun atype => sinces !! atype) f
                                /\ exists r0, r0 ∈ rel :: rest /\ Rel f = RelType r0
                                              /\ ToAsset r0 = ID (To f)) new' ->
               fs' = fs ++ new' ->
               exists t new,
                 rdap.autnum_lookup_rels asset src sinces rest fs' w2
                 = (fs ++ new, set_trace (trace w ++ t) w)
                 /\ Forall (fun a => is_read a = true) t
                 /\ Forall (fun f => reported (graph w) asset src (fun atype => sinces !! atype) f
                                     /\ exists r0, r0 ∈ rel :: rest /\ Rel f = RelType r0
                                                   /\ ToAsset r0 = ID (To f)) new) as Hgo.
    { intros fs' new' w2 r1 Ht2 Hr1 Hg2 Hset Hnew ->.
      destruct (IH (fs ++ new') w2) as (t & new & -> & Ht & Hn).
      { rewrite Hg2. exact Hrest. }
      exists (r1 ++ t), (new' ++ new). split; [|split].
      - rewrite Hset, Ht2, <- !app_assoc. reflexivity.
      - apply Forall_app_2; assumption.
      - apply Forall_app_2; [exact Hnew|]. rewrite Hg2 in Hn.
        apply reported_weaken. exact Hn. }
    assert (forall w2 r1,
               trace w2 = trace w ++ r1 -> Forall (fun a => is_read a = true) r1 ->
               graph w2 = graph w -> (forall t2, set_trace t2 w2 = set_trace t2 w) ->
               exists t new,
                 rdap.autnum_lookup_rels asset src sinces rest fs w2
                 = (fs ++ new, set_trace (trace w ++ t) w)
                 /\ Forall (fun a => is_read a = true) t
                 /\ Forall (fun f => reported (graph w) asset src (fun atype => sinces !! atype) f
                                     /\ exists r0, r0 ∈ rel :: rest /\ Rel f = RelType r0
                                                   /\ ToAsset r0 = ID (To f)) new) as Hskip.
    { intros w2 r1 Ht2 Hr1 Hg2 Hset.
      apply (Hgo fs [] w2 r1 Ht2 Hr1 Hg2 Hset); [constructor|].
      symmetry. apply app_nil_r. }
    destruct (DB.FindById (graph w) (ToAsset rel)) as [a|] eqn:Hfind.
    2: { apply (Hskip w1 [ActDB (CallFindById (ToAsset rel))]);
           [reflexivity | repeat constructor | reflexivity | reflexivity]. }
    apply FindById_Some in Hfind as [Hin Hid].
    destruct (sinces !! AssetType (Asset a)) as [since|] eqn:Hsince.
    2: { apply (Hskip w1 [ActDB (CallFindById (ToAsset rel))]);
           [reflexivity | repeat constructor | reflexivity | reflexivity]. }
    destruct (Before (LastSeen a) since) eqn:Hbefore.
    { apply (Hskip w1 [ActDB (CallFindById (ToAsset rel))]);
        [reflexivity | repeat constructor | reflexivity | reflexivity]. }
    destruct (oneOfSources_run a src since w1) as [Hrun Hiff].
    destruct (rdap.autnum_oneOfSources a src since w1) as [one w2].
    cbn [fst] in Hrun, Hiff. injection Hrun as Hw2.
    set (reads := [ActDB (CallFindById (ToAsset rel));
                   ActDB (CallOutgoingRelations (ID a) since ["source"])]).
    assert (trace w2 = trace w ++ reads) as Ht2
        by (rewrite Hw2; cbn; rewrite <- app_assoc; reflexivity).
    assert (graph w2 = graph w) as Hg2 by (rewrite Hw2; reflexivity).
    assert (forall t2, set_trace t2 w2 = set_trace t2 w) as Hset by (rewrite Hw2; reflexivity).
    assert (Forall (fun a => is_read a = true) reads) as Hreads by (repeat constructor).
    destruct one; cbn [negb].
    2: { apply (Hskip w2 reads); assumption. }
    assert (linked (graph w) "source" (ID a) (ID src)) as Hsrc by (apply Hiff; reflexivity).
    assert (since <= LastSeen a) as Hle by (unfold Before in Hbefore; lia).
    assert (forall nm,
               match Asset a with
               | FQDN Name => nm = Name
               | ContactRecord DiscoveredAt => nm = "ContactRecord: " +:+ DiscoveredAt
               | URL Raw => nm = Raw
               | _ => False
               end ->
               exists t new,
                 rdap.autnum_lookup_rels asset src sinces rest
                   (fs ++ [{| From := asset;
                              FromName := "AutnumRecord: " +:+ rdap.Handle_of (Asset asset);
                              To := a; ToName := nm; Rel := RelType rel |}]) w2
                 = (fs ++ new, set_trace (trace w ++ t) w)
                 /\ Forall (fun a => is_read a = true) t
                 /\ Forall (fun f => reported (graph w) asset src (fun atype => sinces !! atype) f
                                     /\ exists r0, r0 ∈ rel :: rest /\ Rel f = RelType r0
                                                   /\ ToAsset r0 = ID (To f)) new) as Hadd.
    { intros nm Hnm. eapply (Hgo _ [_] w2 reads); try eassumption; [|reflexivity].
      repeat constructor; cbn; try assumption.
      - rewrite Hid. exact Hrel.
      - exists since. auto.
      - exists rel. split; [left | auto]. }
    destruct (Asset a) eqn:HA; try (apply (Hskip w2 reads); assumption);
      apply Hadd; reflexivity.
Qed.

Lemma autnum_lookup_mutation_run asset src rtypes (sinces : gmap string Time) w :
  exists fs reads,
    rdap.autnum_lookup_mutation asset src rtypes sinces w
    = (fs,
       set_trace (trace w ++ if Done w then []
                             else ActDB (CallOutgoingRelations (ID asset) zero_time rtypes)
                                  :: reads) w)
    /\ Forall (fun a => is_read a = true) reads
    /\ Forall (reported (graph w) asset src (fun atype => sinces !! atype)) fs.
Proof.
  unfold rdap.autnum_lookup_mutation, bind at 1, get. cbn [fst snd].
  destruct (Done w) eqn:Hdone.
  { exists [], []. cbn. rewrite app_nil_r. destruct w. repeat split; constructor. }
  unfold bind, SessionDB.OutgoingRelations, log, get.
  cbn -[Nat.ltb DB.OutgoingRelations rdap.autnum_lookup_rels].
  pose proof (fun rel => OutgoingRelations_spec (graph w) asset zero_time rtypes rel) as Hspec.
  set (w1 := set_trace (trace w ++ [ActDB (CallOutgoingRelations (ID asset) zero_time rtypes)]) w).
  destruct (DB.OutgoingRelations (graph w) asset zero_time rtypes) as [rs|]; cbn [default] in Hspec.
  2: { exists [], []. cbn. repeat split; constructor. }
  destruct (0 <? length rs)%nat.
  2: { exists [], []. cbn. repeat split; constructor. }
  destruct (autnum_lookup_rels_run asset src sinces rs [] w1) as (t & new & -> & Ht & Hnew).
  { apply Forall_forall. intros rel Hin. apply Hspec in Hin as (Hin & Hfrom & _).
    exists rel. cbn. auto 10. }
  exists new, t. cbn [fst snd app]. split; [|split; [exact Ht|]].
  - cbn. rewrite <- app_assoc. reflexivity.
  - eapply Forall_impl; [exact Hnew|]. intros f [Hrep _]. exact Hrep.
Qed.

(** X12. [autnum.lookup] asks for the TTL of every evidence kind the
    configuration matches, in the order of the handler's transforms, submits
    one closure to the queue and, unless the session is done, reads the edges
    that leave the asset, of the relation types of the kinds that have a TTL
    policy; after that it only reads the graph. *)
Theorem X12_autnum_lookup_asks_for_the_covered_kinds
        (env : Env) (r : rdap.autnum) (e : Event) (asset src : Entity) (m : Matches) (w : World) :
  exists reads,
    performed (rdap.autnum_lookup env r e asset src m) w
    = map (fun atype => ActTTL "AutnumRecord" atype (name (rdap.rplugin r)))
          (List.filter (IsMatch m) (rdap.transforms r))
      ++ [ActSubmit]
      ++ (if Done w then []
          else ActDB (CallOutgoingRelations (ID asset) zero_time
                        (concat (map relation_types
                                     (List.filter (covered env r m) (rdap.transforms r)))))
               :: reads)
    /\ Forall (fun a => is_read a = true) reads.
Proof.
  unfold rdap.autnum_lookup, bind.
  destruct (autnum_lookup_transforms_run env r m (rdap.transforms r) [] ∅ w) as (sinces & Hrun & _).
  unfold performed, bind. rewrite Hrun. cbn [app].
  unfold support.AppendToDBQueue, bind, log. cbn [fst snd trace set_trace].
  match goal with |- context [rdap.autnum_lookup_mutation asset src ?rt sinces ?w'] =>
    destruct (autnum_lookup_mutation_run asset src rt sinces w') as (fs & reads & -> & Hreads & _) end.
  exists reads. split; [|exact Hreads].
  cbn [snd trace set_trace Done]. rewrite <- !app_assoc, drop_app_length. reflexivity.
Qed.

Lemma autnum_lookup_attested
        (env : Env) (r : rdap.autnum) (e : Event) (asset src : Entity) (m : Matches) (w : World) :
  graph (rdap.autnum_lookup env r e asset src m w).2 = graph w
  /\ findings (rdap.autnum_lookup env r e asset src m w).2 = findings w
  /\ Forall (reported (graph w) asset src (threshold env r m (now w) (rdap.transforms r)))
            (rdap.autnum_lookup env r e asset src m w).1.
Proof.
  unfold rdap.autnum_lookup, bind.
  destruct (autnum_lookup_transforms_run env r m (rdap.transforms r) [] ∅ w)
    as (sinces & Hrun & Hsinces).
  rewrite Hrun. unfold support.AppendToDBQueue, bind, log. cbn [fst snd].
  match goal with |- context [rdap.autnum_lookup_mutation asset src ?rt sinces ?w'] =>
    destruct (autnum_lookup_mutation_run asset src rt sinces w') as (fs & reads & -> & _ & Hrep)
  end.
  cbn. split; [reflexivity|]. split; [reflexivity|].
  eapply Forall_impl; [exact Hrep|]. intros f [H1 H2 H3 H4 H5 (since & H6 & H7) H8].
  split; try assumption. exists since. split; [|exact H7].
  rewrite Hsinces in H6. rewrite lookup_empty in H6.
  destruct (threshold env r m (now w) (rdap.transforms r) (AssetType (Asset (To f))));
    [exact H6 | discriminate].
Qed.

(** X13. [autnum.lookup] leaves the graph and the findings of the session as
    they are, and every finding it returns is about a node of the graph that
    an edge links to the AutnumRecord, that is a URL, an FQDN or a contact
    record, whose kind the configuration matches and has a TTL policy for,
    that was itself last seen within that TTL and that a [source] edge, of
    whatever age, attributes to the plugin's source. *)
Theorem X13_autnum_lookup_reports_what_the_source_attested
        (env : Env) (r : rdap.autnum) (e : Event) (asset src : Entity) (m : Matches) (w : World) :
  graph (rdap.autnum_lookup env r e asset src m w).2 = graph w
  /\ findings (rdap.autnum_lookup env r e asset src m w).2 = findings w
  /\ Forall (reported (graph w) asset src (threshold env r m (now w) (rdap.transforms r)))
            (rdap.autnum_lookup env r e asset src m w).1.
Proof. apply autnum_lookup_attested. Qed.

(** X14. When none of the handler's evidence kinds has a TTL policy,
    [autnum.lookup] returns no finding. *)
Theorem X14_autnum_lookup_without_ttl_policy_finds_nothing
        (env : Env) (r : rdap.autnum) (e : Event) (asset src : Entity) (m : Matches) (w : World) :
  (forall atype, atype ∈ rdap.transforms r ->
                 TTLPolicy env "AutnumRecord" atype (name (rdap.rplugin r)) = None) ->
  (rdap.autnum_lookup env r e asset src m w).1 = [].
Proof.
  intros Hnone.
  unfold rdap.autnum_lookup, bind.
  destruct (autnum_lookup_transforms_run env r m (rdap.transforms r) [] ∅ w)
    as (sinces & Hrun & Hsinces).
  rewrite Hrun. unfold support.AppendToDBQueue, bind, log. cbn [fst snd].
  match goal with |- context [rdap.autnum_lookup_mutation asset src ?rt sinces ?w'] =>
    destruct (autnum_lookup_mutation_run asset src rt sinces w') as (fs & reads & -> & _ & Hrep)
  end.
  cbn. destruct fs as [|f fs]; [reflexivity|].
  apply Forall_cons in Hrep as [[_ _ _ _ _ (since & Hs & _) _] _].
  rewrite Hsinces, lookup_empty in Hs. unfold threshold in Hs.
  destruct (bool_decide (AssetType (Asset (To f)) ∈ rdap.transforms r)) eqn:Hin;
    [|discriminate].
  apply bool_decide_eq_true_1 in Hin. rewrite (Hnone _ Hin) in Hs.
  destruct (IsMatch m _); discriminate.
Qed.

Lemma X14_witness :
  ((forall atype, atype ∈ rdap.transforms Scenario.autnum_handler ->
                  TTLPolicy (Scenario.env None) "AutnumRecord" atype
                    (name (rdap.rplugin Scenario.autnum_handler)) = None)
   /\ (rdap.autnum_lookup (Scenario.env (Some 1440)) Scenario.autnum_handler
         Scenario.autnum_event Scenario.autnum_subject Scenario.rdap_source ["URL"; "FQDN"]
         Scenario.autnum_linked).1
      = [whois_server_finding Scenario.autnum_subject Scenario.whois_node])
  /\ (rdap.autnum_lookup (Scenario.env None) Scenario.autnum_handler Scenario.autnum_event
        Scenario.autnum_subject Scenario.rdap_source ["URL"; "FQDN"] Scenario.autnum_linked).1
     = [].
Proof.
  split; [split; [reflexivity | vm_compute; reflexivity]|].
  apply (X14_autnum_lookup_without_ttl_policy_finds_nothing (Scenario.env None)
           Scenario.autnum_handler Scenario.autnum_event Scenario.autnum_subject
           Scenario.rdap_source ["URL"; "FQDN"] Scenario.autnum_linked).
  reflexivity.
Defined.

(** ** What the RDAP autnum store persists *)

Lemma nodes_Link g t a r b : nodes (DB.Link g t a r b) = nodes g.
Proof. unfold DB.Link. destruct (existsb _ _); reflexivity. Qed.

Lemma edge_linked g t a b since : edge g t a b since -> linked g t a b.
Proof. intros (rel & Hin & Ht & Ha & Hb & _). exists rel. auto. Qed.

Lemma edge_Link g now a t b since :
  since <= now -> edge (DB.Link g now a t b) t (ID a) (ID b) since.
Proof.
  intros Hle. unfold edge, DB.Link.
  destruct (existsb (DB.same_edge t (ID a) (ID b)) (rels g)) eqn:Hex; cbn.
  - apply existsb_exists in Hex as (r & Hin & Hr).
    exists (DB.refresh t (ID a) (ID b) now r).
    split; [apply list_elem_of_In, in_map, Hin|].
    unfold DB.refresh. rewrite Hr. cbn.
    unfold DB.same_edge in Hr. apply andb_true_iff in Hr as [Hr Hb].
    apply andb_true_iff in Hr as [Ht Ha].
    apply String.eqb_eq in Ht. apply Nat.eqb_eq in Ha. apply Nat.eqb_eq in Hb. auto.
  - eexists. split; [apply elem_of_app; right; apply list_elem_of_here|]. cbn. auto.
Qed.

Lemma edge_Link_kept g now x t' y t a b since :
  edge g t a b since -> since <= now -> edge (DB.Link g now x t' y) t a b since.
Proof.
  intros (r & Hin & Ht & Ha & Hb & Hs) Hle. unfold edge, DB.Link.
  destruct (existsb _ _); cbn.
  - exists (DB.refresh t' (ID x) (ID y) now r).
    split; [apply list_elem_of_In, in_map, list_elem_of_In, Hin|].
    unfold DB.refresh. destruct (DB.same_edge _ _ _ r); cbn; auto.
  - exists r. split; [apply elem_of_app; left; exact Hin | auto].
Qed.

Lemma fresh_id_new g : DB.fresh_id g ∉ map ID (nodes g).
Proof.
  intros Hin. apply list_elem_of_In, in_map_iff in Hin as (n & Hid & Hn).
  destruct (fresh_id_spec g) as [H _]. rewrite Forall_forall in H.
  apply list_elem_of_In in Hn. specialize (H n Hn). cbv beta in H. lia.
Qed.

Lemma find_id_unique (l : list Entity) n :
  NoDup (map ID l) -> n ∈ l -> find (fun x => (ID x =? ID n)%nat) l = Some n.
Proof.
  induction l as [|x l IH]; intros Hnd Hin; [inversion Hin|]. cbn in *.
  apply NoDup_cons in Hnd as [Hx Hnd].
  apply elem_of_cons in Hin as [-> | Hin]; [rewrite Nat.eqb_refl; reflexivity|].
  destruct (ID x =? ID n)%nat eqn:E; [|apply IH; assumption].
  apply Nat.eqb_eq in E. destruct Hx. rewrite E.
  apply list_elem_of_In, in_map, list_elem_of_In, Hin.
Qed.

Lemma find_app_miss {A} (f : A -> bool) l x :
  f x = false -> find f (l ++ [x]) = find f l.
Proof.
  intros Hx. induction l as [|y l IH]; cbn; [rewrite Hx; reflexivity|].
  destruct (f y); [reflexivity | exact IH].
Qed.

(** What [Create] leaves behind: a node it finds stays as it is. *)
Lemma Create_spec g now parent t c :
  exists a g',
    DB.Create g now parent t c = (a, g')
    /\ Asset a = c
    /\ match DB.FindByContent g c with Some n => a = n | None => LastSeen a = now end
    /\ DB.FindByContent g' c = Some a
    /\ a ∈ nodes g'
    /\ (forall x, x ∈ nodes g -> x ∈ nodes g')
    /\ (forall c', c' <> c -> DB.FindByContent g' c' = DB.FindByContent g c')
    /\ (distinct_ids g -> distinct_ids g' /\ DB.FindById g' (ID a) = Some a)
    /\ (forall p since, parent = Some p -> since <= now -> edge g' t (ID p) (ID a) since)
    /\ (forall t0 x y since, edge g t0 x y since -> since <= now -> edge g' t0 x y since).
Proof.
  unfold DB.Create.
  assert (exists a g1,
             match DB.FindByContent g c with
             | Some n => (n, g)
             | None =>
                 ({| ID := DB.fresh_id g; Asset := c; LastSeen := now |},
                  {| nodes := nodes g ++ [{| ID := DB.fresh_id g; Asset := c; LastSeen := now |}];
                     rels := rels g |})
             end = (a, g1)
             /\ Asset a = c
             /\ match DB.FindByContent g c with Some n => a = n | None => LastSeen a = now end
             /\ DB.FindByContent g1 c = Some a
             /\ a ∈ nodes g1
             /\ (forall x, x ∈ nodes g -> x ∈ nodes g1)
             /\ (forall c', c' <> c -> DB.FindByContent g1 c' = DB.FindByContent g c')
             /\ (distinct_ids g -> distinct_ids g1 /\ DB.FindById g1 (ID a) = Some a)
             /\ rels g1 = rels g)
    as (a & g1 & -> & HA & Hseen & Hfound & Hin & Hnodes & Hother & Hids & Hrels).
  { destruct (DB.FindByContent g c) as [n|] eqn:Hfind.
    - exists n, g. split; [reflexivity|].
      pose proof Hfind as Hf. unfold DB.FindByContent in Hf. apply find_some in Hf as [Hn HAn].
      apply bool_decide_eq_true_1 in HAn. apply list_elem_of_In in Hn.
      split; [exact HAn|]. split; [reflexivity|]. split; [exact Hfind|]. split; [exact Hn|].
      split; [auto|]. split; [auto|]. split; [|reflexivity].
      intros Hnd. split; [exact Hnd|]. apply find_id_unique; assumption.
    - set (a := {| ID := DB.fresh_id g; Asset := c; LastSeen := now |}).
      exists a, {| nodes := nodes g ++ [a]; rels := rels g |}. split; [reflexivity|].
      split; [reflexivity|]. split; [reflexivity|].
      split; [apply find_app_None; [exact Hfind | apply bool_decide_eq_true_2; reflexivity]|].
      split; [apply elem_of_app; right; apply list_elem_of_here|].
      split; [intros x Hx; apply elem_of_app; left; exact Hx|].
      split; [intros c' Hne; apply find_app_miss, bool_decide_eq_false_2; cbn; congruence|].
      split; [|reflexivity].
      intros Hnd.
      assert (distinct_ids {| nodes := nodes g ++ [a]; rels := rels g |}) as Hnd1.
      { unfold distinct_ids. cbn. rewrite map_app. apply NoDup_app.
        split; [exact Hnd|]. split; [|repeat constructor; inversion 1].
        intros x Hx Hx'. cbn in Hx'. apply list_elem_of_singleton in Hx' as ->.
        exact (fresh_id_new g Hx). }
      split; [exact Hnd1|]. apply (find_id_unique _ a Hnd1).
      apply elem_of_app. right. apply list_elem_of_here. }
  assert (forall t0 x y since, edge g t0 x y since -> edge g1 t0 x y since) as Hl
      by (intros t0 x y since H; unfold edge; rewrite Hrels; exact H).
  destruct parent as [p|]; exists a; eexists; (split; [reflexivity|]).
  - split; [exact HA|]. split; [exact Hseen|].
    split; [rewrite FindByContent_Link; exact Hfound|].
    split; [rewrite nodes_Link; exact Hin|].
    split; [intros x Hx; rewrite nodes_Link; auto|].
    split; [intros c' Hne; rewrite FindByContent_Link; auto|].
    split.
    { intros Hnd. destruct (Hids Hnd) as [H1 H2]. split.
      - unfold distinct_ids. rewrite nodes_Link. exact H1.
      - unfold DB.FindById. rewrite nodes_Link. exact H2. }
    split.
    { intros p' since [= <-] Hle. apply edge_Link, Hle. }
    intros t0 x y since H Hle. apply edge_Link_kept; [apply Hl, H | exact Hle].
  - split; [exact HA|]. split; [exact Hseen|]. split; [exact Hfound|]. split; [exact Hin|].
    split; [exact Hnodes|]. split; [exact Hother|].
    split; [exact Hids|]. split; [discriminate|]. intros t0 x y since H _. apply Hl, H.
Qed.

Lemma SessionDB_Create_run parent t c w :
  SessionDB.Create parent t c w
  = if refuses w (trace w ++ [ActDB (CallCreate (ID <$> parent) t c)])
    then (None, logged (ActDB (CallCreate (ID <$> parent) t c)) w)
    else (Some (DB.Create (graph w) (now w) parent t c).1,
          set_graph (DB.Create (graph w) (now w) parent t c).2
            (logged (ActDB (CallCreate (ID <$> parent) t c)) w)).
Proof.
  unfold SessionDB.Create, bind, log, logged. cbn.
  destruct (refuses w _); [reflexivity|]. destruct (DB.Create _ _ _ _ _). reflexivity.
Qed.

Lemma SessionDB_Link_run a t b w :
  SessionDB.Link a t b w
  = if refuses w (trace w ++ [ActDB (CallLink (ID a) t (ID b))])
    then (errors_New "failed to link the assets", logged (ActDB (CallLink (ID a) t (ID b))) w)
    else (None, set_graph (DB.Link (graph w) (now w) a t b)
                  (logged (ActDB (CallLink (ID a) t (ID b))) w)).
Proof. unfold SessionDB.Link, bind, log, logged. cbn. destruct (refuses w _); reflexivity. Qed.

Lemma persists_refl w : persists w w.
Proof. split; auto. Qed.

Lemma persists_trans w1 w2 w3 : persists w1 w2 -> persists w2 w3 -> persists w1 w3.
Proof.
  intros [A1 A2 A3 A4 A5 A6 A7 A8] [B1 B2 B3 B4 B5 B6 B7 B8].
  split; [congruence | congruence | congruence | congruence | auto | auto | auto |].
  intros t x y since He Hle. apply B8; [apply A8; assumption | rewrite A1; exact Hle].
Qed.

Lemma persists_logged a w : persists w (logged a w).
Proof. split; auto. Qed.

Lemma persists_Create parent t c w : persists w (SessionDB.Create parent t c w).2.
Proof.
  rewrite SessionDB_Create_run. destruct (refuses w _); [apply persists_logged|].
  destruct (Create_spec (graph w) (now w) parent t c)
    as (a & g' & Hc & HA & Hseen & Hfound & Hin & Hnodes & Hother & Hids & Hedge & Hkept).
  rewrite Hc. split; cbn; auto.
  - intros c' n Hf. destruct (decide (c' = c)) as [-> | Hne]; [|rewrite Hother; auto].
    rewrite Hf in Hseen. subst a. exact Hfound.
  - intros Hnd. apply Hids, Hnd.
Qed.

Lemma persists_Link a t b w : persists w (SessionDB.Link a t b w).2.
Proof.
  rewrite SessionDB_Link_run. destruct (refuses w _); [apply persists_logged|].
  split; cbn; auto.
  - intros x. rewrite nodes_Link. auto.
  - intros c n. rewrite FindByContent_Link. auto.
  - unfold distinct_ids. rewrite nodes_Link. auto.
  - intros t0 x y since He Hle. apply edge_Link_kept; assumption.
Qed.

Lemma backed_persists w w' asset f :
  persists w w' -> backed (graph w) asset (now w) f -> backed (graph w') asset (now w) f.
Proof.
  intros Hp [H1 H2 H3 H4 H5]. split; auto.
  - apply (per_nodes _ _ Hp), H4.
  - apply (per_edges _ _ Hp); [exact H5 | apply Z.le_refl].
Qed.

Lemma attributed_persists w w' src f :
  persists w w' -> attributed (graph w) src (now w) f -> attributed (graph w') src (now w) f.
Proof. intros Hp H. apply (per_edges _ _ Hp); [exact H | apply Z.le_refl]. Qed.

(** [Create] under the AutnumRecord and then [Link] to the source, as both
    halves of the mutation of [autnum.store] do: either the store refuses
    [Create], or the node is in the graph under the AutnumRecord, and
    attributed to the source if the store accepts [Link]. *)
Lemma create_then_link asset src rt c w :
  (SessionDB.Create (Some asset) rt c w
   = (None, logged (ActDB (CallCreate (Some (ID asset)) rt c)) w)
   /\ ~ accepting w)
  \/ exists a w1,
      SessionDB.Create (Some asset) rt c w = (Some a, w1)
      /\ persists w (SessionDB.Link a "source" src w1).2
      /\ trace (SessionDB.Link a "source" src w1).2
         = trace w ++ [ActDB (CallCreate (Some (ID asset)) rt c);
                       ActDB (CallLink (ID a) "source" (ID src))]
      /\ Asset a = c
      /\ match DB.FindByContent (graph w) c with Some n => a = n | None => LastSeen a = now w end
      /\ DB.FindByContent (graph (SessionDB.Link a "source" src w1).2) c = Some a
      /\ (forall c', c' <> c ->
             DB.FindByContent (graph (SessionDB.Link a "source" src w1).2) c'
             = DB.FindByContent (graph w) c')
      /\ a ∈ nodes (graph (SessionDB.Link a "source" src w1).2)
      /\ (distinct_ids (graph w) ->
          DB.FindById (graph (SessionDB.Link a "source" src w1).2) (ID a) = Some a)
      /\ edge (graph (SessionDB.Link a "source" src w1).2) rt (ID asset) (ID a) (now w)
      /\ (accepting w ->
          edge (graph (SessionDB.Link a "source" src w1).2) "source" (ID a) (ID src) (now w)).
Proof.
  pose proof (persists_Create (Some asset) rt c w) as Hpc.
  rewrite SessionDB_Create_run in *. cbn [fmap option_fmap option_map] in *.
  destruct (refuses w (trace w ++ [ActDB (CallCreate (Some (ID asset)) rt c)])) eqn:Hrc.
  { left. split; [reflexivity|]. intros Hacc. rewrite Hacc in Hrc. discriminate. }
  right.
  destruct (Create_spec (graph w) (now w) (Some asset) rt c)
    as (a & g' & Hc & HA & Hseen & Hfound & Hin & Hnodes & Hother & Hids & Hedge & Hkept).
  rewrite Hc in *. cbn [fst snd] in *.
  set (w1 := set_graph g' (logged (ActDB (CallCreate (Some (ID asset)) rt c)) w)) in *.
  exists a, w1. split; [reflexivity|].
  pose proof (persists_Link a "source" src w1) as Hpl.
  assert (edge (graph w1) rt (ID asset) (ID a) (now w)) as He
      by (apply (Hedge asset); [reflexivity | apply Z.le_refl]).
  rewrite SessionDB_Link_run in *.
  destruct (refuses w1 (trace w1 ++ [ActDB (CallLink (ID a) "source" (ID src))])) eqn:Hrl;
    cbn [fst snd] in *.
  - split; [eapply persists_trans; eassumption|].
    split; [cbn; rewrite <- app_assoc; reflexivity|].
    split; [exact HA|]. split; [exact Hseen|]. split; [exact Hfound|]. split; [exact Hother|].
    split; [exact Hin|]. split; [intros Hnd; apply Hids, Hnd|]. split; [exact He|].
    intros Hacc. change (refuses w1) with (refuses w) in Hrl. rewrite Hacc in Hrl. discriminate.
  - split; [eapply persists_trans; eassumption|].
    split; [cbn; rewrite <- app_assoc; reflexivity|].
    split; [exact HA|]. split; [exact Hseen|].
    cbn [graph set_graph logged set_trace].
    split; [rewrite FindByContent_Link; exact Hfound|].
    split; [intros c' Hne; rewrite FindByContent_Link; apply Hother, Hne|].
    split; [rewrite nodes_Link; exact Hin|].
    split; [intros Hnd; unfold DB.FindById; rewrite nodes_Link; apply Hids, Hnd|].
    split; [apply edge_Link_kept; [exact He | apply Z.le_refl]|].
    intros _. apply edge_Link, Z.le_refl.
Qed.

Lemma not_accepting_persists w w' : persists w w' -> ~ accepting w' -> ~ accepting w.
Proof. intros Hp Hn Hacc. apply Hn. intros t. rewrite (per_refuses _ _ Hp). apply Hacc. Qed.

(** Every run of the mutation of [autnum.store]. *)
Lemma autnum_store_mutation_run env resp asset src m w :
  exists fs wf t,
    rdap.autnum_store_mutation env resp asset src m w = (fs, wf)
    /\ trace wf = trace w ++ t
    /\ persists w wf
    /\ scoped t `sublist_of` [FQDN (rdap.WhoisServer_of (Asset asset))]
    /\ Forall (fun f => ActDB (CallLink (ID (To f)) "source" (ID src)) ∈ t) fs
    /\ Forall (backed (graph wf) asset (now w)) fs
    /\ (forall f, f ∈ fs -> Rel f = "whois_server" -> in_scope env (ToName f) = true)
    /\ (length fs <= 2)%nat
    /\ (accepting w -> Forall (attributed (graph wf) src (now w)) fs)
    /\ (forall u, accepting w -> Done w = false -> getJSONLink env (Links resp) = Some u ->
                  IsMatch m "URL" = true -> exists a, rdap_url_finding asset a u ∈ fs)
    /\ (accepting w -> Done w = false -> rdap.WhoisServer_of (Asset asset) <> EmptyString ->
        IsMatch m "FQDN" = true ->
        exists a,
          whois_server_stored (graph w) (graph wf) asset src a (now w)
          /\ (distinct_ids (graph w) -> DB.FindById (graph wf) (ID a) = Some a)
          /\ (whois_server_finding asset a ∈ fs
              <-> in_scope env (rdap.WhoisServer_of (Asset asset)) = true)).
Proof.
  unfold rdap.autnum_store_mutation, bind at 1, get. cbv beta. cbn [fst snd].
  destruct (Done w) eqn:Hdone.
  { exists [], w, []. split; [reflexivity|]. split; [rewrite app_nil_r; reflexivity|].
    split; [apply persists_refl|]. split; [apply sublist_nil_l|]. split; [constructor|].
    split; [constructor|]. split; [intros f Hf; inversion Hf|]. split; [cbn; lia|].
    split; [constructor|]. split; intros; discriminate. }
  unfold bind at 1.
  match goal with |- context [let '(a0, w1) := ?b w in _] =>
    assert (exists fs1 wa t1,
               b w = (fs1, wa)
               /\ trace wa = trace w ++ t1
               /\ persists w wa
               /\ scoped t1 = []
               /\ Forall (fun f => ActDB (CallLink (ID (To f)) "source" (ID src)) ∈ t1) fs1
               /\ Forall (backed (graph wa) asset (now w)) fs1
               /\ Forall (fun f => Rel f = "rdap_url") fs1
               /\ (length fs1 <= 1)%nat
               /\ (accepting w -> Forall (attributed (graph wa) src (now w)) fs1)
               /\ (forall u, accepting w -> getJSONLink env (Links resp) = Some u ->
                             IsMatch m "URL" = true ->
                             exists a, fs1 = [rdap_url_finding asset a u])
               /\ (forall x, DB.FindByContent (graph wa) (FQDN x)
                             = DB.FindByContent (graph w) (FQDN x)))
      as (fs1 & wa & t1 & -> & Ht1 & Hper & Hs1 & Hl1 & Hb1 & Hr1 & Hn1 & Ha1 & Hu1 & Hq1) end.
  { assert (exists fs1 wa t1,
               (@nil Finding, w) = (fs1, wa)
               /\ trace wa = trace w ++ t1
               /\ persists w wa
               /\ scoped t1 = []
               /\ Forall (fun f => ActDB (CallLink (ID (To f)) "source" (ID src)) ∈ t1) fs1
               /\ Forall (backed (graph wa) asset (now w)) fs1
               /\ Forall (fun f => Rel f = "rdap_url") fs1
               /\ (length fs1 <= 1)%nat
               /\ (accepting w -> Forall (attributed (graph wa) src (now w)) fs1)
               /\ (forall x, DB.FindByContent (graph wa) (FQDN x)
                             = DB.FindByContent (graph w) (FQDN x))) as Hskip.
    { exists [], w, []. split; [reflexivity|]. split; [rewrite app_nil_r; reflexivity|].
      split; [apply persists_refl|]. split; [reflexivity|]. split; [constructor|].
      split; [constructor|]. split; [constructor|]. split; [cbn; lia|].
      split; [constructor | reflexivity]. }
    destruct (getJSONLink env (Links resp)) as [raw|].
    2: { destruct Hskip as (fs1 & wa & t1 & H1 & H2 & H3 & H4 & H5 & H6 & H7 & H8 & H9 & H10).
         exists fs1, wa, t1. repeat (split; [assumption|]). split; [|exact H10].
         intros; discriminate. }
    destruct (IsMatch m "URL").
    2: { destruct Hskip as (fs1 & wa & t1 & H1 & H2 & H3 & H4 & H5 & H6 & H7 & H8 & H9 & H10).
         exists fs1, wa, t1. repeat (split; [assumption|]). split; [|exact H10].
         intros; discriminate. }
    clear Hskip. unfold bind at 1.
    destruct (create_then_link asset src "rdap_url" (URL raw) w)
      as [[-> Hna] | (a & w1 & -> & Hp & Ht & HA & Hseen & Hfound & Hother & Hin & Hbyid & He & Hsrc)].
    - eexists [], _, [_]. split; [reflexivity|]. split; [reflexivity|].
      split; [apply persists_logged|]. split; [reflexivity|]. split; [constructor|].
      split; [constructor|]. split; [constructor|]. split; [cbn; lia|].
      split; [constructor|]. split; [intros u Hacc; contradiction | reflexivity].
    - unfold bind at 1.
      destruct (SessionDB.Link a "source" src w1) as [err wl]. cbn [fst snd ret] in *.
      eexists [_], wl, _. split; [reflexivity|]. split; [exact Ht|]. split; [exact Hp|].
      split; [reflexivity|].
      split; [repeat constructor; cbn; apply list_elem_of_further, list_elem_of_here|].
      split.
      { repeat constructor; cbn; auto. }
      split; [repeat constructor|]. split; [cbn; lia|].
      split; [intros Hacc; repeat constructor; apply Hsrc, Hacc|].
      split; [intros u _ [= <-] _; exists a; reflexivity|].
      intros x. apply Hother. discriminate. }
  assert (forall fs, fs1 `prefix_of` fs ->
            forall u, accepting w -> getJSONLink env (Links resp) = Some u ->
                      IsMatch m "URL" = true -> exists a, rdap_url_finding asset a u ∈ fs) as Hu.
  { intros fs [k ->] u Hacc HJ HM. destruct (Hu1 u Hacc HJ HM) as (a & ->). exists a.
    apply list_elem_of_here. }
  assert (forall f, f ∈ fs1 -> Rel f = "whois_server" -> in_scope env (ToName f) = true) as Hw1.
  { intros f Hf Hr. rewrite Forall_forall in Hr1. rewrite (Hr1 f Hf) in Hr. discriminate. }
  destruct (negb (rdap.WhoisServer_of (Asset asset) =? EmptyString)%string && IsMatch m "FQDN") eqn:Hcond.
  2: { exists fs1, wa, t1. split; [reflexivity|]. split; [exact Ht1|]. split; [exact Hper|].
       split; [rewrite Hs1; apply sublist_nil_l|]. split; [exact Hl1|]. split; [exact Hb1|].
       split; [exact Hw1|]. split; [lia|]. split; [exact Ha1|].
       split; [intros u Hacc _; apply Hu; [reflexivity | exact Hacc]|].
       intros _ _ Hname Hmatch. apply String.eqb_neq in Hname.
       rewrite Hname, Hmatch in Hcond. discriminate. }
  unfold bind at 1.
  destruct (create_then_link asset src "whois_server"
              (FQDN (rdap.WhoisServer_of (Asset asset))) wa)
    as [[-> Hna] | (a & w1 & -> & Hp & Ht & HA & Hseen & Hfound & Hother & Hin & Hbyid & He & Hsrc)].
  - eexists fs1, _, (t1 ++ [_]). split; [reflexivity|].
    split; [cbn; rewrite Ht1, <- app_assoc; reflexivity|].
    split; [eapply persists_trans; [exact Hper | apply persists_logged]|].
    split; [rewrite scoped_app, Hs1; apply sublist_nil_l|].
    split; [eapply Forall_impl; [exact Hl1|]; intros f Hf; apply elem_of_app; left; exact Hf|].
    split; [exact Hb1|]. split; [exact Hw1|]. split; [lia|]. split; [exact Ha1|].
    split; [intros u Hacc _; apply Hu; [reflexivity | exact Hacc]|].
    intros Hacc. destruct (not_accepting_persists _ _ Hper Hna Hacc).
  - unfold bind at 1.
    destruct (SessionDB.Link a "source" src w1) as [err wl]. cbn [fst snd] in *.
    rewrite (per_now _ _ Hper) in *.
    assert (persists w wl) as Hpw by (eapply persists_trans; eassumption).
    assert (Forall (backed (graph wl) asset (now w)) fs1) as Hb2.
    { eapply Forall_impl; [exact Hb1|]. intros f Hf.
      rewrite <- (per_now _ _ Hper). apply (backed_persists wa wl); [exact Hp|].
      rewrite (per_now _ _ Hper). exact Hf. }
    assert (accepting w -> Forall (attributed (graph wl) src (now w)) fs1) as Ha2.
    { intros Hacc. eapply Forall_impl; [exact (Ha1 Hacc)|]. intros f Hf.
      rewrite <- (per_now _ _ Hper). apply (attributed_persists wa wl); [exact Hp|].
      rewrite (per_now _ _ Hper). exact Hf. }
    assert (backed (graph wl) asset (now w) (whois_server_finding asset a)) as Hbw.
    { split; cbn; auto. }
    assert (accepting w ->
            whois_server_stored (graph w) (graph wl) asset src a (now w)
            /\ (distinct_ids (graph w) -> DB.FindById (graph wl) (ID a) = Some a)) as Hst.
    { intros Hacc. split; [split|].
      - exact Hfound.
      - exact HA.
      - rewrite <- Hq1. exact Hseen.
      - exact He.
      - apply Hsrc. intros t. rewrite (per_refuses _ _ Hper). apply Hacc.
      - intros Hnd. apply Hbyid, (per_ids _ _ Hper), Hnd. }
    assert (Forall (fun f => ActDB (CallLink (ID (To f)) "source" (ID src))
                             ∈ t1 ++ [ActDB (CallCreate (Some (ID asset)) "whois_server"
                                               (FQDN (rdap.WhoisServer_of (Asset asset))));
                                      ActDB (CallLink (ID a) "source" (ID src));
                                      ActScope (FQDN (rdap.WhoisServer_of (Asset asset)))]) fs1)
      as Hl2.
    { eapply Forall_impl; [exact Hl1|]. intros f Hf. apply elem_of_app. left. exact Hf. }
    unfold IsAssetInScope, bind, log, ret. cbn [fst snd].
    unfold in_scope in *.
    destruct (InScope env (FQDN (rdap.WhoisServer_of (Asset asset))) 0) as [c conf] eqn:Hsc.
    cbn [snd fst].
    destruct (0 <? conf) eqn:Hconf; cbn [fst snd].
    + eexists _, _, (t1 ++ [_; _; _]). split; [reflexivity|].
      split; [cbn; rewrite Ht, Ht1, <- !app_assoc; reflexivity|].
      split; [eapply persists_trans; [exact Hpw | apply persists_logged]|].
      split; [rewrite scoped_app, Hs1; reflexivity|].
      split.
      { apply Forall_app_2; [exact Hl2|]. repeat constructor. cbn.
        apply elem_of_app. right. apply list_elem_of_further, list_elem_of_here. }
      split; [apply Forall_app_2; [exact Hb2 | constructor; [exact Hbw | constructor]]|].
      split.
      { intros f Hf Hr. apply elem_of_app in Hf as [Hf | Hf]; [exact (Hw1 f Hf Hr)|].
        apply list_elem_of_singleton in Hf as ->. cbn. rewrite Hsc. exact Hconf. }
      split; [rewrite length_app; cbn; lia|].
      split.
      { intros Hacc. apply Forall_app_2; [exact (Ha2 Hacc)|]. repeat constructor.
        apply (Hst Hacc). }
      split; [intros u Hacc _; apply Hu; [eexists; reflexivity | exact Hacc]|].
      intros Hacc _ _ _. exists a. destruct (Hst Hacc) as [H1 H2].
      split; [exact H1|]. split; [exact H2|].
      split; [reflexivity|]. intros _. apply elem_of_app. right. apply list_elem_of_here.
    + eexists _, _, (t1 ++ [_; _; _]). split; [reflexivity|].
      split; [cbn; rewrite Ht, Ht1, <- !app_assoc; reflexivity|].
      split; [eapply persists_trans; [exact Hpw | apply persists_logged]|].
      split; [rewrite scoped_app, Hs1; reflexivity|].
      split; [exact Hl2|]. split; [exact Hb2|]. split; [exact Hw1|]. split; [lia|].
      split; [exact Ha2|]. split; [intros u Hacc _; apply Hu; [reflexivity | exact Hacc]|].
      intros Hacc _ _ _. exists a. destruct (Hst Hacc) as [H1 H2].
      split; [exact H1|]. split; [exact H2|].
      split; [|discriminate].
      intros Hin'. rewrite Forall_forall in Hr1. specialize (Hr1 _ Hin'). discriminate.
Qed.

(** X15. When the graph store accepts its calls, the mutation of
    [autnum.store], run before the session is done for an AutnumRecord that
    names a WHOIS server, with FQDN among the matched kinds, leaves the
    server's node in the graph, linked from the AutnumRecord and attributed
    to the source, whether or not the server is in scope; a node the graph
    held for the server already stays as it was last seen; and the server is
    reported in a finding exactly when it is in scope. *)
Theorem X15_autnum_store_persists_the_whois_server
        (env : Env) (resp : RdapAutnum) (asset src : Entity) (m : Matches) (w : World) :
  Done w = false ->
  accepting w ->
  rdap.WhoisServer_of (Asset asset) <> EmptyString ->
  IsMatch m "FQDN" = true ->
  exists a,
    whois_server_stored (graph w)
      (graph (rdap.autnum_store_mutation env resp asset src m w).2) asset src a (now w)
    /\ (whois_server_finding asset a ∈ (rdap.autnum_store_mutation env resp asset src m w).1
        <-> in_scope env (rdap.WhoisServer_of (Asset asset)) = true).
Proof.
  intros Hdone Hacc Hname Hmatch.
  destruct (autnum_store_mutation_run env resp asset src m w)
    as (fs & wf & t & -> & _ & _ & _ & _ & _ & _ & _ & _ & _ & Hw).
  destruct (Hw Hacc Hdone Hname Hmatch) as (a & Hst & _ & Hiff).
  exists a. auto.
Qed.

Lemma X15_witness :
  (Done Scenario.autnum_sourced = false
   /\ accepting Scenario.autnum_sourced
   /\ rdap.WhoisServer_of (Asset Scenario.autnum_subject) <> EmptyString
   /\ IsMatch ["FQDN"] "FQDN" = true)
  /\ exists a,
      whois_server_stored (graph Scenario.autnum_sourced)
        (graph (rdap.autnum_store_mutation (Scenario.env (Some 1440)) Scenario.autnum_record
                  Scenario.autnum_subject Scenario.rdap_source ["FQDN"] Scenario.autnum_sourced).2)
        Scenario.autnum_subject Scenario.rdap_source a (now Scenario.autnum_sourced)
      /\ (whois_server_finding Scenario.autnum_subject a
            ∈ (rdap.autnum_store_mutation (Scenario.env (Some 1440)) Scenario.autnum_record
                 Scenario.autnum_subject Scenario.rdap_source ["FQDN"] Scenario.autnum_sourced).1
          <-> in_scope (Scenario.env (Some 1440))
                (rdap.WhoisServer_of (Asset Scenario.autnum_subject)) = true).
Proof.
  split.
  { split; [reflexivity|]. split; [intros t; reflexivity|]. split; [discriminate | reflexivity]. }
  apply (X15_autnum_store_persists_the_whois_server (Scenario.env (Some 1440))
           Scenario.autnum_record Scenario.autnum_subject Scenario.rdap_source ["FQDN"]
           Scenario.autnum_sourced).
  - reflexivity.
  - intros t. reflexivity.
  - discriminate.
  - reflexivity.
Defined.

Lemma autnum_lookup_rels_step asset src (sinces : gmap string Time) rel rest fs w :
  exists fs' w2,
    rdap.autnum_lookup_rels asset src sinces (rel :: rest) fs w
    = rdap.autnum_lookup_rels asset src sinces rest fs' w2
    /\ graph w2 = graph w
    /\ (forall f, f ∈ fs -> f ∈ fs')
    /\ (forall a since nm,
           DB.FindById (graph w) (ToAsset rel) = Some a ->
           Asset a = FQDN nm ->
           sinces !! "FQDN" = Some since ->
           since <= LastSeen a ->
           linked (graph w) "source" (ID a) (ID src) ->
           {| From := asset; FromName := "AutnumRecord: " +:+ rdap.Handle_of (Asset asset);
              To := a; ToName := nm; Rel := RelType rel |} ∈ fs').
Proof.
  cbn [rdap.autnum_lookup_rels]. unfold bind at 1, SessionDB.FindById, bind, log, get.
  cbn -[rdap.autnum_lookup_rels rdap.autnum_oneOfSources String.append].
  set (w1 := set_trace (trace w ++ [ActDB (CallFindById (ToAsset rel))]) w).
  unfold Time in *.
  destruct (DB.FindById (graph w) (ToAsset rel)) as [a|] eqn:Hfind.
  2: { exists fs, w1. repeat split; auto. intros; discriminate. }
  destruct (sinces !! AssetType (Asset a)) as [since|] eqn:Hsince.
  2: { exists fs, w1. repeat split; auto. intros a' since' nm [= <-] HA Hs.
       rewrite HA in Hsince. cbn [AssetType] in Hsince.
       rewrite Hs in Hsince. discriminate. }
  destruct (Before (LastSeen a) since) eqn:Hbefore.
  { exists fs, w1. repeat split; auto. intros a' since' nm [= <-] HA Hs Hle.
    rewrite HA in Hsince. cbn [AssetType] in Hsince. unfold Before in Hbefore.
    rewrite Hs in Hsince. injection Hsince as ->. lia. }
  destruct (oneOfSources_run a src since w1) as [Hrun Hiff].
  destruct (rdap.autnum_oneOfSources a src since w1) as [one w2].
  cbn [fst] in Hrun, Hiff. injection Hrun as Hw2.
  assert (graph w2 = graph w) as Hg2 by (rewrite Hw2; reflexivity).
  destruct one; cbn [negb].
  2: { exists fs, w2. repeat split; auto. intros a' since' nm [= <-] HA Hs Hle Hl.
       apply Hiff in Hl. discriminate. }
  destruct (Asset a) eqn:HA;
    try (exists fs, w2; repeat split; auto;
         intros a' since' nm [= <-] HA'; rewrite HA in HA'; discriminate).
  - eexists _, w2. split; [reflexivity|]. split; [exact Hg2|].
    split; [intros f Hf; apply elem_of_app; left; exact Hf|].
    intros a' since' nm [= <-] HA' _ _ _. rewrite HA in HA'. injection HA' as <-.
    apply elem_of_app. right. apply list_elem_of_here.
  - eexists _, w2. split; [reflexivity|]. split; [exact Hg2|].
    split; [intros f Hf; apply elem_of_app; left; exact Hf|].
    intros a' since' nm [= <-] HA'. rewrite HA in HA'. discriminate.
  - eexists _, w2. split; [reflexivity|]. split; [exact Hg2|].
    split; [intros f Hf; apply elem_of_app; left; exact Hf|].
    intros a' since' nm [= <-] HA'. rewrite HA in HA'. discriminate.
Qed.

Lemma autnum_lookup_rels_keeps asset src (sinces : gmap string Time) rs fs w f :
  f ∈ fs -> f ∈ (rdap.autnum_lookup_rels asset src sinces rs fs w).1.
Proof.
  revert fs w. induction rs as [|rel rest IH]; intros fs w Hf; [exact Hf|].
  destruct (autnum_lookup_rels_step asset src sinces rel rest fs w)
    as (fs' & w2 & -> & _ & Hkeep & _).
  apply IH, Hkeep, Hf.
Qed.

Lemma autnum_lookup_rels_complete asset src (sinces : gmap string Time) rs fs w rel a since nm :
  rel ∈ rs ->
  DB.FindById (graph w) (ToAsset rel) = Some a ->
  Asset a = FQDN nm ->
  sinces !! "FQDN" = Some since ->
  since <= LastSeen a ->
  linked (graph w) "source" (ID a) (ID src) ->
  {| From := asset; FromName := "AutnumRecord: " +:+ rdap.Handle_of (Asset asset);
     To := a; ToName := nm; Rel := RelType rel |}
  ∈ (rdap.autnum_lookup_rels asset src sinces rs fs w).1.
Proof.
  revert fs w. induction rs as [|r0 rest IH]; intros fs w Hin Hfind HA Hs Hle Hl;
    [inversion Hin|].
  destruct (autnum_lookup_rels_step asset src sinces r0 rest fs w)
    as (fs' & w2 & -> & Hg & Hkeep & Hadd).
  apply elem_of_cons in Hin as [<- | Hin].
  - apply autnum_lookup_rels_keeps. eapply Hadd; eassumption.
  - apply IH; try assumption; rewrite Hg; assumption.
Qed.

Lemma autnum_lookup_finds_whois_server
      asset src a (rtypes : list string) (sinces : gmap string Time) (since : Time) w2 :
  Done w2 = false ->
  sinces !! "FQDN" = Some since ->
  rtypes = [] \/ "whois_server" ∈ rtypes ->
  Asset a = FQDN (rdap.WhoisServer_of (Asset asset)) ->
  DB.FindById (graph w2) (ID a) = Some a ->
  linked (graph w2) "whois_server" (ID asset) (ID a) ->
  linked (graph w2) "source" (ID a) (ID src) ->
  (whois_server_finding asset a ∈ (rdap.autnum_lookup_mutation asset src rtypes sinces w2).1
   <-> since <= LastSeen a).
Proof.
  intros Hd2 Hsince Hrt HA Hbyid Hedge Hsrc. split.
  - intros Hin.
    destruct (autnum_lookup_mutation_run asset src rtypes sinces w2)
      as (fs & reads & Hrun & _ & Hrep).
    rewrite Hrun in Hin. cbn [fst] in Hin.
    rewrite Forall_forall in Hrep. destruct (Hrep _ Hin) as [_ _ _ _ _ (s0 & Hs0 & Hle) _].
    cbn in Hs0, Hle. rewrite HA in Hs0. cbn in Hs0. unfold Time in *. congruence.
  - intros Hle.
    unfold rdap.autnum_lookup_mutation, bind at 1, get. cbn [fst snd]. rewrite Hd2.
    unfold bind, SessionDB.OutgoingRelations, log, get.
    cbn -[Nat.ltb DB.OutgoingRelations rdap.autnum_lookup_rels].
    pose proof (fun rel => OutgoingRelations_spec (graph w2) asset zero_time rtypes rel) as Hspec.
    destruct Hedge as (rel & Hin & Ht & Hfrom & Hto).
    assert (rel ∈ default [] (DB.OutgoingRelations (graph w2) asset zero_time rtypes)) as Hrel.
    { apply Hspec. split; [exact Hin|]. split; [exact Hfrom|].
      unfold DB.type_wanted. destruct Hrt as [-> | Hrt]; [reflexivity|].
      destruct rtypes; [reflexivity|]. apply existsb_exists. exists "whois_server".
      split; [apply list_elem_of_In, Hrt | apply String.eqb_eq, Ht]. }
    destruct (DB.OutgoingRelations (graph w2) asset zero_time rtypes) as [rs|];
      [|inversion Hrel].
    cbn [default] in Hrel.
    destruct rs as [|r0 rs]; [inversion Hrel|]. cbn [length Nat.ltb Nat.leb].
    unfold whois_server_finding. rewrite <- Ht.
    apply autnum_lookup_rels_complete with (since := since); try assumption.
    cbn [graph set_trace]. rewrite Hto. exact Hbyid.
Qed.

(** X16. What the mutation of [autnum.store] leaves for the WHOIS server,
    the mutation of [autnum.lookup] finds again when the node of the server
    was last seen within the TTL, and only then: run on the resulting graph,
    before the session is done, with [whois_server] among the relation types
    it asks for, it returns the finding that names the server exactly when
    the threshold for FQDNs is not after the time the node was last seen.
    That time is the time of the store for a node the store created; a node
    the graph held already keeps its own, the store does not refresh it. *)
Theorem X16_autnum_lookup_finds_the_stored_whois_server
        (env : Env) (resp : RdapAutnum) (asset src : Entity) (m : Matches) (w w2 : World)
        (rtypes : list string) (sinces : gmap string Time) (since : Time) :
  Done w = false ->
  accepting w ->
  distinct_ids (graph w) ->
  rdap.WhoisServer_of (Asset asset) <> EmptyString ->
  IsMatch m "FQDN" = true ->
  graph w2 = graph (rdap.autnum_store_mutation env resp asset src m w).2 ->
  Done w2 = false ->
  sinces !! "FQDN" = Some since ->
  rtypes = [] \/ "whois_server" ∈ rtypes ->
  exists a,
    whois_server_stored (graph w) (graph w2) asset src a (now w)
    /\ (whois_server_finding asset a
          ∈ (rdap.autnum_lookup_mutation asset src rtypes sinces w2).1
        <-> since <= LastSeen a).
Proof.
  intros Hdone Hacc Hnd Hname Hmatch Hg2 Hd2 Hsince Hrt.
  destruct (autnum_store_mutation_run env resp asset src m w)
    as (fs & wf & t & Hrun & _ & _ & _ & _ & _ & _ & _ & _ & _ & Hw).
  destruct (Hw Hacc Hdone Hname Hmatch) as (a & Hst & Hbyid & _).
  rewrite Hrun in Hg2. cbn [snd] in Hg2. rewrite <- Hg2 in Hst, Hbyid.
  exists a. split; [exact Hst|].
  destruct Hst as [Hfound HA Hseen Hedge Hsrc].
  apply autnum_lookup_finds_whois_server; try assumption.
  - apply Hbyid, Hnd.
  - eapply edge_linked, Hedge.
  - eapply edge_linked, Hsrc.
Qed.

Lemma X16_witness :
  (Done Scenario.autnum_sourced = false
   /\ accepting Scenario.autnum_sourced
   /\ distinct_ids (graph Scenario.autnum_sourced)
   /\ rdap.WhoisServer_of (Asset Scenario.autnum_subject) <> EmptyString
   /\ IsMatch ["FQDN"] "FQDN" = true
   /\ ({["FQDN" := 8560]} : gmap string Time) !! "FQDN" = Some 8560)
  /\ exists a,
      whois_server_stored (graph Scenario.autnum_sourced)
        (graph (rdap.autnum_store_mutation (Scenario.env (Some 1440)) Scenario.autnum_record
                  Scenario.autnum_subject Scenario.rdap_source ["FQDN"]
                  Scenario.autnum_sourced).2)
        Scenario.autnum_subject Scenario.rdap_source a (now Scenario.autnum_sourced)
      /\ (whois_server_finding Scenario.autnum_subject a
            ∈ (rdap.autnum_lookup_mutation Scenario.autnum_subject Scenario.rdap_source
                 ["whois_server"] {["FQDN" := 8560]}
                 (rdap.autnum_store_mutation (Scenario.env (Some 1440)) Scenario.autnum_record
                    Scenario.autnum_subject Scenario.rdap_source ["FQDN"]
                    Scenario.autnum_sourced).2).1
          <-> 8560 <= LastSeen a).
Proof.
  assert (distinct_ids (graph Scenario.autnum_sourced)) as Hnd
      by (unfold distinct_ids; cbn; apply NoDup_cons; split;
          [rewrite list_elem_of_singleton; discriminate | apply NoDup_singleton]).
  split.
  { split; [reflexivity|]. split; [intros t; reflexivity|]. split; [exact Hnd|].
    split; [discriminate|]. split; reflexivity. }
  apply (X16_autnum_lookup_finds_the_stored_whois_server (Scenario.env (Some 1440))
           Scenario.autnum_record Scenario.autnum_subject Scenario.rdap_source ["FQDN"]
           Scenario.autnum_sourced _ ["whois_server"] {["FQDN" := 8560]} 8560).
  - reflexivity.
  - intros t. reflexivity.
  - exact Hnd.
  - discriminate.
  - reflexivity.
  - reflexivity.
  - reflexivity.
  - reflexivity.
  - right. apply list_elem_of_here.
Defined.

(** ** What the RDAP autnum store reports *)


(** The attribution can be missing: when the store refuses [Link], the
    WHOIS server is reported all the same, and no [source] edge leaves its
    node. *)
Lemma autnum_store_reports_without_attribution :
  (rdap.autnum_store_mutation (Scenario.env (Some 1440)) Scenario.autnum_record
     Scenario.autnum_subject Scenario.rdap_source ["FQDN"] Scenario.link_refused).1
  = [whois_server_finding Scenario.autnum_subject
       {| ID := 3; Asset := FQDN "whois.example.com"; LastSeen := 10000 |}]
  /\ rels (graph (rdap.autnum_store_mutation (Scenario.env (Some 1440)) Scenario.autnum_record
                    Scenario.autnum_subject Scenario.rdap_source ["FQDN"]
                    Scenario.link_refused).2)
     = [{| RelType := "whois_server"; FromAsset := 1; ToAsset := 3; RelLastSeen := 10000 |}].
Proof. split; vm_compute; reflexivity. Qed.

(** ** The errors of the RDAP autnum check *)

Lemma GetSource_run psrc w :
  (store_ok w = false
   /\ support.GetSource psrc w = (None, logged (ActGetSource (SourceName psrc)) w))
  \/ (store_ok w = true
      /\ exists n w1, support.GetSource psrc w = (Some n, w1) /\ resolved psrc w n w1).
Proof.
  assert (wp (support.GetSource psrc)
             (fun r w1 =>
                (store_ok w = false /\ r = None /\ w1 = logged (ActGetSource (SourceName psrc)) w)
                \/ (store_ok w = true /\ exists n, r = Some n /\ resolved psrc w n w1)) w) as H.
  { apply wp_GetSource.
    - intros Hs. left. auto.
    - intros Hs n w1 Hres. right. split; [exact Hs|]. exists n. auto. }
  unfold wp in H. destruct (support.GetSource psrc w) as [r w1].
  destruct H as [(Hs & Hr & Hw) | (Hs & n & Hr & Hres)]; cbn [fst snd] in *; subst.
  - left. auto.
  - right. split; [exact Hs|]. exists n, w1. auto.
Qed.

(** X18. [autnum.check] returns an error only when the subject is not an
    AutnumRecord or the source node cannot be resolved: an error of
    [CheckTransformations], a missing TTL policy and whatever the graph store
    answers are all swallowed. *)
Theorem X18_autnum_check_fails_only_before_the_lookup
        (env : Env) (r : rdap.autnum) (e : Event) (w : World) :
  (rdap.autnum_check env r e w).1 <> None
  <-> (forall h s, Asset (EvAsset e) <> AutnumRecord h s) \/ store_ok w = false.
Proof.
  unfold rdap.autnum_check.
  destruct (Asset (EvAsset e)) as [| | |h s| |] eqn:HA;
    try (cbn; split; [intros _; left; intros ? ?; discriminate | discriminate]).
  unfold bind at 1.
  destruct (GetSource_run (source (rdap.rplugin r)) w)
    as [[Hs ->] | (Hs & n & w1 & -> & _)].
  - cbn. split; [auto | discriminate].
  - assert (forall m : M (list Finding), forall w',
               (bind m (fun fs => bind (if (0 <? length fs)%nat
                                        then rdap.autnum_process r e fs n else ret tt)
                                       (fun _ => ret (@None string))) w').1 = None) as Hnone.
    { intros m w'. unfold bind. destruct (m w') as [fs w2].
      destruct (0 <? length fs)%nat; [|reflexivity].
      destruct (rdap.autnum_process r e fs n w2). reflexivity. }
    unfold bind at 1, CheckTransformations, bind, log. cbn -[rdap.autnum_store rdap.autnum_lookup].
    split.
    + intros Herr. exfalso. apply Herr.
      destruct (Transformations env _ _) as [ms|]; [|reflexivity].
      destruct (Len ms =? 0)%nat; [reflexivity|].
      destruct (Meta e); apply Hnone.
    + intros [Hno | Hno]; [destruct (Hno h s); reflexivity | congruence].
Qed.

(** X19. When the configuration matches no transformation for the event, or
    [CheckTransformations] fails, [autnum.check] returns nil after resolving
    the source and asking the configuration: it asks for no TTL, submits
    nothing to the queue but the creation of the node of its source, when the
    graph does not hold it, and emits no finding. *)
Theorem X19_autnum_check_without_matches_does_nothing
        (env : Env) (r : rdap.autnum) (e : Event) (w : World) (h s : string) :
  Asset (EvAsset e) = AutnumRecord h s ->
  store_ok w = true ->
  Transformations env "AutnumRecord" (rdap.transforms r ++ [name (rdap.rplugin r)]) = None
  \/ Transformations env "AutnumRecord" (rdap.transforms r ++ [name (rdap.rplugin r)]) = Some [] ->
  (rdap.autnum_check env r e w).1 = None
  /\ performed (rdap.autnum_check env r e) w
     = ActGetSource (SourceName (source (rdap.rplugin r)))
       :: source_creation (source (rdap.rplugin r)) (graph w)
       ++ [ActTransformations "AutnumRecord" (rdap.transforms r ++ [name (rdap.rplugin r)])]
  /\ findings (rdap.autnum_check env r e w).2 = findings w.
Proof.
  intros HA Hok Hnone.
  destruct (GetSource_run (source (rdap.rplugin r)) w)
    as [[Hs _] | (_ & n & w1 & Hget & Hres)]; [congruence|].
  assert (rdap.autnum_check env r e w
          = (None, logged (ActTransformations "AutnumRecord"
                             (rdap.transforms r ++ [name (rdap.rplugin r)])) w1)) as Hrun.
  { unfold rdap.autnum_check. rewrite HA. unfold bind at 1. rewrite Hget.
    unfold bind, CheckTransformations, log. cbn -[rdap.autnum_store rdap.autnum_lookup].
    destruct Hnone as [-> | ->]; reflexivity. }
  unfold performed. rewrite Hrun. cbn.
  rewrite (res_trace _ _ _ _ Hres), (res_findings _ _ _ _ Hres), <- app_assoc, drop_app_length.
  cbn. auto.
Qed.

Lemma X19_witness :
  (Asset (EvAsset Scenario.autnum_event) = AutnumRecord "AS64500" "whois.example.com"
   /\ store_ok Scenario.autnum_start = true
   /\ Transformations Scenario.silent "AutnumRecord"
        (rdap.transforms Scenario.autnum_handler ++ [name (rdap.rplugin Scenario.autnum_handler)])
      = Some [])
  /\ (rdap.autnum_check Scenario.silent Scenario.autnum_handler Scenario.autnum_event
        Scenario.autnum_start).1 = None
  /\ performed (rdap.autnum_check Scenario.silent Scenario.autnum_handler Scenario.autnum_event)
               Scenario.autnum_start
     = [ActGetSource "RDAP"; ActSubmit;
        ActDB (CallCreate None EmptyString (SourceAsset "RDAP" 100));
        ActTransformations "AutnumRecord" ["URL"; "FQDN"; "ContactRecord"; "RDAP"]]
  /\ findings (rdap.autnum_check Scenario.silent Scenario.autnum_handler Scenario.autnum_event
                 Scenario.autnum_start).2 = findings Scenario.autnum_start.
Proof.
  split; [repeat split|].
  apply (X19_autnum_check_without_matches_does_nothing Scenario.silent Scenario.autnum_handler
           Scenario.autnum_event Scenario.autnum_start "AS64500" "whois.example.com");
    [reflexivity | reflexivity | right; reflexivity].
Defined.

(** ** The findings of the RDAP autnum check, without a record *)

Lemma autnum_check_lookup_run env r e w :
  Meta e = None ->
  exists err w' new,
    rdap.autnum_check env r e w = (err, w')
    /\ findings w' = findings w ++ new
    /\ rels (graph w') = rels (graph w)
    /\ (forall n, n ∈ nodes (graph w) -> n ∈ nodes (graph w'))
    /\ forall m src,
        Transformations env "AutnumRecord" (rdap.transforms r ++ [name (rdap.rplugin r)]) = Some m ->
        DB.FindByContent (graph w') (source_asset (source (rdap.rplugin r))) = Some src ->
        Forall (reported (graph w') (EvAsset e) src
                         (threshold env r m (now w) (rdap.transforms r))) new.
Proof.
  intros HM.
  unfold rdap.autnum_check.
  destruct (Asset (EvAsset e)) as [| | |h s| |] eqn:HA;
    try (eexists _, _, []; split; [reflexivity|]; rewrite app_nil_r;
         repeat split; auto; intros; constructor).
  unfold bind at 1.
  destruct (GetSource_run (source (rdap.rplugin r)) w)
    as [[Hs ->] | (Hs & n & w1 & -> & Hres)].
  { eexists _, _, []. split; [reflexivity|]. cbn. rewrite app_nil_r.
    repeat split; auto; intros; constructor. }
  assert (forall x, x ∈ nodes (graph w) -> x ∈ nodes (graph w1)) as Hnodes.
  { intros x Hx. destruct (res_nodes _ _ _ _ Hres) as [[_ ->] | (_ & -> & _)]; [exact Hx|].
    apply elem_of_app. left. exact Hx. }
  unfold bind at 1, CheckTransformations, bind at 1, log. cbn [fst snd ret].
  set (w2 := set_trace _ w1).
  destruct (Transformations env "AutnumRecord" (rdap.transforms r ++ [name (rdap.rplugin r)]))
    as [m|] eqn:HT.
  2: { eexists _, _, []. split; [reflexivity|]. cbn.
       rewrite app_nil_r, (res_findings _ _ _ _ Hres), (res_rels _ _ _ _ Hres).
       repeat split; auto; intros; discriminate. }
  destruct (Len m =? 0)%nat.
  { eexists _, _, []. split; [reflexivity|]. cbn.
    rewrite app_nil_r, (res_findings _ _ _ _ Hres), (res_rels _ _ _ _ Hres).
    repeat split; auto; intros; constructor. }
  rewrite HM. unfold bind at 1.
  destruct (autnum_lookup_attested env r e (EvAsset e) n m w2) as (Hg & Hf & Hrep).
  destruct (rdap.autnum_lookup env r e (EvAsset e) n m w2) as [fs w3]. cbn [fst snd] in *.
  assert (forall w4, graph w4 = graph w3 ->
            forall m0 src,
              Some m = Some m0 ->
              DB.FindByContent (graph w4) (source_asset (source (rdap.rplugin r))) = Some src ->
              Forall (reported (graph w4) (EvAsset e) src
                               (threshold env r m0 (now w) (rdap.transforms r))) fs) as Hall.
  { intros w4 Hg4 m0 src [= <-] Hsrc. rewrite Hg4, Hg in *. cbn in Hsrc.
    rewrite (res_found _ _ _ _ Hres) in Hsrc. injection Hsrc as <-.
    replace (now w) with (now w2) by (cbn; apply (res_now _ _ _ _ Hres)). exact Hrep. }
  destruct (0 <? length fs)%nat eqn:Hlen.
  - unfold rdap.autnum_process, support.ProcessAssetsWithSource, support.emit, bind, log. cbn.
    eexists _, _, fs. split; [reflexivity|]. cbn.
    rewrite Hf, Hg. cbn. rewrite (res_findings _ _ _ _ Hres), (res_rels _ _ _ _ Hres).
    split; [reflexivity|]. split; [reflexivity|]. split; [exact Hnodes|].
    intros m0 src. apply (Hall (set_graph (graph w1) w3)). cbn. symmetry. exact Hg.
  - cbn. apply Nat.ltb_ge in Hlen. destruct fs; [|cbn in Hlen; lia].
    eexists _, _, []. split; [reflexivity|].
    rewrite app_nil_r, Hf, Hg. cbn. rewrite (res_findings _ _ _ _ Hres), (res_rels _ _ _ _ Hres).
    repeat split; auto; intros; constructor.
Qed.

(** X20. On an event that carries no RDAP record, [autnum.check] changes the
    graph at most by creating the node of its source, and every finding it
    hands to the event system was returned by [lookup]: it is about a node
    linked from the subject, of a matched kind with a TTL policy, itself
    last seen within that TTL and attributed to the plugin's source by a
    [source] edge of whatever age. *)
Theorem X20_autnum_check_emits_what_the_source_attested
        (env : Env) (r : rdap.autnum) (e : Event) (w : World) :
  Meta e = None ->
  exists new,
    findings (rdap.autnum_check env r e w).2 = findings w ++ new
    /\ rels (graph (rdap.autnum_check env r e w).2) = rels (graph w)
    /\ (forall n, n ∈ nodes (graph w) -> n ∈ nodes (graph (rdap.autnum_check env r e w).2))
    /\ forall m src,
        Transformations env "AutnumRecord" (rdap.transforms r ++ [name (rdap.rplugin r)]) = Some m ->
        DB.FindByContent (graph (rdap.autnum_check env r e w).2)
                         (source_asset (source (rdap.rplugin r))) = Some src ->
        Forall (reported (graph (rdap.autnum_check env r e w).2) (EvAsset e) src
                         (threshold env r m (now w) (rdap.transforms r))) new.
Proof.
  intros HM.
  destruct (autnum_check_lookup_run env r e w HM) as (err & w' & new & -> & H).
  exists new. exact H.
Qed.

Lemma X20_witness :
  (Meta Scenario.autnum_event = None
   /\ findings (rdap.autnum_check (Scenario.env (Some 1440)) Scenario.autnum_handler
                  Scenario.autnum_event Scenario.autnum_linked).2
      = [whois_server_finding Scenario.autnum_subject Scenario.whois_node])
  /\ exists new,
      findings (rdap.autnum_check (Scenario.env (Some 1440)) Scenario.autnum_handler
                  Scenario.autnum_event Scenario.autnum_linked).2
      = findings Scenario.autnum_linked ++ new
      /\ rels (graph (rdap.autnum_check (Scenario.env (Some 1440)) Scenario.autnum_handler
                        Scenario.autnum_event Scenario.autnum_linked).2)
         = rels (graph Scenario.autnum_linked)
      /\ (forall n, n ∈ nodes (graph Scenario.autnum_linked) ->
                    n ∈ nodes (graph (rdap.autnum_check (Scenario.env (Some 1440))
                                        Scenario.autnum_handler Scenario.autnum_event
                                        Scenario.autnum_linked).2))
      /\ forall m src,
          Transformations (Scenario.env (Some 1440)) "AutnumRecord"
            (rdap.transforms Scenario.autnum_handler
             ++ [name (rdap.rplugin Scenario.autnum_handler)]) = Some m ->
          DB.FindByContent
            (graph (rdap.autnum_check (Scenario.env (Some 1440)) Scenario.autnum_handler
                      Scenario.autnum_event Scenario.autnum_linked).2)
            (source_asset (source (rdap.rplugin Scenario.autnum_handler))) = Some src ->
          Forall (reported
                    (graph (rdap.autnum_check (Scenario.env (Some 1440)) Scenario.autnum_handler
                              Scenario.autnum_event Scenario.autnum_linked).2)
                    (EvAsset Scenario.autnum_event) src
                    (threshold (Scenario.env (Some 1440)) Scenario.autnum_handler m
                               (now Scenario.autnum_linked)
                               (rdap.transforms Scenario.autnum_handler))) new.
Proof.
  split; [split; [reflexivity | vm_compute; reflexivity]|].
  apply (X20_autnum_check_emits_what_the_source_attested (Scenario.env (Some 1440))
           Scenario.autnum_handler Scenario.autnum_event Scenario.autnum_linked).
  reflexivity.
Defined.

(** ** The findings of the RDAP autnum check, with a record *)




(** ** The pages the scrapers ask for *)

Lemma append_String c s1 s2 : String c s1 +:+ s2 = String c (s1 +:+ s2).
Proof. reflexivity. Qed.

Lemma append_Empty s : EmptyString +:+ s = s.
Proof. reflexivity. Qed.

Lemma append_empty_r s : s +:+ EmptyString = s.
Proof.
  induction s as [|c s IH]; [reflexivity|]. rewrite append_String. f_equal. exact IH.
Qed.

Lemma page_request_url dname i :
  page_request scrape.NewSiteDossier dname i
  = {| ReqURL := siteDossier_url dname i; Header := None |}.
Proof.
  unfold page_request, siteDossier_url. f_equal.
  cbn -[append pretty]. generalize (pretty i). intros page.
  rewrite !append_String, !append_Empty, append_empty_r. reflexivity.
Qed.

Lemma duckDuckGo_request_url dname :
  duckDuckGo_request scrape.NewDuckDuckGo dname
  = {| ReqURL := duckDuckGo_url dname; Header := None |}.
Proof.
  unfold duckDuckGo_request, duckDuckGo_url. f_equal.
  cbn -[append]. rewrite !append_String, !append_Empty, append_empty_r. reflexivity.
Qed.

Lemma siteDossier_url_inj dname : Inj (=) (=) (siteDossier_url dname).
Proof.
  intros i j H. unfold siteDossier_url in H.
  apply String.app_inj in H. apply String.app_inj in H.
  apply (String.app_inj "/") in H. apply pretty_Z_inj in H. exact H.
Qed.

(** X22. The pages SiteDossier requests are
    [http://www.sitedossier.com/parentdomain/<name>/<i>] for i = 1, 2, ...,
    so that no URL is requested twice in a run; DuckDuckGo requests the one
    URL that searches the domain and excludes its [www] host. *)
Theorem X22_scrape_requests_are_distinct_pages
        (env : Env) (e : Event) (dname : string) (src : Entity) (w : World) :
  requests (performed (scrape.siteDossier_query env scrape.NewSiteDossier e dname src) w)
  = map (fun i => {| ReqURL := siteDossier_url dname i; Header := None |})
        (seqZ 1 (Z.of_nat (length (fetched
           (performed (scrape.siteDossier_query env scrape.NewSiteDossier e dname src) w)))))
  /\ NoDup (requests
              (performed (scrape.siteDossier_query env scrape.NewSiteDossier e dname src) w))
  /\ requests (performed (scrape.duckDuckGo_query env scrape.NewDuckDuckGo e dname src) w)
     = [{| ReqURL := duckDuckGo_url dname; Header := None |}].
Proof.
  assert (requests (performed (scrape.siteDossier_query env scrape.NewSiteDossier e dname src) w)
          = map (fun i => {| ReqURL := siteDossier_url dname i; Header := None |})
                (seqZ 1 (Z.of_nat (length (fetched
                   (performed (scrape.siteDossier_query env scrape.NewSiteDossier e dname src)
                      w)))))) as Hreq.
  { destruct (siteDossier_pages_paged env scrape.NewSiteDossier dname 1 stringset.New w)
      as (t & Ht & Hp).
    destruct (store_step_calls
                (stringset.Slice
                   (scrape.siteDossier_pages env scrape.NewSiteDossier dname 1 stringset.New w).1)
                src (name scrape.NewSiteDossier) (name scrape.NewSiteDossier +:+ "-Handler")
                (scrape.siteDossier_pages env scrape.NewSiteDossier dname 1 stringset.New w).2)
      as (Hts & _ & Hf & _).
    unfold scrape.siteDossier_query, scrape.siteDossier_store.
    erewrite performed_bind; [|exact Ht | exact Hts].
    rewrite requests_fetched, fetched_app, Hf, app_nil_r.
    destruct (paged_spec _ _ _ _ Hp) as (_ & H2 & _).
    rewrite H2. apply map_ext. intros i. apply page_request_url. }
  split; [exact Hreq|]. split.
  - rewrite Hreq. apply NoDup_fmap_2; [|apply NoDup_seqZ].
    intros i j H. apply (siteDossier_url_inj dname). exact (f_equal ReqURL H).
  - destruct (duckDuckGo_query_run env scrape.NewDuckDuckGo e dname src w) as (resp & Hf & _).
    rewrite requests_fetched, Hf. cbn [map fst]. rewrite duckDuckGo_request_url. reflexivity.
Qed.

(** ** Start and Stop *)

(** X23. [Start] of each of the five FQDN plugins asks the registry once, to
    register for FQDN events a handler named after the plugin whose callback
    is the plugin's [check]; it returns the registry's answer, logs
    [Plugin started] only when that answer is nil, and leaves the
    logger set, so that [Stop] afterwards logs [Plugin stopped] whether or
    not the registration was accepted.  [Stop] on a plugin that was never
    started dereferences the nil logger. *)
Theorem X23_Start_registers_check_for_FQDN_events (p : pipeline) (r : Registry) :
  exists h,
    (Start p r).1.1 = Answer r (calls r) h
    /\ calls (Start p r).2
       = calls r ++ CallRegisterHandler h (Start p r).1.1
                 :: match (Start p r).1.1 with
                    | None => [CallInfo (plugin_logger r (name (plugin_of p))) "Plugin started"]
                    | Some _ => []
                    end
    /\ HName h = name (plugin_of p) +:+ "-Handler"
    /\ EventType h = "FQDN"
    /\ Transforms h = ["FQDN"]
    /\ (forall env e, Callback h env e = check p env e)
    /\ Stop p (Start p r).1.2 (Start p r).2
       = Some (Info (plugin_logger r (name (plugin_of p))) "Plugin stopped" (Start p r).2)
    /\ Stop p (constructed (plugin_of p)) r = None.
Proof.
  destruct p; cbn [Start];
    unfold api.chaos_Start, api.securityTrails_Start, api.crtsh_Start,
      scrape.duckDuckGo_Start, scrape.siteDossier_Start, RegisterHandler;
    cbn -[String.append];
    match goal with |- context [Answer r (calls r) ?h] =>
      exists h; destruct (Answer r (calls r) h) end;
    cbn -[String.append]; rewrite <- ?app_assoc; repeat split.
Qed.

(** X24. [Start] of the WHOIS plugin registers the FQDN handler, with priority
    3, before the domain record handler, and stops at the first registration
    the registry refuses: it returns that error, asks for nothing more and
    logs nothing, and after a refused first registration the [domrec] field
    is still nil.  [Plugin started] is logged only after both were
    accepted. *)
Theorem X24_whois_Start_stops_at_the_first_refusal
    (fc : whois.fqdnLookup -> Env -> Event -> M error)
    (dc : whois.domrec -> Env -> Event -> M error)
    (w : whois.whois) (r : Registry) :
  exists hf hd f d,
    HName hf = whois.whois_Name w +:+ "-FQDN-Handler" /\ Priority hf = 3
    /\ EventType hf = "FQDN" /\ Transforms hf = ["DomainRecord"] /\ Callback hf = fc f
    /\ HName hd = whois.whois_Name w +:+ "-Domain-Record-Handler"
    /\ EventType hd = "DomainRecord" /\ length (Transforms hd) = 8%nat /\ Callback hd = dc d
    /\ whois.wfqdn (whois.whois_Start fc dc w r).1.2 = Some f
    /\ let e1 := Answer r (calls r) hf in
       let e2 := Answer r (calls r ++ [CallRegisterHandler hf None]) hd in
       let l := plugin_logger r (whois.whois_Name w) in
       match e1, e2 with
       | Some _, _ =>
           (whois.whois_Start fc dc w r).1.1 = e1
           /\ calls (whois.whois_Start fc dc w r).2 = calls r ++ [CallRegisterHandler hf e1]
           /\ whois.wdomrec (whois.whois_Start fc dc w r).1.2 = whois.wdomrec w
       | None, Some _ =>
           (whois.whois_Start fc dc w r).1.1 = e2
           /\ calls (whois.whois_Start fc dc w r).2
              = calls r ++ [CallRegisterHandler hf None; CallRegisterHandler hd e2]
           /\ whois.wdomrec (whois.whois_Start fc dc w r).1.2 = Some d
       | None, None =>
           (whois.whois_Start fc dc w r).1.1 = None
           /\ calls (whois.whois_Start fc dc w r).2
              = calls r ++ [CallRegisterHandler hf None; CallRegisterHandler hd None;
                            CallInfo l "Plugin started"]
           /\ whois.wdomrec (whois.whois_Start fc dc w r).1.2 = Some d
           /\ whois.whois_Stop (whois.whois_Start fc dc w r).1.2
                                 (whois.whois_Start fc dc w r).2
              = Some (Info l "Plugin stopped" (whois.whois_Start fc dc w r).2)
       end.
Proof.
  unfold whois.whois_Start, RegisterHandler; cbn -[String.append].
  match goal with |- context [Answer r (calls r) ?h] => exists h; set (hf := h) end.
  match goal with |- context [Answer r (calls r ++ [CallRegisterHandler hf _]) ?h] =>
    exists h; set (hd := h) end.
  eexists _, _.
  destruct (Answer r (calls r) hf) as [e1|] eqn:E1; cbn -[String.append].
  - repeat split; reflexivity.
  - destruct (Answer r (calls r ++ [CallRegisterHandler hf None]) hd) as [e2|] eqn:E2;
      cbn -[String.append]; rewrite <- ?app_assoc; repeat split; reflexivity.
Qed.
